(** * Subitem link automation: webhook handler and remote access layer

    A shallow embedding of the link-propagation service:

    - [config]                         (config.ts)
    - [mondayQuery], [getSubitemWithParent], [getMainItemLinkedIds],
      [updateMainItemLinks], [parseLinkedItemIds]      (monday-client.ts)
    - [handleWebhookEvent] for subitem changes delivered to the parent board
      and [handleWebhookEvent_direct] for direct changes delivered to the
      subitem board                    (webhook-handler.ts, its two revisions)

    JavaScript values are modelled by the inductive type [jsval]; numbers are
    integers or [NaN] (item and board ids are integers well inside the range in
    which a double is exact; fractional numbers and the distinction between
    +0 and -0 are outside the model).  Asynchronous code is sequential
    (every call is awaited), so a computation is a function from the state of
    the world to a result and a new state; an exception is a result.  The
    remote platform, [Math.random] and [JSON.parse] are parameters, gathered
    in the class [Platform].

    The statements follow the definitions: the retry policy of [mondayQuery],
    the footprint of reads and writes, the merged set, relation values that
    cannot be read, events out of scope, the resolution of the parent, and
    the isolation of the items of one event. *)

From Stdlib Require Import List String Ascii ZArith QArith Qminmax Bool Lia.
From Stdlib Require Import DecimalString.
From Stdlib Require DecimalPos.
Import ListNotations.

Local Set Warnings "-register-all".
Local Open Scope string_scope.
Local Open Scope Z_scope.

(* ================================================================== *)
(** ** JavaScript values *)
(* ================================================================== *)

Inductive number : Type :=
| NaN
| Int (z : Z).

Inductive jsval : Type :=
| Undefined
| Null
| Bool (b : bool)
| Number (n : number)
| Str (s : string)
| Array (elements : list jsval)
| Object (fields : list (string * jsval)).

Definition number_eqb (a b : number) : bool :=
  match a, b with
  | NaN, NaN => true
  | Int x, Int y => Z.eqb x y
  | _, _ => false
  end.

(** Truthiness of a number: [0] and [NaN] are falsy. *)
Definition truthy_number (n : number) : bool :=
  match n with
  | NaN => false
  | Int z => negb (Z.eqb z 0)
  end.

(** Truthiness ([ToBoolean]). *)
Definition truthy (v : jsval) : bool :=
  match v with
  | Undefined | Null => false
  | Bool b => b
  | Number n => truthy_number n
  | Str s => negb (String.eqb s EmptyString)
  | Array _ | Object _ => true
  end.

(** [Array.prototype.includes] and [Set] compare with SameValueZero: primitives
    by value ([NaN] equal to itself), arrays and objects by identity.  Every
    array or object met here is a distinct node of one parsed document and is
    only ever compared with another element or with a number, so two of them
    are never the same. *)
Definition sameValueZero (a b : jsval) : bool :=
  match a, b with
  | Undefined, Undefined => true
  | Null, Null => true
  | Bool x, Bool y => Bool.eqb x y
  | Number x, Number y => number_eqb x y
  | Str x, Str y => String.eqb x y
  | _, _ => false
  end.

(** [xs.includes(x)] *)
Definition includes (xs : list jsval) (x : jsval) : bool :=
  existsb (fun y => sameValueZero y x) xs.

(** [set.add(x)] on a set kept as the list of its elements in insertion
    order. *)
Definition Set_add (set : list jsval) (x : jsval) : list jsval :=
  if includes set x then set else set ++ [x].

(** [[...new Set(xs)]]: every element is added in turn to an empty set, and
    the set is then read in insertion order. *)
Definition Set_spread (xs : list jsval) : list jsval :=
  fold_left Set_add xs [].

(** [v.key] for a value that is neither [null] nor [undefined]; the caller
    handles those two (property access on them throws).  The members of a
    parsed object have distinct keys. *)
Fixpoint lookup_field (key : string) (fields : list (string * jsval)) : jsval :=
  match fields with
  | [] => Undefined
  | (k, v) :: rest => if String.eqb k key then v else lookup_field key rest
  end.

Definition get_property (v : jsval) (key : string) : jsval :=
  match v with
  | Object fields => lookup_field key fields
  | _ => Undefined
  end.

(** [Array.isArray] *)
Definition Array_isArray (v : jsval) : bool :=
  match v with
  | Array _ => true
  | _ => false
  end.

(* ------------------------------------------------------------------ *)
(** *** Conversions between numbers and strings *)

(** [String(n)] for an integer: its decimal digits. *)
Definition String_of_Z (z : Z) : string :=
  NilZero.string_of_int (Z.to_int z).

Definition String_of_nat (n : nat) : string :=
  String_of_Z (Z.of_nat n).

Definition is_whitespace (c : ascii) : bool :=
  let n := nat_of_ascii c in
  (Nat.eqb n 9 || Nat.eqb n 10 || Nat.eqb n 11 || Nat.eqb n 12
   || Nat.eqb n 13 || Nat.eqb n 32)%bool.

Definition digit_of (c : ascii) : option Z :=
  let n := nat_of_ascii c in
  if (Nat.leb 48 n && Nat.leb n 57)%bool then Some (Z.of_nat (n - 48)) else None.

Fixpoint skip_whitespace (s : string) : string :=
  match s with
  | String c rest => if is_whitespace c then skip_whitespace rest else s
  | EmptyString => s
  end.

(** The longest prefix of decimal digits, read as a number; [None] when the
    prefix is empty. *)
Fixpoint read_digits (s : string) (acc : option Z) : option Z :=
  match s with
  | String c rest =>
      match digit_of c with
      | Some d =>
          read_digits rest (Some (10 * match acc with Some a => a | None => 0 end + d))
      | None => acc
      end
  | EmptyString => acc
  end.

(** [parseInt(s, 10)] *)
Definition parseInt10 (s : string) : number :=
  let s1 := skip_whitespace s in
  let (negative, s2) :=
    match s1 with
    | String "-" rest => (true, rest)
    | String "+" rest => (false, rest)
    | _ => (false, s1)
    end in
  match read_digits s2 None with
  | Some z => Int (if negative then - z else z)
  | None => NaN
  end.

(* ================================================================== *)
(** ** Configuration (config.ts) *)
(* ================================================================== *)

Record Boards : Type := {
  subitem : Z;
  feature : Z;
  main : Z
}.

Record Columns : Type := {
  subitemToMain : string;
  mainToFeature : string
}.

Record Retry : Type := {
  maxAttempts : nat;
  baseDelayMs : Z;
  maxDelayMs : Z
}.

Record Config : Type := {
  mondayToken : string;
  mondayApiUrl : string;
  webhookSigningSecret : string;
  port : number;
  dryRun : bool;
  boards : Boards;
  columns : Columns;
  retry : Retry
}.

(** The part of [process.env] that the configuration reads. *)
Record ProcessEnv : Type := {
  MONDAY_TOKEN : option string;
  WEBHOOK_SIGNING_SECRET : option string;
  PORT : option string;
  DRY_RUN : option string
}.

(** [process.env.X || fallback] *)
Definition env_or (x : option string) (fallback : string) : string :=
  match x with
  | Some s => if String.eqb s EmptyString then fallback else s
  | None => fallback
  end.

Definition config (env : ProcessEnv) : Config := {|
  mondayToken := env_or (MONDAY_TOKEN env) EmptyString;
  mondayApiUrl := "https://api.monday.com/v2";
  webhookSigningSecret := env_or (WEBHOOK_SIGNING_SECRET env) EmptyString;
  port := parseInt10 (env_or (PORT env) "3001");
  dryRun := match DRY_RUN env with
            | Some s => String.eqb s "true"
            | None => false
            end;
  boards := {| subitem := 18041802160;
               feature := 18041801957;
               main := 18012438587 |};
  columns := {| subitemToMain := "board_relation_mkw4vrjt";
                mainToFeature := "board_relation_mkw8vvdh" |};
  retry := {| maxAttempts := 3;
              baseDelayMs := 1000;
              maxDelayMs := 10000 |}
|}.

(* ================================================================== *)
(** ** Webhook payloads (webhook-handler.ts) *)
(* ================================================================== *)

Record LinkedPulse : Type := { linkedPulseId : Z }.

Record EventValue : Type := { linkedPulseIds : option (list LinkedPulse) }.

(** The members of [WebhookEvent.event] that the handler reads.  The revision
    of the handler for direct column-change events declares no [subitemId],
    [subitemBoardId], [parentItemId] and [parentItemBoardId]. *)
Record Event : Type := {
  boardId : Z;
  pulseId : Z;
  subitemId : option Z;
  subitemBoardId : option Z;
  parentItemId : option Z;
  parentItemBoardId : option Z;
  columnId : string;
  value : option EventValue
}.

Inductive Payload : Type :=
| WebhookChallenge (challenge : string)
| WebhookEvent (event : Event).

(** What [handleWebhookEvent] resolves to. *)
Record Outcome : Type := {
  challenge : option string;
  success : option bool;
  message : option string;
  outcome_dryRun : option bool
}.

(** Truthiness of an optional numeric member. *)
Definition truthy_opt (x : option Z) : bool :=
  match x with
  | Some z => negb (Z.eqb z 0)
  | None => false
  end.

(** [x || y] for an optional numeric member [x]. *)
Definition or_else (x : option Z) (y : Z) : Z :=
  match x with
  | Some z => if Z.eqb z 0 then y else z
  | None => y
  end.

(** [event.value?.linkedPulseIds?.map(p => p.linkedPulseId) || []] *)
Definition event_linkedMainItemIds (event : Event) : list Z :=
  match value event with
  | Some v =>
      match linkedPulseIds v with
      | Some ps => map linkedPulseId ps
      | None => []
      end
  | None => []
  end.

(* ================================================================== *)
(** ** Computations with exceptions over a world *)
(* ================================================================== *)

(** A JavaScript [Error]; only its message is observed. *)
Record Error : Type := mkError { error_message : string }.

Inductive Result (A : Type) : Type :=
| Returns (a : A)
| Throws (e : Error).

Arguments Returns {A} a.
Arguments Throws {A} e.

Inductive LogLevel : Type := debug | info | warn | error.

(** A line written by logger.ts.  The structured context object of a line has
    no influence on control flow; of it only the request id is kept. *)
Record LogEntry : Type := {
  log_level : LogLevel;
  log_message : string;
  log_requestId : option string
}.

(* ------------------------------------------------------------------ *)
(** *** Wire types of the remote API (monday-client.ts) *)

Record ColumnValue : Type := {
  cv_id : string;
  cv_value : option string;        (* string | null *)
  cv_type : string
}.

Record ParentItem : Type := {
  parent_id : string;
  parent_board_id : string         (* parent_item.board.id *)
}.

(** [SubitemWithParent]; [MainItemRelations] is the same record without
    [parent_item]. *)
Record Item : Type := {
  item_id : string;
  item_name : string;
  parent_item : option ParentItem;
  column_values : list ColumnValue
}.

(** The [data] member of a response: one of the three response types the
    client declares. *)
Inductive Data : Type :=
| ItemsData (items : list Item)               (* { items: [...] } *)
| ChangeColumnValueData (id : string).        (* { change_column_value: { id } } *)

Record GraphQLError : Type := { gql_message : string }.

Record GraphQLResponse : Type := {
  data : option Data;
  errors : option (list GraphQLError)
}.

Record Response : Type := {
  ok : bool;
  status : Z;
  statusText : string;
  json : Error + GraphQLResponse   (* response.json() rejects or resolves *)
}.

(** The query document and its variables. *)
Inductive GraphQL : Type :=
| GetSubitemWithParent (columnId : string) (itemId : list string)
| GetMainItemLinks (columnId : string) (itemId : list string)
| UpdateMainItemLinks (boardId itemId columnId : string)
                      (item_ids : list jsval).  (* value: JSON.stringify({ item_ids }) *)

Record Request : Type := {
  req_url : string;
  req_authorization : string;
  req_body : GraphQL
}.

Inductive FetchOutcome : Type :=
| FetchRejects (e : Error)
| FetchResolves (r : Response).

Definition is_write (r : Request) : bool :=
  match req_body r with
  | UpdateMainItemLinks _ _ _ _ => true
  | _ => false
  end.

(** ['a, b, c'] for [msgs.join(', ')] *)
Fixpoint join (sep : string) (xs : list string) : string :=
  match xs with
  | [] => EmptyString
  | [x] => x
  | x :: rest => x ++ sep ++ join sep rest
  end.

(** The world outside the process: the remote platform with the network in
    front of it, an arbitrary state machine that answers one request at a
    time; [Math_random k], the value in [0, 1) of the [k]-th call of
    [Math.random()]; and [JSON.parse], with [None] for a [SyntaxError]. *)
Class Platform : Type := {
  Net : Type;
  transport : Request -> Net -> FetchOutcome * Net;
  Math_random : nat -> Q;
  JSON_parse : string -> option jsval
}.

Section Computations.

Context {platform : Platform}.

Record World : Type := {
  net : Net;
  calls : list Request;            (* requests sent, oldest first *)
  sleeps : list Q;                 (* delays slept, oldest first *)
  randoms : nat;                   (* calls of Math.random() so far *)
  console : list LogEntry          (* lines logged, oldest first *)
}.

(** The world when a request comes in: nothing sent, slept or logged yet. *)
Definition fresh (n : Net) : World :=
  {| net := n; calls := []; sleeps := []; randoms := 0; console := [] |}.

Definition M (A : Type) : Type := World -> Result A * World.

Definition ret {A} (a : A) : M A := fun w => (Returns a, w).

Definition throw {A} (e : Error) : M A := fun w => (Throws e, w).

Definition bind {A B} (m : M A) (k : A -> M B) : M B :=
  fun w =>
    match m w with
    | (Returns a, w') => k a w'
    | (Throws e, w') => (Throws e, w')
    end.

(** [try { body } catch (e) { handler(e) }] *)
Definition try_catch {A} (body : M A) (handler : Error -> M A) : M A :=
  fun w =>
    match body w with
    | (Returns a, w') => (Returns a, w')
    | (Throws e, w') => handler e w'
    end.

Definition log (level : LogLevel) (message : string) (requestId : option string)
  : M unit :=
  fun w =>
    (Returns tt,
     {| net := net w; calls := calls w; sleeps := sleeps w; randoms := randoms w;
        console := console w ++ [{| log_level := level;
                                    log_message := message;
                                    log_requestId := requestId |}] |}).

Definition fetch (r : Request) : M Response :=
  fun w =>
    let (outcome, n') := transport r (net w) in
    let w' := {| net := n'; calls := calls w ++ [r]; sleeps := sleeps w;
                 randoms := randoms w; console := console w |} in
    match outcome with
    | FetchRejects e => (Throws e, w')
    | FetchResolves resp => (Returns resp, w')
    end.

Definition random : M Q :=
  fun w =>
    (Returns (Math_random (randoms w)),
     {| net := net w; calls := calls w; sleeps := sleeps w;
        randoms := S (randoms w); console := console w |}).

Definition sleep (ms : Q) : M unit :=
  fun w =>
    (Returns tt,
     {| net := net w; calls := calls w; sleeps := sleeps w ++ [ms];
        randoms := randoms w; console := console w |}).

Definition response_json (resp : Response) : M GraphQLResponse :=
  match json resp with
  | inl e => throw e
  | inr body => ret body
  end.

End Computations.

Notation "x <- m ;; k" := (bind m (fun x => k))
  (at level 100, m at next level, right associativity).
Notation "m ;;; k" := (bind m (fun _ => k))
  (at level 100, right associativity).

(* ================================================================== *)
(** ** Remote access layer (monday-client.ts) *)
(* ================================================================== *)

Section Service.

Context {platform : Platform}.
Variable cfg : Config.

(** What [mondayQuery] hands to [fetch]. *)
Definition mondayQuery_request (query : GraphQL) : Request :=
  {| req_url := mondayApiUrl cfg;
     req_authorization := mondayToken cfg;
     req_body := query |}.

(** The body of the [try] block of [mondayQuery]: one attempt. *)
Definition mondayQuery_attempt (query : GraphQL) : M Data :=
  response <- fetch (mondayQuery_request query) ;;
  if negb (ok response) then
    throw (mkError ("HTTP " ++ String_of_Z (status response) ++ ": "
                    ++ statusText response))
  else
    result <- response_json response ;;
    match errors result with
    | Some (e :: es) =>
        throw (mkError ("GraphQL errors: " ++ join ", " (map gql_message (e :: es))))
    | _ =>
        match data result with
        | None => throw (mkError "No data in response")
        | Some d => ret d
        end
    end.

(** [Math.min(baseDelayMs * Math.pow(2, attempt - 1) + Math.random() * 500, maxDelayMs)] *)
Definition backoff_delay (attempt : nat) (rnd : Q) : Q :=
  Qmin (inject_Z (baseDelayMs (retry cfg) * 2 ^ Z.of_nat (attempt - 1))
        + rnd * inject_Z 500)%Q
       (inject_Z (maxDelayMs (retry cfg))).

(** The [for] loop of [mondayQuery], entered at [attempt] with
    [remaining = maxAttempts - attempt + 1] iterations to go. *)
Fixpoint mondayQuery_loop (remaining attempt : nat) (lastError : option Error)
         (query : GraphQL) (requestId : option string) : M Data :=
  match remaining with
  | O =>
      throw (match lastError with
             | Some e => e
             | None => mkError "Unknown error during API call"
             end)
  | S remaining' =>
      fun w =>
        match mondayQuery_attempt query w with
        | (Returns d, w') => (Returns d, w')
        | (Throws e, w') =>
            (log warn ("Monday API call failed (attempt " ++ String_of_nat attempt
                       ++ "/" ++ String_of_nat (maxAttempts (retry cfg)) ++ ")")
                 requestId ;;;
             (if Nat.ltb attempt (maxAttempts (retry cfg)) then
                rnd <- random ;;
                sleep (backoff_delay attempt rnd)
              else ret tt) ;;;
             mondayQuery_loop remaining' (S attempt) (Some e) query requestId) w'
        end
  end.

Definition mondayQuery (query : GraphQL) (requestId : option string) : M Data :=
  mondayQuery_loop (maxAttempts (retry cfg)) 1 None query requestId.

(** [result.items]; reading [items[0]] of a response without that member
    throws a [TypeError]. *)
Definition items_of (d : Data) : M (list Item) :=
  match d with
  | ItemsData items => ret items
  | ChangeColumnValueData _ =>
      throw (mkError "Cannot read properties of undefined (reading '0')")
  end.

Definition getSubitemWithParent (subitemId : Z) (requestId : option string)
  : M (option Item) :=
  result <- mondayQuery (GetSubitemWithParent (subitemToMain (columns cfg))
                                              [String_of_Z subitemId])
                        requestId ;;
  items <- items_of result ;;
  ret (hd_error items).                       (* result.items[0] || null *)

(** [parsed.linkedPulseIds.map(item => item.linkedPulseId)]: [None] when an
    element is [null] or [undefined] (the callback throws a [TypeError]). *)
Fixpoint map_linkedPulseId (elements : list jsval) : option (list jsval) :=
  match elements with
  | [] => Some []
  | item :: rest =>
      match item with
      | Undefined | Null => None
      | _ =>
          match map_linkedPulseId rest with
          | Some ids => Some (get_property item "linkedPulseId" :: ids)
          | None => None
          end
      end
  end.

(** The [try] block shared by [getMainItemLinkedIds] and [parseLinkedItemIds]:
    [inl ids] when it returns from inside the block, [inr false] when it falls
    through the [if], [inr true] when it lands in [catch]. *)
Definition parse_relation_value (raw : string) : list jsval + bool :=
  match JSON_parse raw with
  | None => inr true
  | Some parsed =>
      (* parsed?.linkedPulseIds *)
      let linkedPulseIds :=
        match parsed with
        | Undefined | Null => Undefined
        | _ => get_property parsed "linkedPulseIds"
        end in
      if (truthy linkedPulseIds && Array_isArray linkedPulseIds)%bool then
        match linkedPulseIds with
        | Array elements =>
            match map_linkedPulseId elements with
            | Some ids => inl ids
            | None => inr true
            end
        | _ => inr false
        end
      else inr false
  end.

Definition getMainItemLinkedIds (mainItemId : Z) (requestId : option string)
  : M (list jsval) :=
  result <- mondayQuery (GetMainItemLinks (mainToFeature (columns cfg))
                                          [String_of_Z mainItemId])
                        requestId ;;
  items <- items_of result ;;
  match hd_error items with
  | None => ret []
  | Some mainItem =>
      match find (fun col => String.eqb (cv_id col) (mainToFeature (columns cfg)))
                 (column_values mainItem) with
      | None => ret []
      | Some relationColumn =>
          match cv_value relationColumn with
          | None => ret []
          | Some raw =>
              if String.eqb raw EmptyString then ret []
              else
                match parse_relation_value raw with
                | inl ids => ret ids
                | inr false => ret []
                | inr true =>
                    log warn "Failed to parse relation column value" requestId ;;;
                    ret []
                end
          end
      end
  end.

Definition updateMainItemLinks (mainItemId boardId : Z) (linkedItemIds : list jsval)
           (requestId : option string) : M unit :=
  mondayQuery (UpdateMainItemLinks (String_of_Z boardId) (String_of_Z mainItemId)
                                   (mainToFeature (columns cfg)) linkedItemIds)
              requestId ;;;
  ret tt.

(** [parseLinkedItemIds]: no effects, and every exception is caught inside. *)
Definition parseLinkedItemIds (columnValue : option string) : list jsval :=
  match columnValue with
  | None => []
  | Some raw =>
      if String.eqb raw EmptyString then []
      else
        match parse_relation_value raw with
        | inl ids => ids
        | inr _ => []
        end
  end.

(* ================================================================== *)
(** ** Webhook handler (webhook-handler.ts) *)
(* ================================================================== *)

Record Counts : Type := {
  updatedCount : nat;
  skippedCount : nat
}.

Definition rejected (reason : string) : Outcome :=
  {| challenge := None; success := Some false; message := Some reason;
     outcome_dryRun := None |}.

(** The chain that fixes [parentId] and [parentBoardId]: the parent of the
    fetched subitem, else the nested members of the event, else its top-level
    members; [None] when the chain ends in its last [else]. *)
Definition handleWebhookEvent_parent (subitem : Item) (event : Event)
  : option (number * number) :=
  match parent_item subitem with
  | Some p => Some (parseInt10 (parent_id p), parseInt10 (parent_board_id p))
  | None =>
      let top_level :=
        if (negb (Z.eqb (pulseId event) 0) && negb (Z.eqb (boardId event) 0))%bool
        then Some (Int (pulseId event), Int (boardId event))
        else None in
      match parentItemId event, parentItemBoardId event with
      | Some nestedId, Some nestedBoardId =>
          if (negb (Z.eqb nestedId 0) && negb (Z.eqb nestedBoardId 0))%bool
          then Some (Int nestedId, Int nestedBoardId)
          else top_level
      | _, _ => top_level
      end
  end.

(** The [try] block in the body of the loop over [linkedMainItemIds]. *)
Definition handleWebhookEvent_item (parentId : number) (requestId : string)
           (counts : Counts) (mainItemId : Z) : M Counts :=
  existingLinkedIds <- getMainItemLinkedIds mainItemId (Some requestId) ;;
  log debug "Existing links on main item" (Some requestId) ;;;
  if includes existingLinkedIds (Number parentId) then
    log info "Parent already linked to main item, skipping" (Some requestId) ;;;
    ret {| updatedCount := updatedCount counts;
           skippedCount := S (skippedCount counts) |}
  else
    let mergedLinkedIds := Set_spread (existingLinkedIds ++ [Number parentId]) in
    log info "Updating main item with parent link" (Some requestId) ;;;
    (if dryRun cfg then
       log info "[DRY-RUN] Would update main item links" (Some requestId)
     else
       updateMainItemLinks mainItemId (main (boards cfg)) mergedLinkedIds
                           (Some requestId)) ;;;
    ret {| updatedCount := S (updatedCount counts);
           skippedCount := skippedCount counts |}.

(** One iteration of the loop: the [try] block and its [catch]. *)
Definition handleWebhookEvent_iteration (parentId : number) (requestId : string)
           (counts : Counts) (mainItemId : Z) : M Counts :=
  try_catch (handleWebhookEvent_item parentId requestId counts mainItemId)
            (fun _ =>
               log error "Failed to update main item" (Some requestId) ;;;
               ret counts).

(** The loop over [linkedMainItemIds]. *)
Fixpoint handleWebhookEvent_loop (parentId : number) (requestId : string)
         (counts : Counts) (linkedMainItemIds : list Z) : M Counts :=
  match linkedMainItemIds with
  | [] => ret counts
  | mainItemId :: rest =>
      counts' <- handleWebhookEvent_iteration parentId requestId counts mainItemId ;;
      handleWebhookEvent_loop parentId requestId counts' rest
  end.

(** Everything after the parent has been resolved; both revisions of the
    handler end with these statements. *)
Definition handleWebhookEvent_links (parentId parentBoardId : number)
           (requestId : string) (linkedMainItemIds : list Z) : M Outcome :=
  if negb (number_eqb parentBoardId (Int (feature (boards cfg)))) then
    log warn "Parent item is not from Feature board, ignoring" (Some requestId) ;;;
    ret (rejected "Parent item not from expected Feature board")
  else
    log info "Found parent item" (Some requestId) ;;;
    counts <- handleWebhookEvent_loop parentId requestId
                {| updatedCount := 0; skippedCount := 0 |} linkedMainItemIds ;;
    log info "Finished processing webhook event" (Some requestId) ;;;
    ret {| challenge := None;
           success := Some true;
           message := Some ("Updated " ++ String_of_nat (updatedCount counts)
                            ++ " main items, skipped "
                            ++ String_of_nat (skippedCount counts));
           outcome_dryRun := Some (dryRun cfg) |}.

(** [handleWebhookEvent] of the revision that is registered on the parent
    board and listens to subitem column changes. *)
Definition handleWebhookEvent (payload : Payload) (requestId : string) : M Outcome :=
  match payload with
  | WebhookChallenge c =>
      log info "Responding to webhook challenge" (Some requestId) ;;;
      ret {| challenge := Some c; success := None; message := None;
             outcome_dryRun := None |}
  | WebhookEvent event =>
      let subitemId := or_else (subitemId event) (pulseId event) in
      (* [event.parentItemId || event.pulseId] is computed here for the log
         line only *)
      log info "Received webhook event" (Some requestId) ;;;
      if (negb (Z.eqb (boardId event) (subitem (boards cfg)))
          && negb (Z.eqb (boardId event) (feature (boards cfg))))%bool then
        log warn "Ignoring event from unexpected board" (Some requestId) ;;;
        ret (rejected "Event from unexpected board")
      else if negb (String.eqb (columnId event) (subitemToMain (columns cfg))) then
        log debug "Ignoring event for non-target column" (Some requestId) ;;;
        ret (rejected "Event for non-target column")
      else
        let linkedMainItemIds := event_linkedMainItemIds event in
        if Nat.eqb (List.length linkedMainItemIds) 0 then
          log info "No linked main items in event, nothing to do" (Some requestId) ;;;
          ret {| challenge := None; success := Some true;
                 message := Some "No linked items to process";
                 outcome_dryRun := None |}
        else
          log info "Processing subitem link change" (Some requestId) ;;;
          fetched <- getSubitemWithParent subitemId (Some requestId) ;;
          match fetched with
          | None =>
              log error "Failed to fetch subitem" (Some requestId) ;;;
              ret (rejected "Failed to fetch subitem")
          | Some subitem =>
              match handleWebhookEvent_parent subitem event with
              | None =>
                  log warn "Subitem has no parent item info" (Some requestId) ;;;
                  ret (rejected "Subitem has no parent item")
              | Some (parentId, parentBoardId) =>
                  handleWebhookEvent_links parentId parentBoardId requestId
                                           linkedMainItemIds
              end
          end
  end.

(** [handleWebhookEvent] of the revision that is registered on the subitem
    board and listens to direct column changes: one accepted board, and the
    parent comes from the fetched subitem only. *)
Definition handleWebhookEvent_direct (payload : Payload) (requestId : string)
  : M Outcome :=
  match payload with
  | WebhookChallenge c =>
      log info "Responding to webhook challenge" (Some requestId) ;;;
      ret {| challenge := Some c; success := None; message := None;
             outcome_dryRun := None |}
  | WebhookEvent event =>
      log info "Received webhook event" (Some requestId) ;;;
      if negb (Z.eqb (boardId event) (subitem (boards cfg))) then
        log warn "Ignoring event from unexpected board" (Some requestId) ;;;
        ret (rejected "Event from unexpected board")
      else if negb (String.eqb (columnId event) (subitemToMain (columns cfg))) then
        log debug "Ignoring event for non-target column" (Some requestId) ;;;
        ret (rejected "Event for non-target column")
      else
        let linkedMainItemIds := event_linkedMainItemIds event in
        if Nat.eqb (List.length linkedMainItemIds) 0 then
          log info "No linked main items in event, nothing to do" (Some requestId) ;;;
          ret {| challenge := None; success := Some true;
                 message := Some "No linked items to process";
                 outcome_dryRun := None |}
        else
          log info "Processing subitem link change" (Some requestId) ;;;
          fetched <- getSubitemWithParent (pulseId event) (Some requestId) ;;
          match fetched with
          | None =>
              log error "Failed to fetch subitem" (Some requestId) ;;;
              ret (rejected "Failed to fetch subitem")
          | Some subitem =>
              match parent_item subitem with
              | None =>
                  log warn "Subitem has no parent item" (Some requestId) ;;;
                  ret (rejected "Subitem has no parent item")
              | Some p =>
                  handleWebhookEvent_links (parseInt10 (parent_id p))
                                           (parseInt10 (parent_board_id p))
                                           requestId linkedMainItemIds
              end
          end
  end.

End Service.

(* ================================================================== *)
(** ** Sample platforms *)
(* ================================================================== *)

(** Concrete platforms on which the service can be run: a reader for the
    fragment of JSON that relation-column values are written in, a network
    that replays a script of answers, and a small remote board that stores
    relation sets. *)
Module Sample.

Fixpoint strip_prefix (p s : string) : option string :=
  match p, s with
  | EmptyString, _ => Some s
  | String a p', String b s' => if Ascii.eqb a b then strip_prefix p' s' else None
  | String _ _, EmptyString => None
  end.

(** The characters up to the closing quote; escapes are outside the fragment. *)
Fixpoint read_string (s : string) : option (string * string) :=
  match s with
  | EmptyString => None
  | String c rest =>
      if Ascii.eqb c "034"%char then Some (EmptyString, rest)
      else if Ascii.eqb c "\"%char then None
      else match read_string rest with
           | Some (body, rest') => Some (String c body, rest')
           | None => None
           end
  end.

Fixpoint drop_digits (s : string) : string :=
  match s with
  | String c rest =>
      match digit_of c with
      | Some _ => drop_digits rest
      | None => s
      end
  | EmptyString => s
  end.

(** An integer literal; fractions and exponents are outside the fragment. *)
Definition read_integer (s : string) : option (jsval * string) :=
  let (negative, digits) :=
    match s with
    | String "-" rest => (true, rest)
    | _ => (false, s)
    end in
  match read_digits digits None with
  | Some z => Some (Number (Int (if negative then - z else z)), drop_digits digits)
  | None => None
  end.

Fixpoint read_value (fuel : nat) (s : string) {struct fuel}
  : option (jsval * string) :=
  match fuel with
  | O => None
  | S fuel' =>
      let read_elements :=
        fix read_elements (n : nat) (s : string) {struct n}
          : option (list jsval * string) :=
          match n with
          | O => None
          | S n' =>
              match read_value fuel' s with
              | Some (v, rest) =>
                  match skip_whitespace rest with
                  | String "," rest' =>
                      match read_elements n' rest' with
                      | Some (vs, rest'') => Some (v :: vs, rest'')
                      | None => None
                      end
                  | String "]" rest' => Some ([v], rest')
                  | _ => None
                  end
              | None => None
              end
          end in
      let read_members :=
        fix read_members (n : nat) (s : string) {struct n}
          : option (list (string * jsval) * string) :=
          match n with
          | O => None
          | S n' =>
              match skip_whitespace s with
              | String "034" rest =>
                  match read_string rest with
                  | Some (key, rest1) =>
                      match skip_whitespace rest1 with
                      | String ":" rest2 =>
                          match read_value fuel' rest2 with
                          | Some (v, rest3) =>
                              match skip_whitespace rest3 with
                              | String "," rest4 =>
                                  match read_members n' rest4 with
                                  | Some (ms, rest5) => Some ((key, v) :: ms, rest5)
                                  | None => None
                                  end
                              | String "}" rest4 => Some ([(key, v)], rest4)
                              | _ => None
                              end
                          | None => None
                          end
                      | _ => None
                      end
                  | None => None
                  end
              | _ => None
              end
          end in
      match skip_whitespace s with
      | String "n" _ =>
          option_map (fun rest => (Null, rest)) (strip_prefix "null" (skip_whitespace s))
      | String "t" _ =>
          option_map (fun rest => (Bool true, rest))
                     (strip_prefix "true" (skip_whitespace s))
      | String "f" _ =>
          option_map (fun rest => (Bool false, rest))
                     (strip_prefix "false" (skip_whitespace s))
      | String "034" rest =>
          option_map (fun '(body, rest') => (Str body, rest')) (read_string rest)
      | String "[" rest =>
          match skip_whitespace rest with
          | String "]" rest' => Some (Array [], rest')
          | _ => option_map (fun '(vs, rest') => (Array vs, rest'))
                            (read_elements fuel' rest)
          end
      | String "{" rest =>
          match skip_whitespace rest with
          | String "}" rest' => Some (Object [], rest')
          | _ => option_map (fun '(ms, rest') => (Object ms, rest'))
                            (read_members fuel' rest)
          end
      | other => read_integer other
      end
  end.

(** The whole text must be one value. *)
Definition parse (s : string) : option jsval :=
  match read_value (S (String.length s)) s with
  | Some (v, rest) =>
      match skip_whitespace rest with
      | EmptyString => Some v
      | _ => None
      end
  | None => None
  end.

(** The wire form of a relation set:
    [{ linkedPulseIds: [{ linkedPulseId: 1 }, { linkedPulseId: 2 }] }] with
    its keys quoted. *)
Definition quoted (s : string) : string :=
  String "034" (s ++ String "034" EmptyString).

Definition render_links (ids : list Z) : string :=
  "{" ++ quoted "linkedPulseIds" ++ ":["
  ++ join "," (map (fun z => "{" ++ quoted "linkedPulseId" ++ ":"
                             ++ String_of_Z z ++ "}") ids)
  ++ "]}".

(* ------------------------------------------------------------------ *)
(** *** Answers *)

Definition answer (d : Data) : FetchOutcome :=
  FetchResolves {| ok := true; status := 200; statusText := "OK";
                   json := inr {| data := Some d; errors := None |} |}.

Definition unavailable : FetchOutcome :=
  FetchResolves {| ok := false; status := 503; statusText := "Service Unavailable";
                   json := inl (mkError "Unexpected token < in JSON") |}.

Definition refused : FetchOutcome :=
  FetchRejects (mkError "connect ECONNREFUSED").

Definition complaint (msg : string) : FetchOutcome :=
  FetchResolves {| ok := true; status := 200; statusText := "OK";
                   json := inr {| data := None;
                                  errors := Some [{| gql_message := msg |}] |} |}.

Definition subitem_item (id : Z) (parent : option (Z * Z)) : Item :=
  {| item_id := String_of_Z id;
     item_name := "subitem";
     parent_item :=
       option_map (fun '(p, b) => {| parent_id := String_of_Z p;
                                     parent_board_id := String_of_Z b |}) parent;
     column_values := [] |}.

Definition main_item (column : string) (id : Z) (raw : option string) : Item :=
  {| item_id := String_of_Z id;
     item_name := "main item";
     parent_item := None;
     column_values := [{| cv_id := column; cv_value := raw;
                          cv_type := "board_relation" |}] |}.

(* ------------------------------------------------------------------ *)
(** *** A network that replays a script *)

(** Each request takes the next answer of the script; once the script is
    exhausted the connection is refused. *)
Definition replay (r : Request) (script : list FetchOutcome)
  : FetchOutcome * list FetchOutcome :=
  match script with
  | [] => (refused, [])
  | o :: rest => (o, rest)
  end.

Definition scripted : Platform := {|
  Net := list FetchOutcome;
  transport := replay;
  Math_random := fun _ => (1 # 4)%Q;
  JSON_parse := parse
|}.

(* ------------------------------------------------------------------ *)
(** *** A remote board *)

(** Subitems with their parent item and its board, and main items with the
    ids linked in their relation column. *)
Record Board : Type := {
  subitems : list (Z * (Z * Z));
  links : list (Z * list Z)
}.

Fixpoint assoc {A} (k : Z) (l : list (Z * A)) : option A :=
  match l with
  | [] => None
  | (k', a) :: rest => if Z.eqb k k' then Some a else assoc k rest
  end.

Fixpoint assoc_set {A} (k : Z) (a : A) (l : list (Z * A)) : list (Z * A) :=
  match l with
  | [] => []
  | (k', a') :: rest =>
      if Z.eqb k k' then (k', a) :: rest else (k', a') :: assoc_set k a rest
  end.

Definition integer_of (s : string) : option Z :=
  match parseInt10 s with
  | Int z => Some z
  | NaN => None
  end.

Definition integers (vs : list jsval) : list Z :=
  flat_map (fun v => match v with Number (Int z) => [z] | _ => [] end) vs.

Definition option_list {A} (x : option A) : list A :=
  match x with
  | Some a => [a]
  | None => []
  end.

Definition serve (r : Request) (b : Board) : FetchOutcome * Board :=
  match req_body r with
  | GetSubitemWithParent _ ids =>
      (answer (ItemsData
                 (flat_map (fun s =>
                              match integer_of s with
                              | Some id =>
                                  option_list (option_map
                                                 (fun p => subitem_item id (Some p))
                                                 (assoc id (subitems b)))
                              | None => []
                              end) ids)), b)
  | GetMainItemLinks column ids =>
      (answer (ItemsData
                 (flat_map (fun s =>
                              match integer_of s with
                              | Some id =>
                                  option_list (option_map
                                                 (fun l => main_item column id
                                                             (Some (render_links l)))
                                                 (assoc id (links b)))
                              | None => []
                              end) ids)), b)
  | UpdateMainItemLinks _ item _ item_ids =>
      match integer_of item with
      | Some id =>
          match assoc id (links b) with
          | Some _ =>
              (answer (ChangeColumnValueData item),
               {| subitems := subitems b;
                  links := assoc_set id (integers item_ids) (links b) |})
          | None => (complaint "Item not found", b)
          end
      | None => (complaint "Item not found", b)
      end
  end.

Definition board : Platform := {|
  Net := Board;
  transport := serve;
  Math_random := fun _ => (1 # 2)%Q;
  JSON_parse := parse
|}.

(* ------------------------------------------------------------------ *)
(** *** Configurations and events *)

Definition live : Config :=
  config {| MONDAY_TOKEN := Some "token"; WEBHOOK_SIGNING_SECRET := None;
            PORT := None; DRY_RUN := None |}.

Definition dry : Config :=
  config {| MONDAY_TOKEN := Some "token"; WEBHOOK_SIGNING_SECRET := None;
            PORT := None; DRY_RUN := Some "true" |}.

(** A subitem column change as delivered to a webhook on the parent board:
    subitem 9001 of parent 501 was linked to [mainItemIds]. *)
Definition subitem_change (mainItemIds : list Z) : Event :=
  {| boardId := 18041801957;
     pulseId := 501;
     subitemId := Some 9001;
     subitemBoardId := Some 18041802160;
     parentItemId := Some 501;
     parentItemBoardId := Some 18041801957;
     columnId := "board_relation_mkw4vrjt";
     value := Some {| linkedPulseIds :=
                        Some (map (fun z => {| linkedPulseId := z |}) mainItemIds) |} |}.

(** A direct column change as delivered to a webhook on the subitem board. *)
Definition direct_change (mainItemIds : list Z) : Event :=
  {| boardId := 18041802160;
     pulseId := 9001;
     subitemId := None;
     subitemBoardId := None;
     parentItemId := None;
     parentItemBoardId := None;
     columnId := "board_relation_mkw4vrjt";
     value := Some {| linkedPulseIds :=
                        Some (map (fun z => {| linkedPulseId := z |}) mainItemIds) |} |}.


Definition for_column (c : string) (e : Event) : Event :=
  {| boardId := boardId e; pulseId := pulseId e; subitemId := subitemId e;
     subitemBoardId := subitemBoardId e; parentItemId := parentItemId e;
     parentItemBoardId := parentItemBoardId e; columnId := c;
     value := value e |}.

Definition with_nested (p b : option Z) (e : Event) : Event :=
  {| boardId := boardId e; pulseId := pulseId e; subitemId := subitemId e;
     subitemBoardId := subitemBoardId e; parentItemId := p;
     parentItemBoardId := b; columnId := columnId e;
     value := value e |}.

(* ------------------------------------------------------------------ *)
(** *** Worlds *)

Definition replaying (script : list FetchOutcome) : @World scripted :=
  fresh (platform := scripted) script.

Definition serving (b : Board) : @World board :=
  fresh (platform := board) b.

(** Subitem 9001 of parent 501; main item 70 not yet linked to 501, main item
    71 linked to it. *)
Definition office : Board :=
  {| subitems := [(9001, (501, 18041801957))];
     links := [(70, [1; 2]); (71, [501])] |}.

(** The same with both main items linked to 501. *)
Definition settled : Board :=
  {| subitems := [(9001, (501, 18041801957))];
     links := [(70, [1; 2; 501]); (71, [501])] |}.

(** Main item 70 with a repeated link. *)
Definition cluttered : Board :=
  {| subitems := [(9001, (501, 18041801957))];
     links := [(70, [1; 2; 1])] |}.

Definition links_query (m : Z) : GraphQL :=
  GetMainItemLinks "board_relation_mkw8vvdh" [String_of_Z m].

(** The subitem is fetched, the three attempts to read main item 70 fail, main
    item 71 is read and written. *)
Definition one_item_down : list FetchOutcome :=
  [answer (ItemsData [subitem_item 9001 (Some (501, 18041801957))]);
   refused; unavailable; refused;
   answer (ItemsData [main_item "board_relation_mkw8vvdh" 71
                                (Some (render_links [1]))]);
   answer (ChangeColumnValueData "71")].

End Sample.

(* ================================================================== *)
(** ** Vocabulary of the statements *)
(* ================================================================== *)

Section Vocabulary.

Context {platform : Platform}.
Variable cfg : Config.

(** [w'] was reached from [w] without touching the platform. *)
Definition quiet (w w' : World) : Prop :=
  net w' = net w /\ calls w' = calls w.

(** The write requests among those sent so far. *)
Definition writes (w : World) : list Request := filter is_write (calls w).

(** One try of the operation behind [mondayQuery] on the platform in state
    [n]: its result and the state it leaves the platform in. *)
Definition attempt_on (query : GraphQL) (n : Net) : Result Data * Net :=
  let (r, w) := mondayQuery_attempt cfg query (fresh n) in (r, net w).

(** The results of [k] tries in a row, starting in state [n]. *)
Fixpoint attempts (query : GraphQL) (k : nat) (n : Net) : list (Result Data) :=
  match k with
  | O => []
  | S k' => let (r, n') := attempt_on query n in r :: attempts query k' n'
  end.

(** The state of the platform after it has answered request [r] [k] times. *)
Fixpoint net_after (r : Request) (k : nat) (n : Net) : Net :=
  match k with
  | O => n
  | S k' => net_after r k' (snd (transport r n))
  end.

(** The request that reads the relation column of [mainItemId]. *)
Definition read_request (mainItemId : Z) : Request :=
  mondayQuery_request cfg
    (GetMainItemLinks (mainToFeature (columns cfg)) [String_of_Z mainItemId]).

(** [parsed?.linkedPulseIds] *)
Definition linkedPulseIds_of (parsed : jsval) : jsval :=
  get_property parsed "linkedPulseIds".

(** A raw relation-column value without the shape [{ linkedPulseIds: [...] }]:
    [null] or empty, or not JSON, or JSON in which [linkedPulseIds] is missing
    or is not an array. *)
Definition malformed (raw : option string) : Prop :=
  match raw with
  | None => True
  | Some s =>
      s = EmptyString
      \/ match JSON_parse s with
         | None => True
         | Some parsed => Array_isArray (linkedPulseIds_of parsed) = false
         end
  end.

(** The world once the handler has announced an event that is in scope. *)
Definition entered (requestId : string) (w : World) : World :=
  snd ((log info "Received webhook event" (Some requestId) ;;;
        log info "Processing subitem link change" (Some requestId)) w).

(** The counters before the first iteration. *)
Definition no_counts : Counts := {| updatedCount := 0; skippedCount := 0 |}.

(** The outcome of an event that links no main item. *)
Definition nothing_to_do : Outcome :=
  {| challenge := None; success := Some true;
     message := Some "No linked items to process"; outcome_dryRun := None |}.

(** The outcome of an event whose items were all looked at. *)
Definition processed (counts : Counts) : Outcome :=
  {| challenge := None;
     success := Some true;
     message := Some ("Updated " ++ String_of_nat (updatedCount counts)
                      ++ " main items, skipped "
                      ++ String_of_nat (skippedCount counts));
     outcome_dryRun := Some (dryRun cfg) |}.

(** The request that writes [item_ids] to the relation column of [mainItemId]. *)
Definition write_request (mainItemId : Z) (item_ids : list jsval) : Request :=
  mondayQuery_request cfg
    (UpdateMainItemLinks (String_of_Z (main (boards cfg))) (String_of_Z mainItemId)
                         (mainToFeature (columns cfg)) item_ids).

(** The event is accepted by the board, column and linked-items checks of
    the handler for subitem changes. *)
Definition in_scope (event : Event) : Prop :=
  (boardId event = subitem (boards cfg) \/ boardId event = feature (boards cfg))
  /\ columnId event = subitemToMain (columns cfg)
  /\ event_linkedMainItemIds event <> [].

End Vocabulary.

(* ================================================================== *)
(** ** Startup and HTTP entry point (config.ts, index.ts) *)
(* ================================================================== *)

(** [validateConfig]: throws when the token is empty. *)
Definition validateConfig (cfg : Config) : Result unit :=
  if String.eqb (mondayToken cfg) EmptyString then
    Throws (mkError "MONDAY_TOKEN environment variable is required")
  else Returns tt.

(** A header of an incoming request: [string | string[]]. *)
Inductive HeaderValue : Type :=
| HeaderString (s : string)
| HeaderStrings (l : list string).

(** The members of the Express request that index.ts reads. *)
Record HttpRequest : Type := {
  x_monday_signature : option HeaderValue;   (* req.headers['x-monday-signature'] *)
  rawBody : option string;                   (* req.rawBody, set by express.json *)
  body : Payload                             (* req.body *)
}.

Inductive ResponseBody : Type :=
| InvalidSignature                          (* { error: 'Invalid signature' } *)
| ChallengeEcho (token : string)            (* { challenge } *)
| HandlerResult (result : Outcome)          (* the result as it is *)
| InternalServerError (requestId : string). (* { success: false, message:
                                               'Internal server error', requestId } *)

Record HttpResponse : Type := {
  statusCode : Z;
  sent : ResponseBody
}.

(** [crypto.timingSafeEqual] on the bytes of two strings: it throws when the
    lengths differ. *)
Definition timingSafeEqual (a b : string) : Result bool :=
  if Nat.eqb (String.length a) (String.length b) then Returns (String.eqb a b)
  else Throws (mkError "Input buffers must have the same byte length").

Section Server.

Context {platform : Platform}.
Variable cfg : Config.

(** [crypto.createHmac('sha256', key).update(data).digest('base64')] as a
    function of [key] and [data]. *)
Variable hmac_sha256_base64 : string -> string -> string.

(** The [handleWebhookEvent] that index.ts imports. *)
Variable handler : Payload -> string -> M Outcome.

Definition verifySignature (req : HttpRequest) : Result bool :=
  if String.eqb (webhookSigningSecret cfg) EmptyString then Returns true
  else
    match x_monday_signature req with
    | Some (HeaderString signature) =>
        if String.eqb signature EmptyString then Returns false
        else
          let computedSignature :=
            hmac_sha256_base64 (webhookSigningSecret cfg)
                               (match rawBody req with
                                | Some raw => raw
                                | None => EmptyString
                                end) in
          timingSafeEqual signature computedSignature
    | _ => Returns false
    end.

(** The handler of [POST /webhook]; [requestId] is what [generateRequestId]
    returned for this request. *)
Definition post_webhook (requestId : string) (req : HttpRequest) : M HttpResponse :=
  log info "Incoming webhook request" (Some requestId) ;;;
  match verifySignature req with
  | Throws e => throw e
  | Returns false =>
      log warn "Invalid webhook signature" (Some requestId) ;;;
      ret {| statusCode := 401; sent := InvalidSignature |}
  | Returns true =>
      try_catch
        (result <- handler (body req) requestId ;;
         match challenge result with
         | Some token =>
             if String.eqb token EmptyString
             then ret {| statusCode := 200; sent := HandlerResult result |}
             else ret {| statusCode := 200; sent := ChallengeEcho token |}
         | None => ret {| statusCode := 200; sent := HandlerResult result |}
         end)
        (fun _ =>
           log error "Error processing webhook" (Some requestId) ;;;
           ret {| statusCode := 500; sent := InternalServerError requestId |})
  end.

End Server.

(* ================================================================== *)
(** ** More vocabulary *)
(* ================================================================== *)

Section Endings.

Context {platform : Platform}.
Variable cfg : Config.

(** The event is accepted by the checks of the handler for direct changes. *)
Definition in_scope_direct (event : Event) : Prop :=
  boardId event = subitem (boards cfg)
  /\ columnId event = subitemToMain (columns cfg)
  /\ event_linkedMainItemIds event <> [].

(** The parent as the handler for direct changes takes it. *)
Definition parent_of_fetched (fetched : Item) : option (number * number) :=
  option_map (fun p => (parseInt10 (parent_id p), parseInt10 (parent_board_id p)))
             (parent_item fetched).

(** How the run of a handler on an event in scope ends, for the subitem id
    [sid] it fetches and the way [resolved] it takes the parent: by the fetch
    throwing, by one of the three rejections, or by the loop over [items]. *)
Inductive Ending (sid : Z) (resolved : Item -> option (number * number))
          (items : list Z) (rid : string) (w : World)
  : Result Outcome -> World -> Prop :=
| ended_fetch_throws e w1 :
    getSubitemWithParent cfg sid (Some rid) (entered rid w) = (Throws e, w1) ->
    Ending sid resolved items rid w (Throws e) w1
| ended_not_found w1 w' :
    getSubitemWithParent cfg sid (Some rid) (entered rid w) = (Returns None, w1) ->
    quiet w1 w' ->
    Ending sid resolved items rid w (Returns (rejected "Failed to fetch subitem")) w'
| ended_no_parent fetched w1 w' :
    getSubitemWithParent cfg sid (Some rid) (entered rid w)
    = (Returns (Some fetched), w1) ->
    resolved fetched = None ->
    quiet w1 w' ->
    Ending sid resolved items rid w (Returns (rejected "Subitem has no parent item")) w'
| ended_foreign_parent fetched w1 w' pid pbid :
    getSubitemWithParent cfg sid (Some rid) (entered rid w)
    = (Returns (Some fetched), w1) ->
    resolved fetched = Some (pid, pbid) ->
    pbid <> Int (feature (boards cfg)) ->
    quiet w1 w' ->
    Ending sid resolved items rid w
           (Returns (rejected "Parent item not from expected Feature board")) w'
| ended_processed fetched w1 pid counts w2 w' :
    getSubitemWithParent cfg sid (Some rid) (entered rid w)
    = (Returns (Some fetched), w1) ->
    resolved fetched = Some (pid, Int (feature (boards cfg))) ->
    handleWebhookEvent_loop cfg pid rid no_counts items
                            (snd (log info "Found parent item" (Some rid) w1))
    = (Returns counts, w2) ->
    quiet w2 w' ->
    Ending sid resolved items rid w (Returns (processed cfg counts)) w'.

(** The request that fetches subitem [sid]. *)
Definition subitem_request (sid : Z) : Request :=
  mondayQuery_request cfg
    (GetSubitemWithParent (subitemToMain (columns cfg)) [String_of_Z sid]).

(** A request that the loop may send for parent [pid] and the items [items]:
    the read of one of the items, or, outside a dry run, the write to one of
    them of a set that contains the parent. *)
Definition item_request (pid : number) (items : list Z) (req : Request) : Prop :=
  exists m,
    In m items
    /\ (req = read_request cfg m
        \/ (dryRun cfg = false
            /\ exists ids, req = write_request cfg m ids /\ In (Number pid) ids)).

(** The delays of the sleeps after attempts [attempt], [attempt + 1], ...,
    [attempt + n - 1], with the random numbers drawn from the [drawn]-th on. *)
Definition backoff_schedule (attempt drawn n : nat) : list Q :=
  map (fun i => backoff_delay cfg (attempt + i) (Math_random (drawn + i))) (seq 0 n).

(** The wire form of a set of linked ids, as [JSON.parse] returns it. *)
Definition wrapped_ids (ids : list number) : jsval :=
  Object [("linkedPulseIds",
           Array (map (fun n => Object [("linkedPulseId", Number n)]) ids))].

End Endings.

(* ------------------------------------------------------------------ *)
(** *** A server with a signing secret *)

Module Deliveries.

Definition guarded : Config :=
  config {| MONDAY_TOKEN := Some "token"; WEBHOOK_SIGNING_SECRET := Some "s3cret";
            PORT := None; DRY_RUN := None |}.

(** A stand-in for the keyed digest of a body. *)
Definition keyed (key data : string) : string :=
  key ++ ":" ++ String_of_nat (String.length data).

Definition delivery (signature : option HeaderValue) (payload : Payload)
  : HttpRequest :=
  {| x_monday_signature := signature; rawBody := Some "{}"; body := payload |}.

End Deliveries.

(* ================================================================== *)
(** ** Properties *)
(* ================================================================== *)

Section Properties.

Context {platform : Platform}.
Variable cfg : Config.

(* ------------------------------------------------------------------ *)
(** *** Footprints of the primitive computations *)

(** A run is known by its result and the world it leaves. *)
Lemma run_eq {A B} (run : A * B) (a : A) : fst run = a -> run = (a, snd run).
Proof. intros <-. now destruct run. Qed.

Lemma quiet_refl w : quiet w w.
Proof. split; reflexivity. Qed.

Lemma mondayQuery_attempt_eq query w :
  mondayQuery_attempt cfg query w
  = (fst (attempt_on cfg query (net w)),
     {| net := snd (attempt_on cfg query (net w));
        calls := calls w ++ [mondayQuery_request cfg query];
        sleeps := sleeps w; randoms := randoms w; console := console w |}).
Proof.
  unfold attempt_on, mondayQuery_attempt, bind, fetch, fresh. simpl.
  destruct (transport (mondayQuery_request cfg query) (net w)) as [[e | resp] n'];
    simpl; [reflexivity |].
  destruct (ok resp); simpl; [| reflexivity].
  unfold response_json.
  destruct (json resp) as [e | body]; simpl; [reflexivity |].
  destruct (errors body) as [[| e es] |]; simpl;
    destruct (data body); reflexivity.
Qed.

(* ------------------------------------------------------------------ *)
(** *** The retry loop *)

Lemma last_cons {A} (a d : A) (l : list A) : last (a :: l) d = last l a.
Proof.
  revert a d; induction l as [| b l IH]; intros a d; [reflexivity |].
  change (last (a :: b :: l) d) with (last (b :: l) d).
  rewrite (IH b d), (IH b a). reflexivity.
Qed.

(** Unfolding one failed attempt of the loop. *)
Lemma mondayQuery_loop_failed remaining attempt lastError query rid w e n' :
  attempt_on cfg query (net w) = (Throws e, n') ->
  exists w1,
    mondayQuery_loop cfg (S remaining) attempt lastError query rid w
    = mondayQuery_loop cfg remaining (S attempt) (Some e) query rid w1
    /\ net w1 = n'
    /\ calls w1 = (calls w ++ [mondayQuery_request cfg query])%list.
Proof.
  intros Hfail.
  cbn [mondayQuery_loop]. rewrite mondayQuery_attempt_eq, Hfail. cbn [fst snd].
  unfold bind at 1 2. unfold log, random, sleep, ret, bind.
  destruct (Nat.ltb attempt (maxAttempts (retry cfg))); cbn [net calls];
    eexists; (split; [reflexivity | split; reflexivity]).
Qed.

Lemma mondayQuery_loop_succeeded remaining attempt lastError query rid w d n' :
  attempt_on cfg query (net w) = (Returns d, n') ->
  exists w1,
    mondayQuery_loop cfg (S remaining) attempt lastError query rid w = (Returns d, w1)
    /\ net w1 = n'
    /\ calls w1 = (calls w ++ [mondayQuery_request cfg query])%list.
Proof.
  intros Hok. cbn [mondayQuery_loop]. rewrite mondayQuery_attempt_eq, Hok. cbn [fst snd].
  eexists; split; [reflexivity | split; reflexivity].
Qed.

(** Every remaining attempt fails: the loop runs dry and throws the error of
    the last one. *)
Lemma mondayQuery_loop_exhausted query rid remaining :
  forall attempt lastError w es,
    attempts cfg query remaining (net w) = map Throws es ->
    exists w',
      mondayQuery_loop cfg remaining attempt lastError query rid w
      = (Throws (last es (match lastError with
                          | Some e => e
                          | None => mkError "Unknown error during API call"
                          end)), w')
      /\ calls w' = (calls w ++ repeat (mondayQuery_request cfg query) remaining)%list.
Proof.
  induction remaining as [| remaining IH]; intros attempt lastError w es Hall.
  - destruct es; [| discriminate Hall].
    exists w. split; [reflexivity |]. cbn [repeat]. now rewrite app_nil_r.
  - cbn [attempts] in Hall.
    destruct (attempt_on cfg query (net w)) as [r n'] eqn:Hfirst.
    destruct es as [| e es]; [discriminate Hall |].
    cbn [map] in Hall. injection Hall as -> Hrest.
    destruct (mondayQuery_loop_failed remaining attempt lastError query rid w e n' Hfirst)
      as (w1 & -> & Hnet & Hcalls).
    rewrite <- Hnet in Hrest.
    destruct (IH (S attempt) (Some e) w1 es Hrest) as (w' & -> & Hcalls').
    exists w'. split.
    + now rewrite last_cons.
    + rewrite Hcalls', Hcalls, <- app_assoc. reflexivity.
Qed.

(** Some attempts fail and the next one succeeds while iterations remain. *)
Lemma mondayQuery_loop_recovers query rid d es :
  forall remaining attempt lastError w,
    attempts cfg query (S (List.length es)) (net w) = (map Throws es ++ [Returns d])%list ->
    (List.length es < remaining)%nat ->
    exists w',
      mondayQuery_loop cfg remaining attempt lastError query rid w = (Returns d, w')
      /\ calls w'
         = (calls w ++ repeat (mondayQuery_request cfg query) (S (List.length es)))%list.
Proof.
  induction es as [| e es IH]; intros remaining attempt lastError w Hrun Hlt.
  - destruct remaining as [| remaining]; [inversion Hlt |].
    cbn [attempts List.length] in Hrun.
    destruct (attempt_on cfg query (net w)) as [r n'] eqn:Hfirst.
    cbn in Hrun. injection Hrun as ->.
    destruct (mondayQuery_loop_succeeded remaining attempt lastError query rid w d n' Hfirst)
      as (w1 & -> & _ & Hcalls).
    exists w1. split; [reflexivity | exact Hcalls].
  - destruct remaining as [| remaining]; [inversion Hlt |].
    cbn [List.length] in Hrun, Hlt |- *.
    remember (S (List.length es)) as k eqn:Hk.
    cbn [attempts] in Hrun.
    destruct (attempt_on cfg query (net w)) as [r n'] eqn:Hfirst.
    cbn [map app] in Hrun. injection Hrun as -> Hrest.
    destruct (mondayQuery_loop_failed remaining attempt lastError query rid w e n' Hfirst)
      as (w1 & -> & Hnet & Hcalls).
    rewrite <- Hnet in Hrest. subst k.
    destruct (IH remaining (S attempt) (Some e) w1 Hrest) as (w' & -> & Hcalls').
    { apply PeanoNat.lt_S_n. exact Hlt. }
    exists w'. split; [reflexivity |].
    rewrite Hcalls', Hcalls, <- app_assoc. reflexivity.
Qed.

(** C5. A call through [mondayQuery] whose operation fails on its first two
    tries and succeeds on the third makes exactly three attempts and returns
    the result of the third; a call whose operation fails on every one of the
    configured [maxAttempts] tries makes exactly that many attempts and throws
    the error of the last of them. *)
Theorem mondayQuery_retry_policy (query : GraphQL) (rid : option string) (w : World) :
  (forall e1 e2 d,
      (3 <= maxAttempts (retry cfg))%nat ->
      attempts cfg query 3 (net w) = [Throws e1; Throws e2; Returns d] ->
      exists w',
        mondayQuery cfg query rid w = (Returns d, w')
        /\ calls w' = (calls w ++ repeat (mondayQuery_request cfg query) 3)%list)
  /\ (forall es e,
         attempts cfg query (maxAttempts (retry cfg)) (net w)
         = map Throws (es ++ [e])%list ->
         exists w',
           mondayQuery cfg query rid w = (Throws e, w')
           /\ calls w'
              = (calls w ++ repeat (mondayQuery_request cfg query)
                                   (maxAttempts (retry cfg)))%list).
Proof.
  split.
  - intros e1 e2 d Hmax Hrun.
    apply (mondayQuery_loop_recovers query rid d [e1; e2]); [exact Hrun | exact Hmax].
  - intros es e Hrun.
    destruct (mondayQuery_loop_exhausted query rid (maxAttempts (retry cfg))
                1%nat None w (es ++ [e]) Hrun) as (w' & Hq & Hcalls).
    exists w'. split; [| exact Hcalls].
    unfold mondayQuery. rewrite Hq. now rewrite last_last.
Qed.

(* ------------------------------------------------------------------ *)
(** *** Footprint of a call through [mondayQuery] *)

Lemma attempt_on_net query n :
  snd (attempt_on cfg query n) = snd (transport (mondayQuery_request cfg query) n).
Proof.
  unfold attempt_on. rewrite mondayQuery_attempt_eq. cbn [snd net fresh].
  unfold attempt_on, mondayQuery_attempt, bind, fetch. cbn [net fresh].
  destruct (transport (mondayQuery_request cfg query) n) as [[e | resp] n'];
    cbn [snd]; [reflexivity |].
  destruct (negb (ok resp)); [reflexivity |].
  unfold response_json. destruct (json resp) as [e | body]; [reflexivity |].
  cbn. destruct (errors body) as [[| e es] |]; destruct (data body); reflexivity.
Qed.

(** A call sends its one request some number of times, at most once per
    iteration, and at least once when it returns. *)
Lemma mondayQuery_loop_footprint query rid remaining :
  forall attempt lastError w r w',
    mondayQuery_loop cfg remaining attempt lastError query rid w = (r, w') ->
    exists k,
      (k <= remaining)%nat
      /\ calls w' = (calls w ++ repeat (mondayQuery_request cfg query) k)%list
      /\ net w' = net_after (mondayQuery_request cfg query) k (net w)
      /\ (forall d, r = Returns d -> (1 <= k)%nat)
      /\ (forall e, r = Throws e -> k = remaining).
Proof.
  induction remaining as [| remaining IH]; intros attempt lastError w r w' Hrun.
  - cbn in Hrun. injection Hrun as <- <-. exists 0%nat.
    split; [apply le_n |].
    split; [cbn; now rewrite app_nil_r |].
    split; [reflexivity |].
    split; [intros d Hd; discriminate Hd | reflexivity].
  - destruct (attempt_on cfg query (net w)) as [[d | e] n'] eqn:Hfirst.
    + destruct (mondayQuery_loop_succeeded remaining attempt lastError query rid w d n'
                  Hfirst) as (w1 & Heq & Hnet & Hcalls).
      rewrite Heq in Hrun. injection Hrun as <- <-. exists 1%nat.
      split; [apply le_n_S, Nat.le_0_l |].
      split; [exact Hcalls |].
      split; [| split; [intros; apply le_n | intros e He; discriminate He]].
      cbn [net_after]. rewrite <- attempt_on_net, Hfirst. exact Hnet.
    + destruct (mondayQuery_loop_failed remaining attempt lastError query rid w e n'
                  Hfirst) as (w1 & Heq & Hnet & Hcalls).
      rewrite Heq in Hrun.
      destruct (IH _ _ _ _ _ Hrun) as (k & Hk & Hcalls' & Hnet' & Hret & Hthrow).
      exists (S k).
      split; [apply le_n_S, Hk |].
      split; [rewrite Hcalls', Hcalls, <- app_assoc; reflexivity |].
      split; [| split; [intros; apply le_n_S, Nat.le_0_l
                       | intros e0 He0; f_equal; exact (Hthrow e0 He0)]].
      cbn [net_after]. rewrite <- attempt_on_net, Hfirst. cbn [snd].
      rewrite <- Hnet. exact Hnet'.
Qed.

Lemma mondayQuery_footprint query rid w r w' :
  mondayQuery cfg query rid w = (r, w') ->
  exists k,
    (k <= maxAttempts (retry cfg))%nat
    /\ calls w' = (calls w ++ repeat (mondayQuery_request cfg query) k)%list
    /\ net w' = net_after (mondayQuery_request cfg query) k (net w)
    /\ (forall d, r = Returns d -> (1 <= k)%nat)
    /\ (forall e, r = Throws e -> k = maxAttempts (retry cfg)).
Proof. apply mondayQuery_loop_footprint. Qed.

Lemma writes_after_reads (r : Request) k (l : list Request) :
  is_write r = false ->
  filter is_write (l ++ repeat r k) = filter is_write l.
Proof.
  intros Hr. rewrite filter_app.
  replace (filter is_write (repeat r k)) with (@nil Request);
    [apply app_nil_r |].
  induction k as [| k IH]; [reflexivity |]. cbn. rewrite Hr. exact IH.
Qed.

(* ------------------------------------------------------------------ *)
(** *** Reading and writing a relation set *)

(** After its query has returned, [getMainItemLinkedIds] returns as well, and
    touches the platform no more. *)
Lemma getMainItemLinkedIds_after_query m rid w d w1 :
  mondayQuery cfg (GetMainItemLinks (mainToFeature (columns cfg)) [String_of_Z m]) rid w
  = (Returns d, w1) ->
  exists r w', getMainItemLinkedIds cfg m rid w = (r, w') /\ quiet w1 w'.
Proof.
  intros Hq. unfold getMainItemLinkedIds. unfold bind at 1. rewrite Hq.
  destruct d as [items | id]; cbn.
  2: { eexists; eexists; split; [reflexivity | apply quiet_refl]. }
  destruct (hd_error items) as [mainItem |].
  2: { eexists; eexists; split; [reflexivity | apply quiet_refl]. }
  destruct (find _ (column_values mainItem)) as [col |].
  2: { eexists; eexists; split; [reflexivity | apply quiet_refl]. }
  destruct (cv_value col) as [raw |].
  2: { eexists; eexists; split; [reflexivity | apply quiet_refl]. }
  destruct (String.eqb raw EmptyString).
  1: { eexists; eexists; split; [reflexivity | apply quiet_refl]. }
  destruct (parse_relation_value raw) as [ids | [|]].
  all: eexists; eexists; split; [reflexivity | split; reflexivity].
Qed.

Lemma getMainItemLinkedIds_query_throws m rid w e w1 :
  mondayQuery cfg (GetMainItemLinks (mainToFeature (columns cfg)) [String_of_Z m]) rid w
  = (Throws e, w1) ->
  getMainItemLinkedIds cfg m rid w = (Throws e, w1).
Proof. intros Hq. unfold getMainItemLinkedIds. unfold bind at 1. now rewrite Hq. Qed.

(** A read sends nothing but its read request. *)
Lemma getMainItemLinkedIds_footprint m rid w r w' :
  getMainItemLinkedIds cfg m rid w = (r, w') ->
  exists k,
    calls w' = (calls w ++ repeat (read_request cfg m) k)%list
    /\ net w' = net_after (read_request cfg m) k (net w).
Proof.
  intros Hrun.
  destruct (mondayQuery cfg (GetMainItemLinks (mainToFeature (columns cfg))
                                              [String_of_Z m]) rid w)
    as [[d | e] w1] eqn:Hq.
  - destruct (mondayQuery_footprint _ _ _ _ _ Hq) as (k & _ & Hcalls & Hnet & _ & _).
    destruct (getMainItemLinkedIds_after_query m rid w d w1 Hq)
      as (r0 & w0 & Heq & Hn & Hc).
    rewrite Heq in Hrun. injection Hrun as <- <-.
    exists k. split; [rewrite Hc; exact Hcalls | rewrite Hn; exact Hnet].
  - rewrite (getMainItemLinkedIds_query_throws m rid w e w1 Hq) in Hrun.
    injection Hrun as <- <-.
    destruct (mondayQuery_footprint _ _ _ _ _ Hq) as (k & _ & Hcalls & Hnet & _ & _).
    exists k. split; assumption.
Qed.

Lemma getMainItemLinkedIds_writes m rid w r w' :
  getMainItemLinkedIds cfg m rid w = (r, w') -> writes w' = writes w.
Proof.
  intros Hrun. destruct (getMainItemLinkedIds_footprint m rid w r w' Hrun)
    as (k & Hcalls & _).
  unfold writes. rewrite Hcalls. now apply writes_after_reads.
Qed.

(** A write sends nothing but its write request, at least once when it
    returns. *)
Lemma updateMainItemLinks_footprint m ids rid w r w' :
  updateMainItemLinks cfg m (main (boards cfg)) ids rid w = (r, w') ->
  exists k,
    calls w' = (calls w ++ repeat (write_request cfg m ids) k)%list
    /\ (forall u, r = Returns u -> (1 <= k)%nat)
    /\ (forall e, r = Throws e -> k = maxAttempts (retry cfg)).
Proof.
  unfold updateMainItemLinks, bind. intros Hrun.
  destruct (mondayQuery cfg _ rid w) as [[d | e] w1] eqn:Hq;
    destruct (mondayQuery_footprint _ _ _ _ _ Hq)
      as (k & _ & Hcalls & _ & Hret & Hthrow);
    injection Hrun as <- <-; exists k; (split; [exact Hcalls |]).
  - split; [intros _ _; now apply (Hret d) | intros e He; discriminate He].
  - split; [intros u Hu; discriminate Hu | intros _ _; exact (Hthrow e eq_refl)].
Qed.

(* ------------------------------------------------------------------ *)
(** *** One main item *)

Lemma includes_number xs n : includes xs (Number n) = true <-> In (Number n) xs.
Proof.
  unfold includes. rewrite existsb_exists. split.
  - intros (y & Hin & Heq).
    destruct y as [| | b | m | s0 | l | f]; try discriminate Heq.
    destruct m as [| x], n as [| z]; try discriminate Heq; [exact Hin |].
    cbn in Heq. apply Z.eqb_eq in Heq. now subst.
  - intros Hin. exists (Number n). split; [exact Hin |].
    destruct n; cbn; [reflexivity | apply Z.eqb_refl].
Qed.

Lemma handleWebhookEvent_item_read_throws pid rid counts m w e w1 :
  getMainItemLinkedIds cfg m (Some rid) w = (Throws e, w1) ->
  handleWebhookEvent_item cfg pid rid counts m w = (Throws e, w1).
Proof. intros Hr. unfold handleWebhookEvent_item. unfold bind at 1. now rewrite Hr. Qed.

(** The parent is already among the ids read: the item is counted as skipped
    and nothing more is sent. *)
Lemma handleWebhookEvent_item_skips pid rid counts m w ids w1 :
  getMainItemLinkedIds cfg m (Some rid) w = (Returns ids, w1) ->
  includes ids (Number pid) = true ->
  exists w2,
    handleWebhookEvent_item cfg pid rid counts m w
    = (Returns {| updatedCount := updatedCount counts;
                  skippedCount := S (skippedCount counts) |}, w2)
    /\ quiet w1 w2.
Proof.
  intros Hr Hin. unfold handleWebhookEvent_item. unfold bind at 1. rewrite Hr.
  rewrite Hin. eexists; split; [reflexivity | split; reflexivity].
Qed.

(** The parent is not among the ids read: the merged set is written, unless
    the run is dry, and the item is counted as updated. *)
Lemma handleWebhookEvent_item_links pid rid counts m w ids w1 :
  getMainItemLinkedIds cfg m (Some rid) w = (Returns ids, w1) ->
  includes ids (Number pid) = false ->
  exists w2,
    quiet w1 w2
    /\ handleWebhookEvent_item cfg pid rid counts m w
       = ((if dryRun cfg then
             log info "[DRY-RUN] Would update main item links" (Some rid)
           else
             updateMainItemLinks cfg m (main (boards cfg))
                                 (Set_spread (ids ++ [Number pid])) (Some rid)) ;;;
          ret {| updatedCount := S (updatedCount counts);
                 skippedCount := skippedCount counts |}) w2.
Proof.
  intros Hr Hin. unfold handleWebhookEvent_item. unfold bind at 1. rewrite Hr.
  rewrite Hin. eexists; split; [| reflexivity]. split; reflexivity.
Qed.

(** Outside a dry run the merged set goes out in a write request; the item
    is counted as updated when the write returns. *)
Lemma handleWebhookEvent_item_writes pid rid counts m w ids w1 :
  getMainItemLinkedIds cfg m (Some rid) w = (Returns ids, w1) ->
  includes ids (Number pid) = false ->
  dryRun cfg = false ->
  exists r w3 k,
    handleWebhookEvent_item cfg pid rid counts m w = (r, w3)
    /\ calls w3
       = (calls w1
          ++ repeat (write_request cfg m (Set_spread (ids ++ [Number pid]))) k)%list
    /\ (forall c, r = Returns c ->
                  (1 <= k)%nat
                  /\ c = {| updatedCount := S (updatedCount counts);
                            skippedCount := skippedCount counts |})
    /\ (forall e, r = Throws e -> k = maxAttempts (retry cfg)).
Proof.
  intros Hr Hin Hdry.
  destruct (handleWebhookEvent_item_links pid rid counts m w ids w1 Hr Hin)
    as (w2 & [_ Hc] & ->).
  rewrite Hdry. unfold bind at 1.
  destruct (updateMainItemLinks cfg m (main (boards cfg))
              (Set_spread (ids ++ [Number pid])) (Some rid) w2)
    as [[u | e] w3] eqn:Hu;
    destruct (updateMainItemLinks_footprint _ _ _ _ _ _ Hu)
      as (k & Hcalls & Hret & Hthrow);
    rewrite Hc in Hcalls.
  - eexists; exists w3, k. split; [reflexivity |]. split; [exact Hcalls |].
    split; [| intros e He; discriminate He].
    intros c Hcq. injection Hcq as <-. split; [exact (Hret u eq_refl) | reflexivity].
  - exists (Throws e), w3, k. split; [reflexivity |]. split; [exact Hcalls |].
    split; [intros c Hcq; discriminate Hcq |].
    intros e0 _. exact (Hthrow e eq_refl).
Qed.

(** In a dry run the item is counted as updated and nothing is sent. *)
Lemma handleWebhookEvent_item_dry pid rid counts m w ids w1 :
  getMainItemLinkedIds cfg m (Some rid) w = (Returns ids, w1) ->
  includes ids (Number pid) = false ->
  dryRun cfg = true ->
  exists w2,
    handleWebhookEvent_item cfg pid rid counts m w
    = (Returns {| updatedCount := S (updatedCount counts);
                  skippedCount := skippedCount counts |}, w2)
    /\ quiet w1 w2.
Proof.
  intros Hr Hin Hdry.
  destruct (handleWebhookEvent_item_links pid rid counts m w ids w1 Hr Hin)
    as (w2 & [Hn Hc] & ->).
  rewrite Hdry. eexists; split; [reflexivity |].
  split; cbn; assumption.
Qed.

(** An iteration never throws. *)
Lemma handleWebhookEvent_iteration_returns pid rid counts m w :
  exists counts' w',
    handleWebhookEvent_iteration cfg pid rid counts m w = (Returns counts', w').
Proof.
  unfold handleWebhookEvent_iteration, try_catch.
  destruct (handleWebhookEvent_item cfg pid rid counts m w) as [[c | e] w1].
  - exists c, w1. reflexivity.
  - eexists; eexists; reflexivity.
Qed.

(** The [catch] of an iteration: the counters stay as they were. *)
Lemma handleWebhookEvent_iteration_catches pid rid counts m w e w1 :
  handleWebhookEvent_item cfg pid rid counts m w = (Throws e, w1) ->
  exists w2,
    handleWebhookEvent_iteration cfg pid rid counts m w = (Returns counts, w2)
    /\ quiet w1 w2.
Proof.
  intros Hi. unfold handleWebhookEvent_iteration, try_catch. rewrite Hi.
  eexists; split; [reflexivity | split; reflexivity].
Qed.

Lemma handleWebhookEvent_iteration_passes pid rid counts m w c w1 :
  handleWebhookEvent_item cfg pid rid counts m w = (Returns c, w1) ->
  handleWebhookEvent_iteration cfg pid rid counts m w = (Returns c, w1).
Proof. intros Hi. unfold handleWebhookEvent_iteration, try_catch. now rewrite Hi. Qed.

Lemma handleWebhookEvent_iteration_skips pid rid counts m w ids w1 :
  getMainItemLinkedIds cfg m (Some rid) w = (Returns ids, w1) ->
  includes ids (Number pid) = true ->
  exists w2,
    handleWebhookEvent_iteration cfg pid rid counts m w
    = (Returns {| updatedCount := updatedCount counts;
                  skippedCount := S (skippedCount counts) |}, w2)
    /\ quiet w1 w2
    /\ writes w2 = writes w.
Proof.
  intros Hr Hin.
  destruct (handleWebhookEvent_item_skips pid rid counts m w ids w1 Hr Hin)
    as (w2 & Hi & Hq).
  exists w2. split; [now apply handleWebhookEvent_iteration_passes |].
  split; [exact Hq |].
  unfold writes. destruct Hq as [_ ->].
  exact (getMainItemLinkedIds_writes m (Some rid) w _ w1 Hr).
Qed.

Lemma loop_cons pid rid counts m rest w c w1 :
  handleWebhookEvent_iteration cfg pid rid counts m w = (Returns c, w1) ->
  handleWebhookEvent_loop cfg pid rid counts (m :: rest) w
  = handleWebhookEvent_loop cfg pid rid c rest w1.
Proof. intros Hi. cbn [handleWebhookEvent_loop]. unfold bind. now rewrite Hi. Qed.

(** The loop never throws. *)
Lemma handleWebhookEvent_loop_returns pid rid items :
  forall counts w,
  exists counts' w',
    handleWebhookEvent_loop cfg pid rid counts items w = (Returns counts', w').
Proof.
  induction items as [| m rest IH]; intros counts w.
  - exists counts, w. reflexivity.
  - destruct (handleWebhookEvent_iteration_returns pid rid counts m w)
      as (c & w1 & Hi).
    rewrite (loop_cons pid rid counts m rest w c w1 Hi). apply IH.
Qed.

(* ------------------------------------------------------------------ *)
(** *** A state in which every target is already linked *)

Section Consistent.

(** [consistent] holds of the states of the platform in which every read of a
    target that succeeds returns a set with the parent in it; reads keep
    the platform in such a state. *)
Variable consistent : Net -> Prop.
Variable pid : number.
Variable rid : string.
Variable items : list Z.

Hypothesis reads_keep :
  forall r n, is_write r = false -> consistent n -> consistent (snd (transport r n)).

Hypothesis reads_find :
  forall m w ids w1,
    In m items -> consistent (net w) ->
    getMainItemLinkedIds cfg m (Some rid) w = (Returns ids, w1) ->
    includes ids (Number pid) = true.

Lemma consistent_net_after r k :
  is_write r = false -> forall n, consistent n -> consistent (net_after r k n).
Proof.
  intros Hr. induction k as [| k IH]; intros n Hn; [exact Hn |].
  cbn [net_after]. apply IH, reads_keep; assumption.
Qed.

Lemma consistent_after_read m w r w1 :
  consistent (net w) ->
  getMainItemLinkedIds cfg m (Some rid) w = (r, w1) ->
  consistent (net w1).
Proof.
  intros Hc Hr.
  destruct (getMainItemLinkedIds_footprint m (Some rid) w r w1 Hr) as (k & _ & ->).
  now apply consistent_net_after.
Qed.

Lemma iteration_consistent counts m w :
  In m items -> consistent (net w) ->
  exists counts' w',
    handleWebhookEvent_iteration cfg pid rid counts m w = (Returns counts', w')
    /\ writes w' = writes w
    /\ updatedCount counts' = updatedCount counts
    /\ consistent (net w').
Proof.
  intros Hin Hc.
  destruct (getMainItemLinkedIds cfg m (Some rid) w) as [[ids | e] w1] eqn:Hr.
  - destruct (handleWebhookEvent_iteration_skips pid rid counts m w ids w1 Hr
                (reads_find m w ids w1 Hin Hc Hr)) as (w2 & Hi & [Hn _] & Hw).
    eexists; exists w2. split; [exact Hi |]. split; [exact Hw |].
    split; [reflexivity |]. rewrite Hn. exact (consistent_after_read m w _ w1 Hc Hr).
  - destruct (handleWebhookEvent_iteration_catches pid rid counts m w e w1
                (handleWebhookEvent_item_read_throws pid rid counts m w e w1 Hr))
      as (w2 & Hi & [Hn Hcalls]).
    exists counts, w2. split; [exact Hi |]. split.
    + unfold writes. rewrite Hcalls.
      exact (getMainItemLinkedIds_writes m (Some rid) w _ w1 Hr).
    + split; [reflexivity |].
      rewrite Hn. exact (consistent_after_read m w _ w1 Hc Hr).
Qed.

Lemma loop_consistent targets :
  incl targets items ->
  forall counts w,
    consistent (net w) ->
    exists counts' w',
      handleWebhookEvent_loop cfg pid rid counts targets w = (Returns counts', w')
      /\ writes w' = writes w
      /\ updatedCount counts' = updatedCount counts
      /\ consistent (net w').
Proof.
  induction targets as [| m rest IH]; intros Hincl counts w Hc.
  - exists counts, w. repeat split; assumption.
  - destruct (iteration_consistent counts m w (Hincl m (or_introl eq_refl)) Hc)
      as (c & w1 & Hi & Hw & Hu & Hc1).
    rewrite (loop_cons pid rid counts m rest w c w1 Hi).
    destruct (IH (fun x Hx => Hincl x (or_intror Hx)) c w1 Hc1)
      as (c' & w' & Hl & Hw' & Hu' & Hc').
    exists c', w'. split; [exact Hl |].
    split; [congruence |]. split; [congruence | exact Hc'].
Qed.

End Consistent.

(** C3. A main item whose relation set, as read, already contains the parent
    is counted as skipped and not as updated, and no write is sent for it,
    whatever the mode: after the read nothing more is sent and the platform is
    left alone.  When the platform is in a state in which every target reads
    as already linked, and reads keep it in such a state, the whole loop
    sends no write and updates nothing, and so does the loop invoked again
    on the state it left. *)
Theorem already_linked_item_is_skipped (pid : number) (rid : string) :
  (forall counts m w ids w1,
      getMainItemLinkedIds cfg m (Some rid) w = (Returns ids, w1) ->
      includes ids (Number pid) = true ->
      exists w2,
        handleWebhookEvent_iteration cfg pid rid counts m w
        = (Returns {| updatedCount := updatedCount counts;
                      skippedCount := S (skippedCount counts) |}, w2)
        /\ calls w2 = calls w1 /\ net w2 = net w1
        /\ writes w2 = writes w)
  /\ (forall (consistent : Net -> Prop) (items : list Z),
         (forall r n, is_write r = false -> consistent n ->
                      consistent (snd (transport r n))) ->
         (forall m w ids w1,
             In m items -> consistent (net w) ->
             getMainItemLinkedIds cfg m (Some rid) w = (Returns ids, w1) ->
             includes ids (Number pid) = true) ->
         forall counts w,
           consistent (net w) ->
           exists counts' w',
             handleWebhookEvent_loop cfg pid rid counts items w = (Returns counts', w')
             /\ writes w' = writes w
             /\ updatedCount counts' = updatedCount counts
             /\ (forall counts2,
                    exists counts'' w'',
                      handleWebhookEvent_loop cfg pid rid counts2 items w'
                      = (Returns counts'', w'')
                      /\ writes w'' = writes w
                      /\ updatedCount counts'' = updatedCount counts2)).
Proof.
  split.
  - intros counts m w ids w1 Hr Hin.
    destruct (handleWebhookEvent_iteration_skips pid rid counts m w ids w1 Hr Hin)
      as (w2 & Hi & [Hn Hc] & Hw).
    exists w2. repeat split; assumption.
  - intros consistent items Hkeep Hfind counts w Hc.
    destruct (loop_consistent consistent pid rid items Hkeep Hfind items
                (incl_refl items) counts w Hc) as (c' & w' & Hl & Hw & Hu & Hc').
    exists c', w'. repeat split; try assumption.
    intros counts2.
    destruct (loop_consistent consistent pid rid items Hkeep Hfind items
                (incl_refl items) counts2 w' Hc') as (c2 & w2 & Hl2 & Hw2 & Hu2 & _).
    exists c2, w2. repeat split; congruence.
Qed.

(* ------------------------------------------------------------------ *)
(** *** The merged set *)

Lemma sameValueZero_eq a b : sameValueZero a b = true -> a = b.
Proof.
  destruct a as [| | x | x | x | x | x], b as [| | y | y | y | y | y];
    cbn; intros H; try discriminate H; try reflexivity.
  - apply Bool.eqb_prop in H. now subst.
  - destruct x as [| x], y as [| y]; try discriminate H; [reflexivity |].
    cbn in H. apply Z.eqb_eq in H. now subst.
  - apply String.eqb_eq in H. now subst.
Qed.

Lemma includes_In xs x : includes xs x = true -> In x xs.
Proof.
  unfold includes. rewrite existsb_exists. intros (y & Hin & Heq).
  apply sameValueZero_eq in Heq. now subst.
Qed.

Lemma Set_add_In set x y : In y (Set_add set x) <-> In y set \/ y = x.
Proof.
  unfold Set_add. destruct (includes set x) eqn:Hinc.
  - split; [now left |]. intros [H | ->]; [exact H | now apply includes_In].
  - rewrite in_app_iff. cbn. intuition congruence.
Qed.

Lemma Set_add_number_NoDup set n : NoDup set -> NoDup (Set_add set (Number n)).
Proof.
  intros Hnd. unfold Set_add. destruct (includes set (Number n)) eqn:Hinc;
    [exact Hnd |].
  apply NoDup_app; [exact Hnd | repeat constructor; intros [] |].
  intros x Hx [<- | []].
  apply includes_number in Hx. congruence.
Qed.

Lemma fold_Set_add_In xs : forall set y,
  In y (fold_left Set_add xs set) <-> In y set \/ In y xs.
Proof.
  induction xs as [| x xs IH]; intros set y; cbn [fold_left].
  - cbn. tauto.
  - rewrite IH, Set_add_In. cbn. intuition congruence.
Qed.

Lemma fold_Set_add_NoDup (ns : list number) : forall set,
  NoDup set -> NoDup (fold_left Set_add (map Number ns) set).
Proof.
  induction ns as [| n ns IH]; intros set Hnd; cbn [map fold_left];
    [exact Hnd |].
  apply IH, Set_add_number_NoDup, Hnd.
Qed.

Lemma includes_numbers_false (S : list number) (C : number) :
  ~ In C S -> includes (map Number S) (Number C) = false.
Proof.
  intros Hnot. destruct (includes (map Number S) (Number C)) eqn:Hinc;
    [| reflexivity].
  apply includes_number, in_map_iff in Hinc. destruct Hinc as (n & Hn & Hin).
  injection Hn as ->. contradiction.
Qed.

(** C4. For a list [S] of linked ids as read, in any order and with any
    duplicates, and a parent id [C] not in [S], the payload that is merged
    and written contains exactly the ids of [S] and [C], each once; it is
    what the write request for the item carries. *)
Theorem merged_payload_is_union (S : list number) (C : number) :
  ~ In C S ->
  (forall x,
      In x (Set_spread (map Number S ++ [Number C]))
      <-> exists n, x = Number n /\ (In n S \/ n = C))
  /\ NoDup (Set_spread (map Number S ++ [Number C]))
  /\ (forall m rid counts w w1,
         dryRun cfg = false ->
         getMainItemLinkedIds cfg m (Some rid) w = (Returns (map Number S), w1) ->
         exists r w3 k,
           handleWebhookEvent_item cfg C rid counts m w = (r, w3)
           /\ calls w3
              = (calls w1
                 ++ repeat (write_request cfg m
                              (Set_spread (map Number S ++ [Number C]))) k)%list
           /\ (forall c, r = Returns c -> (1 <= k)%nat)
           /\ (forall e, r = Throws e -> k = maxAttempts (retry cfg))).
Proof.
  intros Hnot. split; [| split].
  - intros x. unfold Set_spread. rewrite fold_Set_add_In, in_app_iff, in_map_iff.
    cbn. split.
    + intros [[] | [(n & <- & Hin) | [<- | []]]]; eexists; split; eauto.
    + intros (n & -> & [Hin | ->]); right; [left; eauto | right; now left].
  - unfold Set_spread.
    replace (map Number S ++ [Number C])%list with (map Number (S ++ [C])).
    + apply fold_Set_add_NoDup. constructor.
    + now rewrite map_app.
  - intros m rid counts w w1 Hdry Hr.
    destruct (handleWebhookEvent_item_writes C rid counts m w (map Number S) w1 Hr
                (includes_numbers_false S C Hnot) Hdry)
      as (r & w3 & k & Hi & Hcalls & Hret & Hthrow).
    exists r, w3, k. split; [exact Hi |]. split; [exact Hcalls |].
    split; [intros c Hc; exact (proj1 (Hret c Hc)) | exact Hthrow].
Qed.

(* ------------------------------------------------------------------ *)
(** *** Relation values that cannot be read *)

Lemma parse_relation_value_malformed raw :
  match JSON_parse raw with
  | None => True
  | Some parsed => Array_isArray (linkedPulseIds_of parsed) = false
  end ->
  exists caught, parse_relation_value raw = inr caught.
Proof.
  unfold parse_relation_value, linkedPulseIds_of.
  destruct (JSON_parse raw) as [parsed |]; [| intros _; now exists true].
  intros Hshape.
  assert (Hsame : match parsed with
                  | Undefined | Null => Undefined
                  | _ => get_property parsed "linkedPulseIds"
                  end = get_property parsed "linkedPulseIds")
    by (destruct parsed; reflexivity).
  rewrite Hsame, Hshape, andb_false_r. now exists false.
Qed.

Lemma parseLinkedItemIds_malformed raw :
  malformed raw -> parseLinkedItemIds raw = [].
Proof.
  destruct raw as [s |]; [| reflexivity].
  cbn [malformed parseLinkedItemIds]. intros [-> | Hshape]; [reflexivity |].
  destruct (String.eqb s EmptyString); [reflexivity |].
  destruct (parse_relation_value_malformed s Hshape) as (caught & ->). reflexivity.
Qed.

(** What [getMainItemLinkedIds] does with the data of its query. *)
Lemma getMainItemLinkedIds_items m rid w items w1 :
  mondayQuery cfg (GetMainItemLinks (mainToFeature (columns cfg)) [String_of_Z m]) rid w
  = (Returns (ItemsData items), w1) ->
  exists ids w',
    getMainItemLinkedIds cfg m rid w = (Returns ids, w') /\ quiet w1 w'.
Proof.
  intros Hq. unfold getMainItemLinkedIds. unfold bind at 1. rewrite Hq. cbn.
  destruct (hd_error items) as [mainItem |].
  2: { eexists; eexists; split; [reflexivity | apply quiet_refl]. }
  destruct (find _ (column_values mainItem)) as [col |].
  2: { eexists; eexists; split; [reflexivity | apply quiet_refl]. }
  destruct (cv_value col) as [raw |].
  2: { eexists; eexists; split; [reflexivity | apply quiet_refl]. }
  destruct (String.eqb raw EmptyString).
  1: { eexists; eexists; split; [reflexivity | apply quiet_refl]. }
  destruct (parse_relation_value raw) as [ids | [|]].
  all: eexists; eexists; split; [reflexivity | split; reflexivity].
Qed.

Lemma getMainItemLinkedIds_malformed m rid w items mainItem col w1 :
  mondayQuery cfg (GetMainItemLinks (mainToFeature (columns cfg)) [String_of_Z m]) rid w
  = (Returns (ItemsData items), w1) ->
  hd_error items = Some mainItem ->
  find (fun c => String.eqb (cv_id c) (mainToFeature (columns cfg)))
       (column_values mainItem) = Some col ->
  malformed (cv_value col) ->
  exists w', getMainItemLinkedIds cfg m rid w = (Returns [], w') /\ quiet w1 w'.
Proof.
  intros Hq Hhd Hfind Hbad. unfold getMainItemLinkedIds. unfold bind at 1.
  rewrite Hq. cbn. rewrite Hhd, Hfind.
  destruct (cv_value col) as [raw |].
  2: { eexists; split; [reflexivity | apply quiet_refl]. }
  destruct (String.eqb raw EmptyString) eqn:Hempty.
  1: { eexists; split; [reflexivity | apply quiet_refl]. }
  destruct Hbad as [-> | Hshape]; [discriminate Hempty |].
  destruct (parse_relation_value_malformed raw Hshape) as ([|] & ->).
  all: eexists; split; [reflexivity | split; reflexivity].
Qed.

Lemma getMainItemLinkedIds_no_item m rid w w1 :
  mondayQuery cfg (GetMainItemLinks (mainToFeature (columns cfg)) [String_of_Z m]) rid w
  = (Returns (ItemsData []), w1) ->
  getMainItemLinkedIds cfg m rid w = (Returns [], w1).
Proof.
  intros Hq. unfold getMainItemLinkedIds. unfold bind at 1. now rewrite Hq.
Qed.

(** An empty set was read: outside a dry run the parent alone is written. *)
Lemma handleWebhookEvent_item_on_empty pid rid counts m w w1 :
  getMainItemLinkedIds cfg m (Some rid) w = (Returns [], w1) ->
  dryRun cfg = false ->
  exists r w3 k,
    handleWebhookEvent_item cfg pid rid counts m w = (r, w3)
    /\ calls w3 = (calls w1 ++ repeat (write_request cfg m [Number pid]) k)%list
    /\ (forall c, r = Returns c ->
                  (1 <= k)%nat
                  /\ c = {| updatedCount := S (updatedCount counts);
                            skippedCount := skippedCount counts |})
    /\ (forall e, r = Throws e -> k = maxAttempts (retry cfg)).
Proof.
  intros Hr Hdry.
  exact (handleWebhookEvent_item_writes pid rid counts m w [] w1 Hr eq_refl Hdry).
Qed.

(** C8. A relation-column value that is [null], that is not JSON, or that
    lacks a [linkedPulseIds] array is read as the empty set:
    [parseLinkedItemIds] returns [[]] for it, and [getMainItemLinkedIds],
    once its query has returned the item, returns [[]] without throwing and
    without a further request.  Whatever the value, [getMainItemLinkedIds]
    returns once its query has returned items.  With the empty set read, the
    worst that follows is a write of the parent alone. *)
Theorem malformed_relation_value_reads_empty :
  (forall raw, malformed raw -> parseLinkedItemIds raw = [])
  /\ (forall m rid w items mainItem col w1,
         mondayQuery cfg (GetMainItemLinks (mainToFeature (columns cfg))
                                           [String_of_Z m]) rid w
         = (Returns (ItemsData items), w1) ->
         hd_error items = Some mainItem ->
         find (fun c => String.eqb (cv_id c) (mainToFeature (columns cfg)))
              (column_values mainItem) = Some col ->
         malformed (cv_value col) ->
         exists w',
           getMainItemLinkedIds cfg m rid w = (Returns [], w')
           /\ calls w' = calls w1 /\ net w' = net w1)
  /\ (forall m rid w items w1,
         mondayQuery cfg (GetMainItemLinks (mainToFeature (columns cfg))
                                           [String_of_Z m]) rid w
         = (Returns (ItemsData items), w1) ->
         exists ids w',
           getMainItemLinkedIds cfg m rid w = (Returns ids, w')
           /\ calls w' = calls w1 /\ net w' = net w1)
  /\ (forall pid rid counts m w w1,
         getMainItemLinkedIds cfg m (Some rid) w = (Returns [], w1) ->
         dryRun cfg = false ->
         exists r w3 k,
           handleWebhookEvent_item cfg pid rid counts m w = (r, w3)
           /\ calls w3 = (calls w1 ++ repeat (write_request cfg m [Number pid]) k)%list).
Proof.
  split; [exact parseLinkedItemIds_malformed |]. split; [| split].
  - intros m rid w items mainItem col w1 Hq Hhd Hfind Hbad.
    destruct (getMainItemLinkedIds_malformed m rid w items mainItem col w1
                Hq Hhd Hfind Hbad) as (w' & Hr & Hn & Hc).
    exists w'. repeat split; assumption.
  - intros m rid w items w1 Hq.
    destruct (getMainItemLinkedIds_items m rid w items w1 Hq)
      as (ids & w' & Hr & Hn & Hc).
    exists ids, w'. repeat split; assumption.
  - intros pid rid counts m w w1 Hr Hdry.
    destruct (handleWebhookEvent_item_on_empty pid rid counts m w w1 Hr Hdry)
      as (r & w3 & k & Hi & Hcalls & _).
    exists r, w3, k. split; assumption.
Qed.

(** C10. When the query for a main item returns no item, the read returns
    the empty list, as it does for an item without links.  The reconciler
    then merges: outside a dry run it sends the write of the parent alone and
    counts the item as updated when the write returns; in a dry run it counts
    the item as updated and sends nothing. *)
Theorem missing_main_item_reads_empty (m : Z) (rid : string) (w w1 : World) :
  mondayQuery cfg (GetMainItemLinks (mainToFeature (columns cfg)) [String_of_Z m])
              (Some rid) w
  = (Returns (ItemsData []), w1) ->
  getMainItemLinkedIds cfg m (Some rid) w = (Returns [], w1)
  /\ (forall pid counts,
         dryRun cfg = false ->
         exists r w3 k,
           handleWebhookEvent_item cfg pid rid counts m w = (r, w3)
           /\ calls w3 = (calls w1 ++ repeat (write_request cfg m [Number pid]) k)%list
           /\ (forall c, r = Returns c ->
                         (1 <= k)%nat
                         /\ c = {| updatedCount := S (updatedCount counts);
                                   skippedCount := skippedCount counts |})
           /\ (forall e, r = Throws e -> k = maxAttempts (retry cfg)))
  /\ (forall pid counts,
         dryRun cfg = true ->
         exists w2,
           handleWebhookEvent_item cfg pid rid counts m w
           = (Returns {| updatedCount := S (updatedCount counts);
                         skippedCount := skippedCount counts |}, w2)
           /\ calls w2 = calls w1 /\ net w2 = net w1).
Proof.
  intros Hq.
  pose proof (getMainItemLinkedIds_no_item m (Some rid) w w1 Hq) as Hr.
  split; [exact Hr |]. split.
  - intros pid counts Hdry.
    exact (handleWebhookEvent_item_on_empty pid rid counts m w w1 Hr Hdry).
  - intros pid counts Hdry.
    destruct (handleWebhookEvent_item_dry pid rid counts m w [] w1 Hr eq_refl Hdry)
      as (w2 & Hi & Hn & Hc).
    exists w2. repeat split; assumption.
Qed.

(* ------------------------------------------------------------------ *)
(** *** Events out of scope *)

(** The three checks of the handler for subitem changes, one by one. *)
Lemma handleWebhookEvent_unexpected_board event rid :
  boardId event <> subitem (boards cfg) ->
  boardId event <> feature (boards cfg) ->
  handleWebhookEvent cfg (WebhookEvent event) rid
  = (log info "Received webhook event" (Some rid) ;;;
     log warn "Ignoring event from unexpected board" (Some rid) ;;;
     ret (rejected "Event from unexpected board")).
Proof.
  intros H1 H2. unfold handleWebhookEvent.
  apply Z.eqb_neq in H1, H2. rewrite H1, H2. reflexivity.
Qed.

Lemma handleWebhookEvent_board_check event :
  boardId event = subitem (boards cfg) \/ boardId event = feature (boards cfg) ->
  (negb (Z.eqb (boardId event) (subitem (boards cfg)))
   && negb (Z.eqb (boardId event) (feature (boards cfg))))%bool = false.
Proof.
  intros [H | H]; rewrite H, Z.eqb_refl; simpl; [reflexivity | apply andb_false_r].
Qed.

Lemma handleWebhookEvent_non_target_column event rid :
  boardId event = subitem (boards cfg) \/ boardId event = feature (boards cfg) ->
  columnId event <> subitemToMain (columns cfg) ->
  handleWebhookEvent cfg (WebhookEvent event) rid
  = (log info "Received webhook event" (Some rid) ;;;
     log debug "Ignoring event for non-target column" (Some rid) ;;;
     ret (rejected "Event for non-target column")).
Proof.
  intros Hb Hc. unfold handleWebhookEvent.
  rewrite (handleWebhookEvent_board_check event Hb).
  apply String.eqb_neq in Hc. rewrite Hc. reflexivity.
Qed.

Lemma handleWebhookEvent_nothing_linked event rid :
  boardId event = subitem (boards cfg) \/ boardId event = feature (boards cfg) ->
  columnId event = subitemToMain (columns cfg) ->
  event_linkedMainItemIds event = [] ->
  handleWebhookEvent cfg (WebhookEvent event) rid
  = (log info "Received webhook event" (Some rid) ;;;
     log info "No linked main items in event, nothing to do" (Some rid) ;;;
     ret {| challenge := None; success := Some true;
            message := Some "No linked items to process";
            outcome_dryRun := None |}).
Proof.
  intros Hb Hc Hl. unfold handleWebhookEvent.
  rewrite (handleWebhookEvent_board_check event Hb).
  apply String.eqb_eq in Hc. rewrite Hc, Hl. reflexivity.
Qed.

(** The same checks in the handler for direct changes. *)
Lemma handleWebhookEvent_direct_unexpected_board event rid :
  boardId event <> subitem (boards cfg) ->
  handleWebhookEvent_direct cfg (WebhookEvent event) rid
  = (log info "Received webhook event" (Some rid) ;;;
     log warn "Ignoring event from unexpected board" (Some rid) ;;;
     ret (rejected "Event from unexpected board")).
Proof.
  intros H. unfold handleWebhookEvent_direct.
  apply Z.eqb_neq in H. rewrite H. reflexivity.
Qed.

Lemma handleWebhookEvent_direct_non_target_column event rid :
  boardId event = subitem (boards cfg) ->
  columnId event <> subitemToMain (columns cfg) ->
  handleWebhookEvent_direct cfg (WebhookEvent event) rid
  = (log info "Received webhook event" (Some rid) ;;;
     log debug "Ignoring event for non-target column" (Some rid) ;;;
     ret (rejected "Event for non-target column")).
Proof.
  intros Hb Hc. unfold handleWebhookEvent_direct.
  rewrite Hb, Z.eqb_refl. apply String.eqb_neq in Hc. rewrite Hc. reflexivity.
Qed.

Lemma handleWebhookEvent_direct_nothing_linked event rid :
  boardId event = subitem (boards cfg) ->
  columnId event = subitemToMain (columns cfg) ->
  event_linkedMainItemIds event = [] ->
  handleWebhookEvent_direct cfg (WebhookEvent event) rid
  = (log info "Received webhook event" (Some rid) ;;;
     log info "No linked main items in event, nothing to do" (Some rid) ;;;
     ret {| challenge := None; success := Some true;
            message := Some "No linked items to process";
            outcome_dryRun := None |}).
Proof.
  intros Hb Hc Hl. unfold handleWebhookEvent_direct.
  rewrite Hb, Z.eqb_refl. apply String.eqb_eq in Hc. rewrite Hc, Hl. reflexivity.
Qed.

(** C2. An event from a board that is not accepted, or for a column other
    than the subitem-to-main relation column, or with no linked main items,
    is answered before any remote call: the handler returns, the list of
    requests sent is unchanged (no read, no write) and the platform is left
    as it was.  This holds for the handler for subitem changes, which accepts
    the subitem board and the feature board, and for the handler for direct
    changes, which accepts the subitem board. *)
Theorem out_of_scope_makes_no_remote_call (event : Event) (rid : string) (w : World) :
  ((boardId event <> subitem (boards cfg) /\ boardId event <> feature (boards cfg))
   \/ columnId event <> subitemToMain (columns cfg)
   \/ event_linkedMainItemIds event = [] ->
   exists out w',
     handleWebhookEvent cfg (WebhookEvent event) rid w = (Returns out, w')
     /\ calls w' = calls w /\ net w' = net w)
  /\ (boardId event <> subitem (boards cfg)
      \/ columnId event <> subitemToMain (columns cfg)
      \/ event_linkedMainItemIds event = [] ->
      exists out w',
        handleWebhookEvent_direct cfg (WebhookEvent event) rid w = (Returns out, w')
        /\ calls w' = calls w /\ net w' = net w).
Proof.
  split; intros Hout.
  - destruct (Z.eq_dec (boardId event) (subitem (boards cfg))) as [Hs | Hs];
      [| destruct (Z.eq_dec (boardId event) (feature (boards cfg))) as [Hf | Hf]].
    3: { rewrite (handleWebhookEvent_unexpected_board event rid Hs Hf).
         eexists; eexists; split; [reflexivity | split; reflexivity]. }
    all: assert (Hb : boardId event = subitem (boards cfg)
                      \/ boardId event = feature (boards cfg)) by tauto.
    all: destruct (string_dec (columnId event) (subitemToMain (columns cfg)))
      as [Hc | Hc];
      [ assert (Hl : event_linkedMainItemIds event = []) by tauto;
        rewrite (handleWebhookEvent_nothing_linked event rid Hb Hc Hl)
      | rewrite (handleWebhookEvent_non_target_column event rid Hb Hc) ].
    all: eexists; eexists; split; [reflexivity | split; reflexivity].
  - destruct (Z.eq_dec (boardId event) (subitem (boards cfg))) as [Hb | Hb].
    2: { rewrite (handleWebhookEvent_direct_unexpected_board event rid Hb).
         eexists; eexists; split; [reflexivity | split; reflexivity]. }
    destruct (string_dec (columnId event) (subitemToMain (columns cfg)))
      as [Hc | Hc];
      [ assert (Hl : event_linkedMainItemIds event = []) by tauto;
        rewrite (handleWebhookEvent_direct_nothing_linked event rid Hb Hc Hl)
      | rewrite (handleWebhookEvent_direct_non_target_column event rid Hb Hc) ].
    all: eexists; eexists; split; [reflexivity | split; reflexivity].
Qed.

(* ------------------------------------------------------------------ *)
(** *** Resolving the parent *)

(** C9, as the handler has it.  The parent of the fetched subitem is used
    whenever the lookup yields one, whatever the event carries.  The nested
    [parentItemId] and [parentItemBoardId] are used when the lookup yields no
    parent and both are present and non-zero.  The top-level [pulseId] and
    [boardId] are used when the lookup yields no parent and the nested pair is
    incomplete (one of the two is missing or zero), provided both are
    non-zero; otherwise no parent is resolved. *)
Theorem parent_resolution_order (fetched : Item) (event : Event) :
  (forall p,
      parent_item fetched = Some p ->
      handleWebhookEvent_parent fetched event
      = Some (parseInt10 (parent_id p), parseInt10 (parent_board_id p)))
  /\ (forall pid pbid,
         parent_item fetched = None ->
         parentItemId event = Some pid -> pid <> 0 ->
         parentItemBoardId event = Some pbid -> pbid <> 0 ->
         handleWebhookEvent_parent fetched event = Some (Int pid, Int pbid))
  /\ (parent_item fetched = None ->
      (truthy_opt (parentItemId event)
       && truthy_opt (parentItemBoardId event))%bool = false ->
      handleWebhookEvent_parent fetched event
      = if (negb (Z.eqb (pulseId event) 0) && negb (Z.eqb (boardId event) 0))%bool
        then Some (Int (pulseId event), Int (boardId event))
        else None).
Proof.
  unfold handleWebhookEvent_parent. split; [| split].
  - intros p ->. reflexivity.
  - intros pid pbid -> -> Hpid -> Hpbid.
    apply Z.eqb_neq in Hpid, Hpbid. rewrite Hpid, Hpbid. reflexivity.
  - intros -> Hnested. unfold truthy_opt in Hnested.
    destruct (parentItemId event) as [pid |], (parentItemBoardId event) as [pbid |];
      try reflexivity.
    rewrite Hnested. reflexivity.
Qed.

(* ------------------------------------------------------------------ *)
(** *** From the event to its links *)

Lemma getSubitemWithParent_footprint sid rid w r w' :
  getSubitemWithParent cfg sid rid w = (r, w') ->
  exists k,
    calls w'
    = (calls w
       ++ repeat (mondayQuery_request cfg
                    (GetSubitemWithParent (subitemToMain (columns cfg))
                                          [String_of_Z sid])) k)%list.
Proof.
  unfold getSubitemWithParent. unfold bind at 1. intros Hrun.
  destruct (mondayQuery cfg _ rid w) as [[d | e] w1] eqn:Hq;
    destruct (mondayQuery_footprint _ _ _ _ _ Hq) as (k & _ & Hcalls & _);
    exists k.
  - destruct d as [items | id]; cbn in Hrun; injection Hrun as <- <-; exact Hcalls.
  - injection Hrun as <- <-. exact Hcalls.
Qed.

Lemma getSubitemWithParent_writes sid rid w r w' :
  getSubitemWithParent cfg sid rid w = (r, w') -> writes w' = writes w.
Proof.
  intros Hrun. destruct (getSubitemWithParent_footprint sid rid w r w' Hrun)
    as (k & Hcalls).
  unfold writes. rewrite Hcalls. now apply writes_after_reads.
Qed.

(** An event in scope whose subitem is fetched and whose parent is resolved
    goes on to its links. *)
Lemma handleWebhookEvent_reaches_links event rid w fetched w1 pid pbid :
  in_scope cfg event ->
  getSubitemWithParent cfg (or_else (subitemId event) (pulseId event)) (Some rid)
                       (entered rid w)
  = (Returns (Some fetched), w1) ->
  handleWebhookEvent_parent fetched event = Some (pid, pbid) ->
  handleWebhookEvent cfg (WebhookEvent event) rid w
  = handleWebhookEvent_links cfg pid pbid rid (event_linkedMainItemIds event) w1.
Proof.
  intros (Hb & Hc & Hl) Hfetch Hparent. unfold handleWebhookEvent.
  rewrite (handleWebhookEvent_board_check event Hb).
  apply String.eqb_eq in Hc. rewrite Hc.
  destruct (event_linkedMainItemIds event) as [| m rest] eqn:Hitems;
    [contradiction |].
  cbn [List.length Nat.eqb negb].
  unfold bind at 1. cbn [log]. unfold bind at 1. cbn [log]. unfold bind at 1.
  match goal with
  | |- context [getSubitemWithParent cfg ?sid ?r ?w0] =>
      change w0 with (entered rid w)
  end.
  rewrite Hfetch, Hparent. reflexivity.
Qed.

Lemma number_eqb_neq a b : a <> b -> number_eqb a b = false.
Proof.
  destruct a as [| x], b as [| y]; cbn; intros H; try reflexivity.
  - now contradiction H.
  - apply Z.eqb_neq. intros ->. now apply H.
Qed.

(** C7. When the board of the resolved parent is not the configured feature
    board, the event is rejected as a whole: the handler returns a failed
    outcome that says so, nothing is sent after the fetch of the subitem (no
    main item is read, the loop is never entered), and no write is sent at
    all. *)
Theorem foreign_parent_board_is_rejected
        (event : Event) (rid : string) (w : World)
        (fetched : Item) (w1 : World) (pid pbid : number) :
  in_scope cfg event ->
  getSubitemWithParent cfg (or_else (subitemId event) (pulseId event)) (Some rid)
                       (entered rid w)
  = (Returns (Some fetched), w1) ->
  handleWebhookEvent_parent fetched event = Some (pid, pbid) ->
  pbid <> Int (feature (boards cfg)) ->
  exists w',
    handleWebhookEvent cfg (WebhookEvent event) rid w
    = (Returns (rejected "Parent item not from expected Feature board"), w')
    /\ success (rejected "Parent item not from expected Feature board") = Some false
    /\ calls w' = calls w1 /\ net w' = net w1
    /\ writes w' = writes w.
Proof.
  intros Hscope Hfetch Hparent Hboard.
  rewrite (handleWebhookEvent_reaches_links event rid w fetched w1 pid pbid
             Hscope Hfetch Hparent).
  unfold handleWebhookEvent_links. rewrite (number_eqb_neq _ _ Hboard). cbn [negb].
  eexists. split; [reflexivity |]. split; [reflexivity |].
  split; [reflexivity |]. split; [reflexivity |].
  unfold writes. cbn [calls log snd bind].
  exact (getSubitemWithParent_writes _ _ _ _ _ Hfetch).
Qed.

(* ------------------------------------------------------------------ *)
(** *** Isolation of the items *)





(* ------------------------------------------------------------------ *)
(** *** How rejections are reported *)



End Properties.

(* ================================================================== *)
(** ** The statements on the sample platforms *)
(* ================================================================== *)

Import Sample.



Lemma out_of_scope_makes_no_remote_call_witness :
  (exists out w',
      handleWebhookEvent live
        (WebhookEvent (for_column "status" (subitem_change [70]))) "req_1"
        (serving office)
      = (Returns out, w')
      /\ calls w' = calls (serving office) /\ net w' = net (serving office))
  /\ (exists out w',
         handleWebhookEvent_direct live (WebhookEvent (direct_change [])) "req_1"
                                   (serving office)
         = (Returns out, w')
         /\ calls w' = calls (serving office) /\ net w' = net (serving office)).
Proof.
  split.
  - apply (out_of_scope_makes_no_remote_call
             live (for_column "status" (subitem_change [70])) "req_1"
             (serving office)).
    right; left. intros H; discriminate H.
  - apply (out_of_scope_makes_no_remote_call
             live (direct_change []) "req_1" (serving office)).
    right; right. reflexivity.
Defined.

Lemma already_linked_item_is_skipped_witness :
  (exists w2,
      handleWebhookEvent_iteration live (Int 501) "req_1" (no_counts) 71
                                   (serving office)
      = (Returns {| updatedCount := 0; skippedCount := 1 |}, w2)
      /\ writes w2 = writes (serving office))
  /\ (exists counts' w',
         handleWebhookEvent_loop live (Int 501) "req_1" (no_counts) [70; 71]
                                 (serving settled)
         = (Returns counts', w')
         /\ writes w' = writes (serving settled)
         /\ updatedCount counts' = 0%nat
         /\ (forall counts2,
                exists counts'' w'',
                  handleWebhookEvent_loop live (Int 501) "req_1" counts2 [70; 71] w'
                  = (Returns counts'', w'')
                  /\ writes w'' = writes (serving settled)
                  /\ updatedCount counts'' = updatedCount counts2)).
Proof.
  split.
  - destruct (proj1 (already_linked_item_is_skipped live (Int 501) "req_1")
                    (no_counts) 71 (serving office)
                    [Number (Int 501)]
                    (snd (getMainItemLinkedIds live 71 (Some "req_1") (serving office))))
      as (w2 & Hi & _ & _ & Hw);
      [apply run_eq; vm_compute; reflexivity | vm_compute; reflexivity |].
    exists w2. split; [exact Hi | exact Hw].
  - apply (proj2 (already_linked_item_is_skipped (platform := board)
                    live (Int 501) "req_1")
                 (fun b => b = settled) [70; 71]).
    + intros r n Hr ->. destruct r as [u a [c i | c i | b i c v]];
        [reflexivity | reflexivity | discriminate Hr].
    + intros m w ids w1 Hin Hnet Hread.
      destruct w as [n c s r l]. cbn [net] in Hnet. subst n.
      destruct Hin as [<- | [<- | []]]; apply (f_equal fst) in Hread;
        vm_compute in Hread; injection Hread as <-; reflexivity.
    + reflexivity.
Defined.

Lemma merged_payload_is_union_witness :
  (forall x,
      In x (Set_spread (map Number [Int 1; Int 2; Int 1] ++ [Number (Int 501)]))
      <-> exists n, x = Number n /\ (In n [Int 1; Int 2; Int 1] \/ n = Int 501))
  /\ NoDup (Set_spread (map Number [Int 1; Int 2; Int 1] ++ [Number (Int 501)]))
  /\ exists r w3 k,
       handleWebhookEvent_item live (Int 501) "req_1" (no_counts) 70
                               (serving cluttered) = (r, w3)
       /\ calls w3
          = (calls (snd (getMainItemLinkedIds live 70 (Some "req_1")
                                              (serving cluttered)))
             ++ repeat (write_request live 70
                          (Set_spread (map Number [Int 1; Int 2; Int 1]
                                       ++ [Number (Int 501)]))) k)%list.
Proof.
  assert (Hnot : ~ In (Int 501) [Int 1; Int 2; Int 1])
    by (intros [H | [H | [H | []]]]; discriminate H).
  destruct (merged_payload_is_union (platform := board) live
              [Int 1; Int 2; Int 1] (Int 501) Hnot) as (Hset & Hnodup & Hwrite).
  split; [exact Hset |]. split; [exact Hnodup |].
  destruct (Hwrite 70 "req_1" (no_counts) (serving cluttered)
              (snd (getMainItemLinkedIds live 70 (Some "req_1") (serving cluttered))))
    as (r & w3 & k & Hi & Hcalls & _);
    [vm_compute; reflexivity | apply run_eq; vm_compute; reflexivity |].
  exists r, w3, k. split; [exact Hi | exact Hcalls].
Defined.

Lemma mondayQuery_retry_policy_witness :
  (exists w',
      mondayQuery live (links_query 70) (Some "req_1")
                  (replaying [refused; unavailable; answer (ItemsData [])])
      = (Returns (ItemsData []), w')
      /\ calls w' = repeat (mondayQuery_request live (links_query 70)) 3)
  /\ (exists w',
         mondayQuery live (links_query 70) (Some "req_1")
                     (replaying [refused; unavailable; complaint "Rate limit"])
         = (Throws (mkError "GraphQL errors: Rate limit"), w')
         /\ calls w' = repeat (mondayQuery_request live (links_query 70)) 3).
Proof.
  split.
  - apply (proj1 (mondayQuery_retry_policy live (links_query 70) (Some "req_1")
                    (replaying [refused; unavailable; answer (ItemsData [])]))
                 (mkError "connect ECONNREFUSED")
                 (mkError "HTTP 503: Service Unavailable")
                 (ItemsData [])).
    + apply le_n.
    + vm_compute; reflexivity.
  - apply (proj2 (mondayQuery_retry_policy live (links_query 70) (Some "req_1")
                    (replaying [refused; unavailable; complaint "Rate limit"]))
                 [mkError "connect ECONNREFUSED";
                  mkError "HTTP 503: Service Unavailable"]
                 (mkError "GraphQL errors: Rate limit")).
    vm_compute; reflexivity.
Defined.


Lemma foreign_parent_board_is_rejected_witness :
  exists w',
    handleWebhookEvent live (WebhookEvent (subitem_change [70; 71])) "req_1"
      (replaying [answer (ItemsData [subitem_item 9001 (Some (501, 999))])])
    = (Returns (rejected "Parent item not from expected Feature board"), w')
    /\ writes w' = [].
Proof.
  destruct (foreign_parent_board_is_rejected
              live (subitem_change [70; 71]) "req_1"
              (replaying [answer (ItemsData [subitem_item 9001 (Some (501, 999))])])
              (subitem_item 9001 (Some (501, 999)))
              (snd (getSubitemWithParent live 9001 (Some "req_1")
                      (entered "req_1"
                         (replaying
                            [answer (ItemsData [subitem_item 9001 (Some (501, 999))])]))))
              (Int 501) (Int 999))
    as (w' & Hrun & _ & _ & _ & Hwrites).
  - split; [right; reflexivity | split; [reflexivity | discriminate]].
  - apply run_eq; vm_compute; reflexivity.
  - vm_compute; reflexivity.
  - intros H; discriminate H.
  - exists w'. split; [exact Hrun | exact Hwrites].
Defined.

Lemma malformed_relation_value_reads_empty_witness :
  parseLinkedItemIds (platform := scripted) (Some "{oops") = []
  /\ parseLinkedItemIds (platform := scripted) (Some "[1, 2]") = []
  /\ exists w',
       getMainItemLinkedIds live 70 (Some "req_1")
         (replaying [answer (ItemsData [main_item "board_relation_mkw8vvdh" 70
                                                  (Some "{oops")])])
       = (Returns [], w').
Proof.
  pose proof (malformed_relation_value_reads_empty (platform := scripted) live)
    as (Hparse & Hread & _ & _).
  split; [| split].
  - apply Hparse. right. vm_compute. exact I.
  - apply Hparse. right. vm_compute. reflexivity.
  - destruct (Hread 70 (Some "req_1")
                (replaying [answer (ItemsData [main_item "board_relation_mkw8vvdh" 70
                                                         (Some "{oops")])])
                [main_item "board_relation_mkw8vvdh" 70 (Some "{oops")]
                (main_item "board_relation_mkw8vvdh" 70 (Some "{oops"))
                {| cv_id := "board_relation_mkw8vvdh"; cv_value := Some "{oops";
                   cv_type := "board_relation" |}
                (snd (mondayQuery live (links_query 70) (Some "req_1")
                        (replaying
                           [answer (ItemsData [main_item "board_relation_mkw8vvdh" 70
                                                         (Some "{oops")])]))))
      as (w' & Hrun & _).
    + apply run_eq; vm_compute; reflexivity.
    + reflexivity.
    + vm_compute; reflexivity.
    + right. vm_compute. exact I.
    + exists w'. exact Hrun.
Defined.

(** C9 as stated fails.  The lookup yields no parent and the event
    carries a nested [parentItemId] but no nested [parentItemBoardId]: a
    nested field is present, and yet the top-level [pulseId] and [boardId]
    are the ones used.  The same happens when both nested fields are present
    and one of them is zero. *)
Lemma incomplete_nested_fields_yield_to_top_level :
  parent_item (subitem_item 9001 None) = None
  /\ parentItemId (with_nested (Some 777) None (subitem_change [70])) = Some 777
  /\ parentItemBoardId (with_nested (Some 777) None (subitem_change [70])) = None
  /\ pulseId (with_nested (Some 777) None (subitem_change [70])) = 501
  /\ handleWebhookEvent_parent (subitem_item 9001 None)
                               (with_nested (Some 777) None (subitem_change [70]))
     = Some (Int 501, Int 18041801957)
  /\ handleWebhookEvent_parent (subitem_item 9001 None)
                               (with_nested (Some 0) (Some 18041801957)
                                            (subitem_change [70]))
     = Some (Int 501, Int 18041801957).
Proof. repeat split. Qed.

Lemma parent_resolution_order_witness :
  handleWebhookEvent_parent (subitem_item 9001 (Some (502, 18041801957)))
                            (subitem_change [70])
  = Some (Int 502, Int 18041801957)
  /\ handleWebhookEvent_parent (subitem_item 9001 None) (subitem_change [70])
     = Some (Int 501, Int 18041801957)
  /\ handleWebhookEvent_parent (subitem_item 9001 None)
                               (with_nested (Some 777) None (subitem_change [70]))
     = Some (Int 501, Int 18041801957).
Proof.
  split; [| split].
  - exact (proj1 (parent_resolution_order
                    (subitem_item 9001 (Some (502, 18041801957)))
                    (subitem_change [70]))
                 {| parent_id := "502"; parent_board_id := "18041801957" |} eq_refl).
  - apply (proj1 (proj2 (parent_resolution_order (subitem_item 9001 None)
                                                 (subitem_change [70])))
                 501 18041801957);
      try reflexivity; intros H; discriminate H.
  - exact (proj2 (proj2 (parent_resolution_order
                           (subitem_item 9001 None)
                           (with_nested (Some 777) None (subitem_change [70]))))
                 eq_refl eq_refl).
Defined.

Lemma missing_main_item_reads_empty_witness :
  getMainItemLinkedIds live 72 (Some "req_1")
    (replaying [answer (ItemsData []); answer (ChangeColumnValueData "72")])
  = (Returns [],
     snd (mondayQuery live (links_query 72) (Some "req_1")
            (replaying [answer (ItemsData []); answer (ChangeColumnValueData "72")])))
  /\ exists r w3 k,
       handleWebhookEvent_item live (Int 501) "req_1" (no_counts) 72
         (replaying [answer (ItemsData []); answer (ChangeColumnValueData "72")])
       = (r, w3)
       /\ (forall c, r = Returns c ->
                     (1 <= k)%nat /\ c = {| updatedCount := 1; skippedCount := 0 |}).
Proof.
  destruct (missing_main_item_reads_empty
              live 72 "req_1"
              (replaying [answer (ItemsData []); answer (ChangeColumnValueData "72")])
              (snd (mondayQuery live (links_query 72) (Some "req_1")
                      (replaying [answer (ItemsData []);
                                  answer (ChangeColumnValueData "72")]))))
    as (Hread & Hlive & _).
  - apply run_eq; vm_compute; reflexivity.
  - split; [exact Hread |].
    destruct (Hlive (Int 501) (no_counts) eq_refl) as (r & w3 & k & Hi & _ & Hret & _).
    exists r, w3, k. split; [exact Hi | exact Hret].
Defined.

(* ------------------------------------------------------------------ *)
(** *** Runs *)

Example parseInt10_id : parseInt10 "18041801957" = Int 18041801957.
Proof. reflexivity. Qed.

Example parseInt10_garbage : parseInt10 "abc" = NaN.
Proof. reflexivity. Qed.

Example parseInt10_prefix : parseInt10 "  -42px" = Int (-42).
Proof. reflexivity. Qed.

Example String_of_Z_id : String_of_Z 18012438587 = "18012438587".
Proof. reflexivity. Qed.

Example Set_spread_dedupes :
  Set_spread [Number (Int 1); Number (Int 2); Number (Int 1); Number (Int 3)]
  = [Number (Int 1); Number (Int 2); Number (Int 3)].
Proof. reflexivity. Qed.

Example parse_links :
  parse (render_links [1; 22])
  = Some (Object [("linkedPulseIds",
                   Array [Object [("linkedPulseId", Number (Int 1))];
                          Object [("linkedPulseId", Number (Int 22))]])]).
Proof. vm_compute. reflexivity. Qed.

(** Elements of the array are not checked: one without [linkedPulseId] is
    read as [undefined], and a [null] among them empties the result. *)
Example element_without_id :
  parseLinkedItemIds (platform := scripted)
    (Some ("{" ++ quoted "linkedPulseIds" ++ ":[{" ++ quoted "other" ++ ":1}]}"))
  = [Undefined].
Proof. vm_compute. reflexivity. Qed.

Example null_element :
  parseLinkedItemIds (platform := scripted)
    (Some ("{" ++ quoted "linkedPulseIds" ++ ":[{" ++ quoted "linkedPulseId"
           ++ ":1},null]}"))
  = [].
Proof. vm_compute. reflexivity. Qed.

Example challenge_is_echoed :
  fst (handleWebhookEvent live (WebhookChallenge "abc123") "req_1" (serving office))
  = Returns {| challenge := Some "abc123"; success := None; message := None;
               outcome_dryRun := None |}.
Proof. vm_compute. reflexivity. Qed.

(** On the board [office] the event links main item 70, skips main item 71
    and fails on main item 72, which the board does not have. *)
Example office_first_delivery :
  fst (handleWebhookEvent live (WebhookEvent (subitem_change [70; 71; 72])) "req_1"
                          (serving office))
  = Returns {| challenge := None; success := Some true;
               message := Some "Updated 1 main items, skipped 1";
               outcome_dryRun := Some false |}
  /\ links (net (snd (handleWebhookEvent live
                        (WebhookEvent (subitem_change [70; 71; 72])) "req_1"
                        (serving office))))
     = [(70, [1; 2; 501]); (71, [501])].
Proof. split; vm_compute; reflexivity. Qed.

(** Delivered again on the board it left, the event skips both. *)
Example office_second_delivery :
  fst (handleWebhookEvent live (WebhookEvent (subitem_change [70; 71])) "req_2"
                          (serving settled))
  = Returns {| challenge := None; success := Some true;
               message := Some "Updated 0 main items, skipped 2";
               outcome_dryRun := Some false |}
  /\ writes (snd (handleWebhookEvent live (WebhookEvent (subitem_change [70; 71]))
                                     "req_2" (serving settled)))
     = [].
Proof. split; vm_compute; reflexivity. Qed.

(** One of two items fails after its retries and the other is written. *)
Example one_item_down_outcome :
  fst (handleWebhookEvent live (WebhookEvent (subitem_change [70; 71])) "req_1"
                          (replaying one_item_down))
  = Returns {| challenge := None; success := Some true;
               message := Some "Updated 1 main items, skipped 0";
               outcome_dryRun := Some false |}
  /\ writes (snd (handleWebhookEvent live (WebhookEvent (subitem_change [70; 71]))
                                     "req_1" (replaying one_item_down)))
     = [write_request live 71 [Number (Int 1); Number (Int 501)]].
Proof. split; vm_compute; reflexivity. Qed.

(** In a dry run the item is counted as updated and no write is sent. *)
Example dry_run_sends_no_write :
  fst (handleWebhookEvent dry (WebhookEvent (subitem_change [70])) "req_1"
                          (serving office))
  = Returns {| challenge := None; success := Some true;
               message := Some "Updated 1 main items, skipped 0";
               outcome_dryRun := Some true |}
  /\ writes (snd (handleWebhookEvent dry (WebhookEvent (subitem_change [70]))
                                     "req_1" (serving office)))
     = [].
Proof. split; vm_compute; reflexivity. Qed.

(** The delays slept between the three attempts of one call. *)
Example backoff_of_three_attempts :
  sleeps (snd (mondayQuery live (links_query 70) (Some "req_1")
                           (replaying [refused; refused; refused])))
  = [(4500 # 4)%Q; (8500 # 4)%Q].
Proof. vm_compute. reflexivity. Qed.

(* ================================================================== *)
(** ** Further properties *)
(* ================================================================== *)

Section FurtherProperties.

Context {platform : Platform}.
Variable cfg : Config.

(* ------------------------------------------------------------------ *)
(** *** Ids as decimal strings *)





(* ------------------------------------------------------------------ *)
(** *** One attempt, and the sleeps between attempts *)

(** X2. An attempt of [mondayQuery] returns [d] exactly when [fetch] resolves
    with an [ok] response whose body parses, whose [errors] are missing or
    empty, and whose [data] is [d]; one request has then been sent and
    nothing else has changed.  A response with a non-empty [errors] list is
    a failure even when it carries data. *)
Theorem attempt_returns_exactly_when (query : GraphQL) (w : World) (d : Data)
        (w' : World) :
  mondayQuery_attempt cfg query w = (Returns d, w')
  <-> exists resp parsed n',
      transport (mondayQuery_request cfg query) (net w) = (FetchResolves resp, n')
      /\ ok resp = true
      /\ json resp = inr parsed
      /\ (errors parsed = None \/ errors parsed = Some [])
      /\ data parsed = Some d
      /\ w' = {| net := n';
                 calls := calls w ++ [mondayQuery_request cfg query];
                 sleeps := sleeps w; randoms := randoms w;
                 console := console w |}.
Proof.
  unfold mondayQuery_attempt, bind, fetch.
  destruct (transport (mondayQuery_request cfg query) (net w)) as [[e | resp] n'];
    cbn [fst snd].
  { split; [intros H; discriminate H | intros (r & b & n & H & _); discriminate H]. }
  destruct (ok resp) eqn:Hok; cbn [negb].
  2: { split; [intros H; discriminate H |].
       intros (r & b & n & H & Hok' & _). injection H as <- <-. congruence. }
  unfold response_json. destruct (json resp) as [e | parsed] eqn:Hjson.
  { split; [intros H; discriminate H |].
    intros (r & b & n & H & _ & Hj & _). injection H as <- <-. congruence. }
  cbn [ret]. destruct (errors parsed) as [[| e es] |] eqn:Herr.
  3: { destruct (data parsed) as [d0 |] eqn:Hdata.
       - split.
         + intros H. injection H as <- <-. exists resp, parsed, n'.
           repeat split; auto.
         + intros (r & b & n & H & _ & Hj & _ & Hd & ->).
           injection H as <- <-. rewrite Hjson in Hj. injection Hj as <-.
           rewrite Hdata in Hd. injection Hd as <-. reflexivity.
       - split; [intros H; discriminate H |].
         intros (r & b & n & H & _ & Hj & _ & Hd & _).
         injection H as <- <-. rewrite Hjson in Hj. injection Hj as <-. congruence. }
  - destruct (data parsed) as [d0 |] eqn:Hdata.
    + split.
      * intros H. injection H as <- <-. exists resp, parsed, n'.
        repeat split; auto.
      * intros (r & b & n & H & _ & Hj & _ & Hd & ->).
        injection H as <- <-. rewrite Hjson in Hj. injection Hj as <-.
        rewrite Hdata in Hd. injection Hd as <-. reflexivity.
    + split; [intros H; discriminate H |].
      intros (r & b & n & H & _ & Hj & _ & Hd & _).
      injection H as <- <-. rewrite Hjson in Hj. injection Hj as <-. congruence.
  - split; [intros H; discriminate H |].
    intros (r & b & n & H & _ & Hj & [He | He] & _);
      injection H as <- <-; rewrite Hjson in Hj; injection Hj as <-; congruence.
Qed.

Lemma backoff_schedule_cons attempt drawn n :
  backoff_schedule cfg attempt drawn (S n)
  = backoff_delay cfg attempt (Math_random drawn)
    :: backoff_schedule cfg (S attempt) (S drawn) n.
Proof.
  unfold backoff_schedule. cbn [seq map]. rewrite !Nat.add_0_r. f_equal.
  rewrite <- seq_shift, map_map. apply map_ext. intros i.
  now rewrite !Nat.add_succ_r.
Qed.

Lemma backoff_schedule_capped attempt drawn n :
  Forall (fun delay => (delay <= inject_Z (maxDelayMs (retry cfg)))%Q)
         (backoff_schedule cfg attempt drawn n).
Proof.
  unfold backoff_schedule. apply Forall_forall. intros delay Hin.
  apply in_map_iff in Hin. destruct Hin as (i & <- & _).
  unfold backoff_delay. apply Q.le_min_r.
Qed.

(** The loop entered at [attempt] with the iterations that are left to it. *)
Lemma mondayQuery_loop_schedule query rid remaining :
  forall attempt lastError w r w',
    (attempt + remaining = S (maxAttempts (retry cfg)))%nat ->
    mondayQuery_loop cfg remaining attempt lastError query rid w = (r, w') ->
    exists k,
      (k <= remaining)%nat
      /\ (1 <= remaining -> 1 <= k)%nat
      /\ calls w' = (calls w ++ repeat (mondayQuery_request cfg query) k)%list
      /\ sleeps w' = (sleeps w ++ backoff_schedule cfg attempt (randoms w) (k - 1))%list
      /\ randoms w' = (randoms w + (k - 1))%nat.
Proof.
  induction remaining as [| remaining IH]; intros attempt lastError w r w' Hinv Hrun.
  - cbn in Hrun. injection Hrun as <- <-. exists 0%nat.
    split; [apply le_n |]. split; [intros H; exact H |].
    cbn. rewrite !app_nil_r, Nat.add_0_r. auto.
  - cbn [mondayQuery_loop] in Hrun. rewrite mondayQuery_attempt_eq in Hrun.
    destruct (attempt_on cfg query (net w)) as [[d | e] n']; cbn [fst snd] in Hrun.
    + injection Hrun as <- <-. exists 1%nat.
      split; [lia |]. split; [lia |].
      cbn. rewrite app_nil_r, Nat.add_0_r. auto.
    + unfold bind at 1 in Hrun. cbn [log] in Hrun. unfold bind at 1 in Hrun.
      destruct (Nat.ltb attempt (maxAttempts (retry cfg))) eqn:Hlt.
      * unfold bind at 1, random, sleep in Hrun. cbn [net calls sleeps randoms console]
          in Hrun.
        apply Nat.ltb_lt in Hlt.
        assert (Hinv' : (S attempt + remaining = S (maxAttempts (retry cfg)))%nat)
          by lia.
        destruct (IH (S attempt) _ _ _ _ Hinv' Hrun)
          as (k & Hk & Hone & Hcalls & Hsleeps & Hrandoms).
        cbn [net calls sleeps randoms console] in Hcalls, Hsleeps, Hrandoms.
        assert (1 <= k)%nat by (apply Hone; lia).
        exists (S k). split; [lia |]. split; [lia |].
        split; [rewrite Hcalls, <- app_assoc; reflexivity |].
        replace (S k - 1)%nat with (S (k - 1)) by lia.
        rewrite backoff_schedule_cons. split.
        -- rewrite Hsleeps, <- app_assoc. reflexivity.
        -- lia.
      * cbn [ret] in Hrun. apply Nat.ltb_ge in Hlt.
        assert (remaining = 0)%nat by lia. subst remaining.
        cbn in Hrun. injection Hrun as <- <-. exists 1%nat.
        split; [lia |]. split; [lia |].
        cbn. rewrite app_nil_r, Nat.add_0_r. auto.
Qed.

(** X3. A call through [mondayQuery] sends its request [k] times, with [k]
    at most [maxAttempts] and at least one when [maxAttempts] is, and sleeps
    exactly between consecutive attempts, never after the last one: [k - 1]
    times, the [i]-th sleep being the delay of attempt [i] with the next
    random number drawn.  No delay exceeds [maxDelayMs]. *)
Theorem mondayQuery_sleeps_between_attempts
        (query : GraphQL) (rid : option string) (w : World)
        (r : Result Data) (w' : World) :
  mondayQuery cfg query rid w = (r, w') ->
  exists k,
    (k <= maxAttempts (retry cfg))%nat
    /\ (1 <= maxAttempts (retry cfg) -> 1 <= k)%nat
    /\ calls w' = (calls w ++ repeat (mondayQuery_request cfg query) k)%list
    /\ sleeps w' = (sleeps w ++ backoff_schedule cfg 1 (randoms w) (k - 1))%list
    /\ randoms w' = (randoms w + (k - 1))%nat
    /\ Forall (fun delay => (delay <= inject_Z (maxDelayMs (retry cfg)))%Q)
              (backoff_schedule cfg 1 (randoms w) (k - 1)).
Proof.
  intros Hrun.
  destruct (mondayQuery_loop_schedule query rid (maxAttempts (retry cfg))
              1%nat None w r w' eq_refl Hrun)
    as (k & Hk & Hone & Hcalls & Hsleeps & Hrandoms).
  exists k. repeat split; try assumption. apply backoff_schedule_capped.
Qed.

(* ------------------------------------------------------------------ *)
(** *** What one item and the loop send *)

Lemma getMainItemLinkedIds_bounded m rid w r w' :
  getMainItemLinkedIds cfg m rid w = (r, w') ->
  exists k,
    (k <= maxAttempts (retry cfg))%nat
    /\ calls w' = (calls w ++ repeat (read_request cfg m) k)%list.
Proof.
  intros Hrun.
  destruct (mondayQuery cfg (GetMainItemLinks (mainToFeature (columns cfg))
                                              [String_of_Z m]) rid w)
    as [[d | e] w1] eqn:Hq;
    destruct (mondayQuery_footprint cfg _ _ _ _ _ Hq) as (k & Hk & Hcalls & _);
    exists k; (split; [exact Hk |]).
  - destruct (getMainItemLinkedIds_after_query cfg m rid w d w1 Hq)
      as (r0 & w0 & Heq & _ & Hc).
    rewrite Heq in Hrun. injection Hrun as <- <-. now rewrite Hc.
  - rewrite (getMainItemLinkedIds_query_throws cfg m rid w e w1 Hq) in Hrun.
    injection Hrun as <- <-. exact Hcalls.
Qed.

Lemma updateMainItemLinks_bounded m ids rid w r w' :
  updateMainItemLinks cfg m (main (boards cfg)) ids rid w = (r, w') ->
  exists k,
    (k <= maxAttempts (retry cfg))%nat
    /\ calls w' = (calls w ++ repeat (write_request cfg m ids) k)%list.
Proof.
  unfold updateMainItemLinks, bind. intros Hrun.
  destruct (mondayQuery cfg _ rid w) as [[d | e] w1] eqn:Hq;
    destruct (mondayQuery_footprint cfg _ _ _ _ _ Hq) as (k & Hk & Hcalls & _);
    injection Hrun as <- <-; exists k; split; assumption.
Qed.

Lemma parent_in_merged ids pid : In (Number pid) (Set_spread (ids ++ [Number pid])).
Proof.
  unfold Set_spread. apply fold_Set_add_In. right.
  apply in_or_app. right. now left.
Qed.

(** One item: reads of the item, then, outside a dry run, writes to it of one
    set that contains the parent; a completed item advances one counter. *)
Lemma handleWebhookEvent_item_footprint pid rid counts m w r w1 :
  handleWebhookEvent_item cfg pid rid counts m w = (r, w1) ->
  exists k0 k1 ids,
    (k0 <= maxAttempts (retry cfg))%nat
    /\ (k1 <= maxAttempts (retry cfg))%nat
    /\ calls w1
       = (calls w ++ repeat (read_request cfg m) k0
                  ++ repeat (write_request cfg m ids) k1)%list
    /\ In (Number pid) ids
    /\ (dryRun cfg = true -> k1 = 0%nat)
    /\ (forall c, r = Returns c ->
                  (updatedCount c + skippedCount c
                   = S (updatedCount counts + skippedCount counts))%nat
                  /\ (updatedCount counts <= updatedCount c)%nat
                  /\ (skippedCount counts <= skippedCount c)%nat).
Proof.
  intros Hi.
  destruct (getMainItemLinkedIds cfg m (Some rid) w) as [[ids | e] w0] eqn:Hr;
    destruct (getMainItemLinkedIds_bounded m (Some rid) w _ w0 Hr) as (k0 & Hk0 & Hc0).
  2: { rewrite (handleWebhookEvent_item_read_throws cfg pid rid counts m w e w0 Hr)
         in Hi.
       injection Hi as <- <-. exists k0, 0%nat, [Number pid].
       split; [exact Hk0 |]. split; [apply Nat.le_0_l |].
       split; [cbn; now rewrite app_nil_r |]. split; [now left |].
       split; [reflexivity | intros c Hc; discriminate Hc]. }
  destruct (includes ids (Number pid)) eqn:Hin.
  - destruct (handleWebhookEvent_item_skips cfg pid rid counts m w ids w0 Hr Hin)
      as (w2 & Hi' & [_ Hc]).
    rewrite Hi' in Hi. injection Hi as <- <-. exists k0, 0%nat, [Number pid].
    split; [exact Hk0 |]. split; [apply Nat.le_0_l |].
    split; [cbn; now rewrite app_nil_r, Hc |]. split; [now left |].
    split; [reflexivity |]. intros c Hcq. injection Hcq as <-. cbn. lia.
  - destruct (dryRun cfg) eqn:Hdry.
    + destruct (handleWebhookEvent_item_dry cfg pid rid counts m w ids w0 Hr Hin Hdry)
        as (w2 & Hi' & [_ Hc]).
      rewrite Hi' in Hi. injection Hi as <- <-. exists k0, 0%nat, [Number pid].
      split; [exact Hk0 |]. split; [apply Nat.le_0_l |].
      split; [cbn; now rewrite app_nil_r, Hc |]. split; [now left |].
      split; [reflexivity |]. intros c Hcq. injection Hcq as <-. cbn. lia.
    + destruct (handleWebhookEvent_item_links cfg pid rid counts m w ids w0 Hr Hin)
        as (w2 & [_ Hc2] & Heq).
      rewrite Heq, Hdry in Hi. unfold bind at 1 in Hi.
      destruct (updateMainItemLinks cfg m (main (boards cfg))
                  (Set_spread (ids ++ [Number pid])) (Some rid) w2)
        as [[u | e] w3] eqn:Hu;
        destruct (updateMainItemLinks_bounded _ _ _ _ _ _ Hu) as (k1 & Hk1 & Hc1);
        cbn [ret] in Hi; injection Hi as <- <-;
        exists k0, k1, (Set_spread (ids ++ [Number pid]));
        (split; [exact Hk0 |]); (split; [exact Hk1 |]);
        (split; [rewrite Hc1, Hc2, Hc0, <- app_assoc; reflexivity |]);
        (split; [apply parent_in_merged |]);
        (split; [intros Hd; discriminate Hd |]).
      * intros c Hcq. injection Hcq as <-. cbn. lia.
      * intros c Hcq. discriminate Hcq.
Qed.

Lemma item_request_incl pid items items' req :
  incl items items' -> item_request cfg pid items req -> item_request cfg pid items' req.
Proof. intros Hincl (m & Hin & H). exists m. split; [now apply Hincl | exact H]. Qed.

(** The loop: what it sends, how much of it, and where the counters end. *)
Lemma handleWebhookEvent_loop_footprint pid rid items :
  forall counts w counts' w',
    handleWebhookEvent_loop cfg pid rid counts items w = (Returns counts', w') ->
    exists new,
      calls w' = (calls w ++ new)%list
      /\ Forall (item_request cfg pid items) new
      /\ (List.length new <= 2 * maxAttempts (retry cfg) * List.length items)%nat
      /\ (updatedCount counts <= updatedCount counts')%nat
      /\ (skippedCount counts <= skippedCount counts')%nat
      /\ (updatedCount counts' + skippedCount counts'
          <= updatedCount counts + skippedCount counts + List.length items)%nat.
Proof.
  induction items as [| m rest IH]; intros counts w counts' w' Hrun.
  - cbn in Hrun. injection Hrun as <- <-. exists [].
    split; [now rewrite app_nil_r |]. split; [constructor |]. cbn. lia.
  - destruct (handleWebhookEvent_item cfg pid rid counts m w) as [r w1] eqn:Hi.
    destruct (handleWebhookEvent_item_footprint pid rid counts m w r w1 Hi)
      as (k0 & k1 & ids & Hk0 & Hk1 & Hc1 & Hpid & Hdry & Hcounts).
    assert (Hmine : Forall (item_request cfg pid (m :: rest))
                           (repeat (read_request cfg m) k0
                            ++ repeat (write_request cfg m ids) k1)).
    { apply Forall_app. split.
      - apply Forall_forall. intros req Hreq. apply repeat_spec in Hreq. subst req.
        exists m. split; now left.
      - unfold item_request. destruct (dryRun cfg) eqn:Hd.
        + rewrite (Hdry eq_refl). constructor.
        + apply Forall_forall. intros req Hreq. apply repeat_spec in Hreq.
          subst req. exists m. split; [now left |]. right.
          split; [reflexivity |]. exists ids. split; [reflexivity | exact Hpid]. }
    assert (Hstep : exists c w2,
               handleWebhookEvent_iteration cfg pid rid counts m w = (Returns c, w2)
               /\ calls w2 = calls w1
               /\ (updatedCount counts <= updatedCount c)%nat
               /\ (skippedCount counts <= skippedCount c)%nat
               /\ (updatedCount c + skippedCount c
                   <= S (updatedCount counts + skippedCount counts))%nat).
    { destruct r as [c | e].
      - exists c, w1. split;
          [now apply handleWebhookEvent_iteration_passes |].
        split; [reflexivity |]. destruct (Hcounts c eq_refl) as (H1 & H2 & H3). lia.
      - destruct (handleWebhookEvent_iteration_catches cfg pid rid counts m w e w1 Hi)
          as (w2 & Hit & [_ Hc2]).
        exists counts, w2. split; [exact Hit |]. split; [exact Hc2 |]. lia. }
    destruct Hstep as (c & w2 & Hit & Hc2 & Hu & Hs & Hsum).
    rewrite (loop_cons cfg pid rid counts m rest w c w2 Hit) in Hrun.
    destruct (IH c w2 counts' w' Hrun) as (new & Hcalls & Hall & Hlen & Hu' & Hs' & Hsum').
    exists ((repeat (read_request cfg m) k0
             ++ repeat (write_request cfg m ids) k1) ++ new)%list.
    split; [rewrite Hcalls, Hc2, Hc1, <- !app_assoc; reflexivity |].
    split.
    + apply Forall_app. split; [exact Hmine |].
      eapply Forall_impl; [| exact Hall].
      intros req. apply item_request_incl. intros x Hx. now right.
    + rewrite !length_app, !repeat_length. cbn [List.length]. split; [nia |]. lia.
Qed.

(* ------------------------------------------------------------------ *)
(** *** How a run of the handler ends *)

Lemma number_eqb_eq a b : number_eqb a b = true -> a = b.
Proof.
  destruct a as [| x], b as [| y]; cbn; intros H; try discriminate H;
    [reflexivity |]. apply Z.eqb_eq in H. now subst.
Qed.

Lemma number_eqb_false a b : number_eqb a b = false -> a <> b.
Proof.
  intros H ->. destruct b as [| y]; cbn in H; [discriminate H |].
  now rewrite Z.eqb_refl in H.
Qed.

Lemma handleWebhookEvent_links_ends pid pbid rid items w1 r w' :
  handleWebhookEvent_links cfg pid pbid rid items w1 = (r, w') ->
  (pbid <> Int (feature (boards cfg))
   /\ r = Returns (rejected "Parent item not from expected Feature board")
   /\ quiet w1 w')
  \/ (pbid = Int (feature (boards cfg))
      /\ exists counts w2,
          handleWebhookEvent_loop cfg pid rid no_counts items
                                  (snd (log info "Found parent item" (Some rid) w1))
          = (Returns counts, w2)
          /\ r = Returns (processed cfg counts)
          /\ quiet w2 w').
Proof.
  unfold handleWebhookEvent_links. intros Hrun.
  destruct (number_eqb pbid (Int (feature (boards cfg)))) eqn:Hb; cbn [negb] in Hrun.
  - right. split; [now apply number_eqb_eq |].
    unfold bind at 1 in Hrun. cbn [log] in Hrun. unfold bind at 1 in Hrun.
    destruct (handleWebhookEvent_loop_returns cfg pid rid items no_counts
                (snd (log info "Found parent item" (Some rid) w1)))
      as (counts & w2 & Hl).
    exists counts, w2. split; [exact Hl |].
    match type of Hrun with
    | context [handleWebhookEvent_loop cfg pid rid ?c items ?w0] =>
        change w0 with (snd (log info "Found parent item" (Some rid) w1)) in Hrun;
        change c with no_counts in Hrun
    end.
    rewrite Hl in Hrun. cbn in Hrun. injection Hrun as <- <-.
    split; [reflexivity | split; reflexivity].
  - left. split; [now apply number_eqb_false |].
    cbn in Hrun. injection Hrun as <- <-. split; [reflexivity | split; reflexivity].
Qed.

(** Past its three checks, the handler for subitem changes ends in one of
    the five ways. *)
Lemma handleWebhookEvent_ends event rid w r w' :
  in_scope cfg event ->
  handleWebhookEvent cfg (WebhookEvent event) rid w = (r, w') ->
  Ending cfg (or_else (subitemId event) (pulseId event))
         (fun fetched => handleWebhookEvent_parent fetched event)
         (event_linkedMainItemIds event) rid w r w'.
Proof.
  intros (Hb & Hc & Hl) Hrun. unfold handleWebhookEvent in Hrun.
  rewrite (handleWebhookEvent_board_check cfg event Hb) in Hrun.
  apply String.eqb_eq in Hc. rewrite Hc in Hrun.
  destruct (event_linkedMainItemIds event) as [| m rest] eqn:Hitems;
    [contradiction |].
  cbn [List.length Nat.eqb negb] in Hrun.
  unfold bind at 1 in Hrun. cbn [log] in Hrun.
  unfold bind at 1 in Hrun. cbn [log] in Hrun. unfold bind at 1 in Hrun.
  match type of Hrun with
  | context [getSubitemWithParent cfg ?sid ?rq ?w0] =>
      change w0 with (entered rid w) in Hrun
  end.
  destruct (getSubitemWithParent cfg (or_else (subitemId event) (pulseId event))
              (Some rid) (entered rid w)) as [[[fetched |] | e] w1] eqn:Hfetch.
  - destruct (handleWebhookEvent_parent fetched event) as [[pid pbid] |] eqn:Hp.
    + destruct (handleWebhookEvent_links_ends pid pbid rid (m :: rest) w1 r w' Hrun)
        as [(Hne & -> & Hq) | (-> & counts & w2 & Hloop & -> & Hq)].
      * eapply ended_foreign_parent; eauto.
      * eapply ended_processed; eauto.
    + cbn in Hrun. injection Hrun as <- <-.
      eapply ended_no_parent; [exact Hfetch | exact Hp | split; reflexivity].
  - cbn in Hrun. injection Hrun as <- <-.
    eapply ended_not_found; [exact Hfetch | split; reflexivity].
  - injection Hrun as <- <-. now apply ended_fetch_throws.
Qed.

(** And so does the handler for direct changes. *)
Lemma handleWebhookEvent_direct_ends event rid w r w' :
  in_scope_direct cfg event ->
  handleWebhookEvent_direct cfg (WebhookEvent event) rid w = (r, w') ->
  Ending cfg (pulseId event) parent_of_fetched
         (event_linkedMainItemIds event) rid w r w'.
Proof.
  intros (Hb & Hc & Hl) Hrun. unfold handleWebhookEvent_direct in Hrun.
  rewrite Hb, Z.eqb_refl in Hrun. cbn [negb] in Hrun.
  apply String.eqb_eq in Hc. rewrite Hc in Hrun.
  destruct (event_linkedMainItemIds event) as [| m rest] eqn:Hitems;
    [contradiction |].
  cbn [List.length Nat.eqb negb] in Hrun.
  unfold bind at 1 in Hrun. cbn [log] in Hrun.
  unfold bind at 1 in Hrun. cbn [log] in Hrun. unfold bind at 1 in Hrun.
  match type of Hrun with
  | context [getSubitemWithParent cfg ?sid ?rq ?w0] =>
      change w0 with (entered rid w) in Hrun
  end.
  destruct (getSubitemWithParent cfg (pulseId event) (Some rid) (entered rid w))
    as [[[fetched |] | e] w1] eqn:Hfetch.
  - destruct (parent_item fetched) as [p |] eqn:Hp.
    + destruct (handleWebhookEvent_links_ends _ _ rid (m :: rest) w1 r w' Hrun)
        as [(Hne & -> & Hq) | (Heq & counts & w2 & Hloop & -> & Hq)].
      * eapply ended_foreign_parent; eauto.
        unfold parent_of_fetched. rewrite Hp. reflexivity.
      * eapply ended_processed; eauto.
        unfold parent_of_fetched. rewrite Hp. cbn. now rewrite Heq.
    + cbn in Hrun. injection Hrun as <- <-.
      eapply ended_no_parent; [exact Hfetch | | split; reflexivity].
      unfold parent_of_fetched. now rewrite Hp.
  - cbn in Hrun. injection Hrun as <- <-.
    eapply ended_not_found; [exact Hfetch | split; reflexivity].
  - injection Hrun as <- <-. now apply ended_fetch_throws.
Qed.

(** What is common to all the endings: the requests sent are fetches of the
    subitem, at most [maxAttempts] of them, followed by requests of the loop,
    and a result other than a success comes without a write. *)
Lemma Ending_footprint sid resolved items rid w r w' :
  Ending cfg sid resolved items rid w r w' ->
  exists k new,
    (k <= maxAttempts (retry cfg))%nat
    /\ calls w' = (calls w ++ repeat (subitem_request cfg sid) k ++ new)%list
    /\ (new = []
        \/ exists pid counts,
            r = Returns (processed cfg counts)
            /\ Forall (item_request cfg pid items) new
            /\ (List.length new
                <= 2 * maxAttempts (retry cfg) * List.length items)%nat
            /\ (updatedCount counts + skippedCount counts
                <= List.length items)%nat).
Proof.
  assert (Hfetch : forall r1 w1,
             getSubitemWithParent cfg sid (Some rid) (entered rid w) = (r1, w1) ->
             exists k,
               (k <= maxAttempts (retry cfg))%nat
               /\ calls w1 = (calls w ++ repeat (subitem_request cfg sid) k)%list).
  { intros r1 w1 Hf. unfold getSubitemWithParent in Hf. unfold bind at 1 in Hf.
    destruct (mondayQuery cfg _ (Some rid) (entered rid w)) as [[d | e] w0] eqn:Hq;
      destruct (mondayQuery_footprint cfg _ _ _ _ _ Hq) as (k & Hk & Hcalls & _);
      exists k; (split; [exact Hk |]).
    - destruct d as [its | id]; cbn in Hf; injection Hf as <- <-; exact Hcalls.
    - injection Hf as <- <-. exact Hcalls. }
  intros Hend.
  destruct Hend as [e w1 Hf | w1 w' Hf [_ Hq] | fetched w1 w' Hf _ [_ Hq]
                    | fetched w1 w' pid pbid Hf _ _ [_ Hq]
                    | fetched w1 pid counts w2 w' Hf _ Hloop [_ Hq]];
    destruct (Hfetch _ _ Hf) as (k & Hk & Hcalls); exists k.
  1-4: exists []; (split; [exact Hk |]);
    (split; [rewrite app_nil_r; congruence | now left]).
  destruct (handleWebhookEvent_loop_footprint pid rid items _ _ _ _ Hloop)
    as (new & Hc & Hall & Hlen & _ & _ & Hsum).
  exists new. split; [exact Hk |]. split.
  - rewrite Hq, Hc. cbn [log snd calls]. rewrite Hcalls, <- app_assoc. reflexivity.
  - right. exists pid, counts. split; [reflexivity |]. split; [exact Hall |].
    split; [exact Hlen |]. cbn in Hsum. exact Hsum.
Qed.

(** Every run of the handler for subitem changes on an event: an early
    answer without any request, or one of the endings. *)
Lemma handleWebhookEvent_any event rid w r w' :
  handleWebhookEvent cfg (WebhookEvent event) rid w = (r, w') ->
  (quiet w w'
   /\ (r = Returns (rejected "Event from unexpected board")
       \/ r = Returns (rejected "Event for non-target column")
       \/ (r = Returns nothing_to_do /\ event_linkedMainItemIds event = [])))
  \/ (in_scope cfg event
      /\ Ending cfg (or_else (subitemId event) (pulseId event))
                (fun fetched => handleWebhookEvent_parent fetched event)
                (event_linkedMainItemIds event) rid w r w').
Proof.
  intros Hrun.
  destruct (Z.eq_dec (boardId event) (subitem (boards cfg))) as [Hs | Hs];
    [| destruct (Z.eq_dec (boardId event) (feature (boards cfg))) as [Hf | Hf]].
  3: { rewrite (handleWebhookEvent_unexpected_board cfg event rid Hs Hf) in Hrun.
       injection Hrun as <- <-. left. split; [split; reflexivity | now left]. }
  all: assert (Hb : boardId event = subitem (boards cfg)
                    \/ boardId event = feature (boards cfg)) by tauto.
  all: destruct (string_dec (columnId event) (subitemToMain (columns cfg)))
    as [Hc | Hc];
    [| rewrite (handleWebhookEvent_non_target_column cfg event rid Hb Hc) in Hrun;
       injection Hrun as <- <-; left;
       split; [split; reflexivity | right; now left]].
  all: destruct (event_linkedMainItemIds event) as [| m rest] eqn:Hl;
    [ rewrite (handleWebhookEvent_nothing_linked cfg event rid Hb Hc Hl) in Hrun;
      injection Hrun as <- <-; left;
      split; [split; reflexivity | right; right; split; reflexivity]
    | right ].
  all: assert (Hscope : in_scope cfg event)
    by (split; [exact Hb | split; [exact Hc | rewrite Hl; discriminate]]).
  all: split; [exact Hscope |]; rewrite <- Hl;
    now apply handleWebhookEvent_ends.
Qed.

Lemma handleWebhookEvent_direct_any event rid w r w' :
  handleWebhookEvent_direct cfg (WebhookEvent event) rid w = (r, w') ->
  (quiet w w'
   /\ (r = Returns (rejected "Event from unexpected board")
       \/ r = Returns (rejected "Event for non-target column")
       \/ (r = Returns nothing_to_do /\ event_linkedMainItemIds event = [])))
  \/ (in_scope_direct cfg event
      /\ Ending cfg (pulseId event) parent_of_fetched
                (event_linkedMainItemIds event) rid w r w').
Proof.
  intros Hrun.
  destruct (Z.eq_dec (boardId event) (subitem (boards cfg))) as [Hb | Hb].
  2: { rewrite (handleWebhookEvent_direct_unexpected_board cfg event rid Hb) in Hrun.
       injection Hrun as <- <-. left. split; [split; reflexivity | now left]. }
  destruct (string_dec (columnId event) (subitemToMain (columns cfg))) as [Hc | Hc].
  2: { rewrite (handleWebhookEvent_direct_non_target_column cfg event rid Hb Hc)
         in Hrun.
       injection Hrun as <- <-. left.
       split; [split; reflexivity | right; now left]. }
  destruct (event_linkedMainItemIds event) as [| m rest] eqn:Hl.
  { rewrite (handleWebhookEvent_direct_nothing_linked cfg event rid Hb Hc Hl) in Hrun.
    injection Hrun as <- <-. left.
    split; [split; reflexivity | right; right; split; reflexivity]. }
  right.
  assert (Hscope : in_scope_direct cfg event)
    by (split; [exact Hb | split; [exact Hc | rewrite Hl; discriminate]]).
  split; [exact Hscope |]. rewrite <- Hl. now apply handleWebhookEvent_direct_ends.
Qed.

(** The requests of a run, whichever way it went. *)
Lemma run_footprint sid resolved event rid w r w' :
  (quiet w w'
   /\ (r = Returns (rejected "Event from unexpected board")
       \/ r = Returns (rejected "Event for non-target column")
       \/ (r = Returns nothing_to_do /\ event_linkedMainItemIds event = [])))
  \/ Ending cfg sid resolved (event_linkedMainItemIds event) rid w r w' ->
  exists k new,
    (k <= maxAttempts (retry cfg))%nat
    /\ calls w' = (calls w ++ repeat (subitem_request cfg sid) k ++ new)%list
    /\ (new = []
        \/ exists pid counts,
            r = Returns (processed cfg counts)
            /\ Forall (item_request cfg pid (event_linkedMainItemIds event)) new
            /\ (List.length new
                <= 2 * maxAttempts (retry cfg)
                   * List.length (event_linkedMainItemIds event))%nat
            /\ (updatedCount counts + skippedCount counts
                <= List.length (event_linkedMainItemIds event))%nat).
Proof.
  intros [([_ Hq] & _) | Hend].
  - exists 0%nat, []. split; [apply Nat.le_0_l |].
    split; [cbn; now rewrite app_nil_r | now left].
  - exact (Ending_footprint _ _ _ _ _ _ _ Hend).
Qed.

Lemma item_request_write pid items req :
  item_request cfg pid items req -> is_write req = true -> dryRun cfg = false.
Proof.
  intros (m & _ & [-> | (Hdry & _)]) Hw; [discriminate Hw | exact Hdry].
Qed.

Lemma writes_of_run sid pid items k new (l : list Request) :
  new = [] \/ (Forall (item_request cfg pid items) new /\ dryRun cfg = true) ->
  filter is_write (l ++ repeat (subitem_request cfg sid) k ++ new) = filter is_write l.
Proof.
  intros Hnew. rewrite app_assoc, filter_app.
  rewrite (writes_after_reads (subitem_request cfg sid) k l eq_refl).
  replace (filter is_write new) with (@nil Request); [apply app_nil_r |].
  destruct Hnew as [-> | [Hall Hdry]]; [reflexivity |].
  induction Hall as [| req rest Hreq _ IH]; [reflexivity |].
  cbn [filter]. destruct (is_write req) eqn:Hw; [| exact IH].
  pose proof (item_request_write pid items req Hreq Hw). congruence.
Qed.

(* ------------------------------------------------------------------ *)
(** *** The handler as a whole *)

(** X4. In dry-run mode no write request is ever sent, whatever the payload,
    the platform and the way the run ends; this holds for both revisions of
    the handler. *)
Theorem dry_run_never_writes :
  dryRun cfg = true ->
  forall (payload : Payload) (rid : string) (w : World),
    writes (snd (handleWebhookEvent cfg payload rid w)) = writes w
    /\ writes (snd (handleWebhookEvent_direct cfg payload rid w)) = writes w.
Proof.
  intros Hdry [c | event] rid w; [split; reflexivity |]. split.
  - destruct (handleWebhookEvent cfg (WebhookEvent event) rid w) as [r w'] eqn:Hrun.
    pose proof (handleWebhookEvent_any event rid w r w' Hrun) as Hany.
    destruct (run_footprint _ _ event rid w r w'
                ltac:(destruct Hany as [H | [_ H]]; [left; exact H | right; exact H]))
      as (k & new & _ & Hcalls & Hnew).
    cbn [snd]. unfold writes. rewrite Hcalls.
    destruct Hnew as [-> | (pid & counts & _ & Hall & _)].
    + apply (writes_of_run _ NaN [] k []). now left.
    + apply (writes_of_run _ pid (event_linkedMainItemIds event)). right. now split.
  - destruct (handleWebhookEvent_direct cfg (WebhookEvent event) rid w)
      as [r w'] eqn:Hrun.
    pose proof (handleWebhookEvent_direct_any event rid w r w' Hrun) as Hany.
    destruct (run_footprint _ _ event rid w r w'
                ltac:(destruct Hany as [H | [_ H]]; [left; exact H | right; exact H]))
      as (k & new & _ & Hcalls & Hnew).
    cbn [snd]. unfold writes. rewrite Hcalls.
    destruct Hnew as [-> | (pid & counts & _ & Hall & _)].
    + apply (writes_of_run _ NaN [] k []). now left.
    + apply (writes_of_run _ pid (event_linkedMainItemIds event)). right. now split.
Qed.



Lemma Ending_result sid resolved items rid w r w' :
  Ending cfg sid resolved items rid w r w' ->
  (exists e, r = Throws e)
  \/ (exists reason, r = Returns (rejected reason))
  \/ (exists counts,
         r = Returns (processed cfg counts)
         /\ (updatedCount counts + skippedCount counts <= List.length items)%nat).
Proof.
  intros Hend.
  destruct Hend as [e w1 Hf | w1 w' Hf Hq | fetched w1 w' Hf Hp Hq
                    | fetched w1 w' pid pbid Hf Hp Hne Hq
                    | fetched w1 pid counts w2 w' Hf Hp Hloop Hq].
  - left. now exists e.
  - right; left. eexists; reflexivity.
  - right; left. eexists; reflexivity.
  - right; left. eexists; reflexivity.
  - right; right. exists counts. split; [reflexivity |].
    destruct (handleWebhookEvent_loop_footprint pid rid items _ _ _ _ Hloop)
      as (new & _ & _ & _ & _ & _ & Hsum). exact Hsum.
Qed.

(** X6. An outcome that reports success is either the answer to an event
    that links nothing, or carries counters that add up to at most the number
    of main items the event links: an item is counted at most once, and an
    item that failed is counted in neither.  This holds for both revisions. *)
Theorem reported_counts_are_bounded (event : Event) (rid : string) (w : World)
        (out : Outcome) (w' : World) :
  (handleWebhookEvent cfg (WebhookEvent event) rid w = (Returns out, w')
   \/ handleWebhookEvent_direct cfg (WebhookEvent event) rid w = (Returns out, w')) ->
  success out = Some true ->
  (out = nothing_to_do /\ event_linkedMainItemIds event = [])
  \/ (exists counts,
         out = processed cfg counts
         /\ (updatedCount counts + skippedCount counts
             <= List.length (event_linkedMainItemIds event))%nat).
Proof.
  intros Hrun Hsuccess.
  assert (Hany : (Returns out = Returns (rejected "Event from unexpected board")
                  \/ Returns out = Returns (rejected "Event for non-target column")
                  \/ (Returns out = Returns nothing_to_do
                      /\ event_linkedMainItemIds event = []))
                 \/ exists sid resolved,
                     Ending cfg sid resolved (event_linkedMainItemIds event)
                            rid w (Returns out) w').
  { destruct Hrun as [Hrun | Hrun].
    - destruct (handleWebhookEvent_any event rid w _ w' Hrun) as [[_ H] | [_ H]];
        [now left | right; eauto].
    - destruct (handleWebhookEvent_direct_any event rid w _ w' Hrun)
        as [[_ H] | [_ H]]; [now left | right; eauto]. }
  destruct Hany as [[H | [H | [H Hnil]]] | (sid & resolved & Hend)].
  - injection H as ->. discriminate Hsuccess.
  - injection H as ->. discriminate Hsuccess.
  - injection H as ->. now left.
  - destruct (Ending_result _ _ _ _ _ _ _ Hend)
      as [(e & H) | [(reason & H) | (counts & H & Hsum)]].
    + discriminate H.
    + injection H as ->. discriminate Hsuccess.
    + injection H as ->. right. now exists counts.
Qed.

(** X7. A run that does not end in success has sent no write: when the handler
    returns an outcome whose success flag is false, or throws, the list of
    write requests is what it was before.  This holds for both revisions. *)
Theorem no_write_without_success (payload : Payload) (rid : string) (w : World)
        (r : Result Outcome) (w' : World) :
  (handleWebhookEvent cfg payload rid w = (r, w')
   \/ handleWebhookEvent_direct cfg payload rid w = (r, w')) ->
  (forall out, r = Returns out -> success out = Some true -> False) ->
  writes w' = writes w.
Proof.
  intros Hrun Hfailed.
  destruct payload as [c | event].
  { destruct Hrun as [Hrun | Hrun]; injection Hrun as <- <-; reflexivity. }
  assert (Hfoot : exists sid k new,
             calls w' = (calls w ++ repeat (subitem_request cfg sid) k ++ new)%list
             /\ (new = [] \/ exists counts, r = Returns (processed cfg counts))).
  { destruct Hrun as [Hrun | Hrun].
    - pose proof (handleWebhookEvent_any event rid w r w' Hrun) as Hany.
      destruct (run_footprint (or_else (subitemId event) (pulseId event)) _ event rid
                  w r w'
                  ltac:(destruct Hany as [H | [_ H]]; [left; exact H | right; exact H]))
        as (k & new & _ & Hcalls & Hnew).
      eexists; exists k, new. split; [exact Hcalls |].
      destruct Hnew as [-> | (pid & counts & Hr & _)]; [now left | right; eauto].
    - pose proof (handleWebhookEvent_direct_any event rid w r w' Hrun) as Hany.
      destruct (run_footprint (pulseId event) _ event rid w r w'
                  ltac:(destruct Hany as [H | [_ H]]; [left; exact H | right; exact H]))
        as (k & new & _ & Hcalls & Hnew).
      eexists; exists k, new. split; [exact Hcalls |].
      destruct Hnew as [-> | (pid & counts & Hr & _)]; [now left | right; eauto]. }
  destruct Hfoot as (sid & k & new & Hcalls & [-> | (counts & ->)]).
  - unfold writes. rewrite Hcalls. apply (writes_of_run sid NaN [] k []). now left.
  - exfalso. exact (Hfailed _ eq_refl eq_refl).
Qed.

(* ------------------------------------------------------------------ *)
(** *** When the subitem cannot be fetched *)

Lemma getSubitemWithParent_of_query sid rid w :
  (forall w1,
      mondayQuery cfg (GetSubitemWithParent (subitemToMain (columns cfg))
                                            [String_of_Z sid]) rid w
      = (Returns (ItemsData []), w1) ->
      getSubitemWithParent cfg sid rid w = (Returns None, w1))
  /\ (forall e w1,
         mondayQuery cfg (GetSubitemWithParent (subitemToMain (columns cfg))
                                               [String_of_Z sid]) rid w
         = (Throws e, w1) ->
         getSubitemWithParent cfg sid rid w = (Throws e, w1)).
Proof.
  split; intros; unfold getSubitemWithParent; unfold bind at 1;
    rewrite H; reflexivity.
Qed.

Lemma Ending_when_not_found sid resolved items rid w r w' w1 :
  getSubitemWithParent cfg sid (Some rid) (entered rid w) = (Returns None, w1) ->
  Ending cfg sid resolved items rid w r w' ->
  r = Returns (rejected "Failed to fetch subitem") /\ quiet w1 w'.
Proof.
  intros Hnone Hend.
  destruct Hend as [e w0 Hf | w0 w' Hf Hq | fetched w0 w' Hf Hp Hq
                    | fetched w0 w' pid pbid Hf Hp Hne Hq
                    | fetched w0 pid counts w2 w' Hf Hp Hloop Hq];
    rewrite Hnone in Hf; try discriminate Hf.
  injection Hf as <-. split; [reflexivity | exact Hq].
Qed.

Lemma Ending_when_fetch_throws sid resolved items rid w r w' e w1 :
  getSubitemWithParent cfg sid (Some rid) (entered rid w) = (Throws e, w1) ->
  Ending cfg sid resolved items rid w r w' ->
  r = Throws e /\ w' = w1.
Proof.
  intros Hthrow Hend.
  destruct Hend as [e0 w0 Hf | w0 w' Hf Hq | fetched w0 w' Hf Hp Hq
                    | fetched w0 w' pid pbid Hf Hp Hne Hq
                    | fetched w0 pid counts w2 w' Hf Hp Hloop Hq];
    rewrite Hthrow in Hf; try discriminate Hf.
  injection Hf as <- <-. split; reflexivity.
Qed.

(** X8. For an event in scope, when the query for the subitem returns no
    item the handler answers with the failed outcome 'Failed to fetch
    subitem' and sends nothing more; when the query fails on all its attempts
    the handler does not answer at all: it throws the error of the last
    attempt to its caller, leaving the world as the query left it. *)
Theorem subitem_lookup_failures (event : Event) (rid : string) (w : World) :
  in_scope cfg event ->
  (forall w1,
      mondayQuery cfg
        (GetSubitemWithParent (subitemToMain (columns cfg))
                              [String_of_Z (or_else (subitemId event) (pulseId event))])
        (Some rid) (entered rid w)
      = (Returns (ItemsData []), w1) ->
      exists w',
        handleWebhookEvent cfg (WebhookEvent event) rid w
        = (Returns (rejected "Failed to fetch subitem"), w')
        /\ calls w' = calls w1 /\ net w' = net w1)
  /\ (forall e w1,
         mondayQuery cfg
           (GetSubitemWithParent (subitemToMain (columns cfg))
                                 [String_of_Z (or_else (subitemId event)
                                                       (pulseId event))])
           (Some rid) (entered rid w)
         = (Throws e, w1) ->
         handleWebhookEvent cfg (WebhookEvent event) rid w = (Throws e, w1)).
Proof.
  intros Hscope.
  destruct (getSubitemWithParent_of_query
              (or_else (subitemId event) (pulseId event)) (Some rid) (entered rid w))
    as [Hnone Hthrow].
  destruct (handleWebhookEvent cfg (WebhookEvent event) rid w) as [r w'] eqn:Hrun.
  pose proof (handleWebhookEvent_ends event rid w r w' Hscope Hrun) as Hend.
  split.
  - intros w1 Hq.
    destruct (Ending_when_not_found _ _ _ _ _ _ _ _ (Hnone w1 Hq) Hend)
      as (-> & Hn & Hc).
    exists w'. repeat split; assumption.
  - intros e w1 Hq.
    destruct (Ending_when_fetch_throws _ _ _ _ _ _ _ _ _ (Hthrow e w1 Hq) Hend)
      as (-> & ->).
    reflexivity.
Qed.

(* ------------------------------------------------------------------ *)
(** *** The parent of an event in scope *)

Lemma handleWebhookEvent_parent_found fetched event :
  pulseId event <> 0 -> boardId event <> 0 ->
  handleWebhookEvent_parent fetched event <> None.
Proof.
  intros Hp Hb. unfold handleWebhookEvent_parent.
  apply Z.eqb_neq in Hp, Hb. rewrite Hp, Hb. cbn [negb andb].
  destruct (parent_item fetched); [discriminate |].
  destruct (parentItemId event) as [a |], (parentItemBoardId event) as [b |];
    try discriminate.
  destruct (negb (a =? 0) && negb (b =? 0))%bool; discriminate.
Qed.

(** X9. With board ids that are not zero, the handler for subitem changes
    never answers 'Subitem has no parent item' to an event whose [pulseId] is
    not zero: when neither the lookup nor the nested fields give a parent,
    the [pulseId] and [boardId] of the event are taken as the parent. *)
Theorem parent_is_always_resolved (event : Event) (rid : string) (w : World) :
  subitem (boards cfg) <> 0 ->
  feature (boards cfg) <> 0 ->
  pulseId event <> 0 ->
  fst (handleWebhookEvent cfg (WebhookEvent event) rid w)
  <> Returns (rejected "Subitem has no parent item").
Proof.
  intros Hs Hf Hp.
  destruct (handleWebhookEvent cfg (WebhookEvent event) rid w) as [r w'] eqn:Hrun.
  cbn [fst].
  destruct (handleWebhookEvent_any event rid w r w' Hrun)
    as [[_ [-> | [-> | [-> _]]]] | [(Hb & _) Hend]]; try discriminate.
  assert (Hboard : boardId event <> 0) by (destruct Hb; congruence).
  destruct Hend as [e w1 Hfe | w1 w' Hfe Hq | fetched w1 w' Hfe Hnone Hq
                    | fetched w1 w' pid pbid Hfe Hsome Hne Hq
                    | fetched w1 pid counts w2 w' Hfe Hsome Hloop Hq];
    try discriminate.
  exfalso. exact (handleWebhookEvent_parent_found fetched event Hp Hboard Hnone).
Qed.

(* ------------------------------------------------------------------ *)
(** *** The two revisions on a direct event *)

Lemma or_else_falsy x y : truthy_opt x = false -> or_else x y = y.
Proof.
  destruct x as [z |]; cbn; [| reflexivity].
  destruct (z =? 0); [reflexivity | discriminate].
Qed.

(** X10. On an event from the subitem board that carries no [subitemId], the
    handler for subitem changes does what the handler for direct changes
    does, same result and same world, unless the fetched subitem has no
    parent: there the older handler rejects the event and the newer one falls
    back on the fields of the event. *)
Theorem revisions_agree_on_direct_events (event : Event) (rid : string) (w : World) :
  boardId event = subitem (boards cfg) ->
  truthy_opt (subitemId event) = false ->
  handleWebhookEvent cfg (WebhookEvent event) rid w
  = handleWebhookEvent_direct cfg (WebhookEvent event) rid w
  \/ exists fetched w1,
      getSubitemWithParent cfg (pulseId event) (Some rid) (entered rid w)
      = (Returns (Some fetched), w1)
      /\ parent_item fetched = None.
Proof.
  intros Hb Hsid. unfold handleWebhookEvent, handleWebhookEvent_direct.
  rewrite (or_else_falsy _ (pulseId event) Hsid), Hb, Z.eqb_refl. cbn [negb andb].
  destruct (negb (columnId event =? subitemToMain (columns cfg))%string);
    [now left |].
  destruct (Nat.eqb (List.length (event_linkedMainItemIds event)) 0); [now left |].
  unfold bind at 1. cbn [log]. unfold bind at 1. cbn [log]. unfold bind at 1.
  unfold bind at 3. cbn [log]. unfold bind at 3. cbn [log]. unfold bind at 3.
  match goal with
  | |- context [getSubitemWithParent cfg ?sid ?rq ?w0] =>
      change w0 with (entered rid w)
  end.
  destruct (getSubitemWithParent cfg (pulseId event) (Some rid) (entered rid w))
    as [[[fetched |] | e] w1] eqn:Hfetch; [| now left | now left].
  destruct (parent_item fetched) as [p |] eqn:Hp.
  - left. unfold handleWebhookEvent_parent. rewrite Hp. reflexivity.
  - right. exists fetched, w1. split; [reflexivity | exact Hp].
Qed.

(* ------------------------------------------------------------------ *)
(** *** The set that is written *)

Lemma fold_Set_add_fresh xs : forall set,
  NoDup (set ++ xs) -> fold_left Set_add xs set = (set ++ xs)%list.
Proof.
  induction xs as [| x xs IH]; intros set Hnd; cbn [fold_left].
  - now rewrite app_nil_r.
  - assert (Hinc : includes set x = false).
    { destruct (includes set x) eqn:Hinc; [| reflexivity].
      apply includes_In in Hinc. apply NoDup_remove_2 in Hnd.
      exfalso. apply Hnd. apply in_or_app. now left. }
    replace (Set_add set x) with (set ++ [x])%list
      by (unfold Set_add; now rewrite Hinc).
    rewrite IH; rewrite <- app_assoc; [reflexivity | exact Hnd].
Qed.

(** X11. Outside a dry run, when the ids read from a main item are distinct
    and the parent is not among them, every write request the item sends
    carries the ids as read, in their order, followed by the parent; at least
    one is sent when the item completes. *)
Theorem merge_appends_the_parent (pid : number) (rid : string) (counts : Counts)
        (m : Z) (w w1 : World) (existing : list jsval) :
  dryRun cfg = false ->
  getMainItemLinkedIds cfg m (Some rid) w = (Returns existing, w1) ->
  NoDup existing ->
  includes existing (Number pid) = false ->
  exists r w2 k,
    handleWebhookEvent_item cfg pid rid counts m w = (r, w2)
    /\ calls w2
       = (calls w1 ++ repeat (write_request cfg m (existing ++ [Number pid])) k)%list
    /\ (forall c, r = Returns c -> (1 <= k)%nat).
Proof.
  intros Hdry Hread Hnd Hinc.
  destruct (handleWebhookEvent_item_writes cfg pid rid counts m w existing w1
              Hread Hinc Hdry) as (r & w2 & k & Hrun & Hcalls & Hret & _).
  exists r, w2, k. split; [exact Hrun |]. split.
  - rewrite Hcalls. unfold Set_spread. rewrite fold_Set_add_fresh; [reflexivity |].
    cbn [app]. apply NoDup_app; [exact Hnd | repeat constructor; intros [] |].
    intros x Hx [<- | []]. apply includes_number in Hx. congruence.
  - intros c Hc. exact (proj1 (Hret c Hc)).
Qed.

(* ------------------------------------------------------------------ *)
(** *** Reading a relation column *)

Lemma map_linkedPulseId_wrapped (ids : list number) :
  map_linkedPulseId (map (fun n => Object [("linkedPulseId", Number n)]) ids)
  = Some (map Number ids).
Proof.
  induction ids as [| n ids IH]; [reflexivity |].
  cbn [map map_linkedPulseId]. rewrite IH. reflexivity.
Qed.

(** X12. A column value that [JSON.parse] reads as
    [{ linkedPulseIds: [{ linkedPulseId: n1 }, ...] }] is decoded by
    [parseLinkedItemIds] to the ids [n1, ...], in their order. *)
Theorem wire_form_decodes_to_its_ids (raw : string) (ids : list number) :
  raw <> EmptyString ->
  JSON_parse raw = Some (wrapped_ids ids) ->
  parseLinkedItemIds (Some raw) = map Number ids.
Proof.
  intros Hraw Hparse. unfold parseLinkedItemIds.
  apply String.eqb_neq in Hraw. rewrite Hraw.
  unfold parse_relation_value. rewrite Hparse. unfold wrapped_ids.
  cbn [get_property lookup_field String.eqb Ascii.eqb Bool.eqb truthy Array_isArray
       andb].
  rewrite map_linkedPulseId_wrapped. reflexivity.
Qed.

(** X13. [getMainItemLinkedIds] and [parseLinkedItemIds] decode alike: when
    the query returns items, the ids returned are those that
    [parseLinkedItemIds] gives for the value of the relation column of the
    first item, and none when there is no item or no such column. *)
Theorem read_agrees_with_parseLinkedItemIds
        (m : Z) (rid : option string) (w w1 : World) (items : list Item) :
  mondayQuery cfg (GetMainItemLinks (mainToFeature (columns cfg)) [String_of_Z m]) rid w
  = (Returns (ItemsData items), w1) ->
  fst (getMainItemLinkedIds cfg m rid w)
  = Returns
      match hd_error items with
      | None => []
      | Some mainItem =>
          match find (fun col => String.eqb (cv_id col) (mainToFeature (columns cfg)))
                     (column_values mainItem) with
          | None => []
          | Some relationColumn => parseLinkedItemIds (cv_value relationColumn)
          end
      end.
Proof.
  intros Hq. unfold getMainItemLinkedIds. unfold bind at 1. rewrite Hq. cbn.
  destruct (hd_error items) as [mainItem |]; [| reflexivity].
  destruct (find _ (column_values mainItem)) as [col |]; [| reflexivity].
  unfold parseLinkedItemIds.
  destruct (cv_value col) as [raw |]; [| reflexivity].
  destruct (String.eqb raw EmptyString); [reflexivity |].
  destruct (parse_relation_value raw) as [ids | []]; reflexivity.
Qed.

(* ------------------------------------------------------------------ *)
(** *** Startup *)

(** X14. With the configuration read from the environment, [validateConfig]
    returns exactly when MONDAY_TOKEN is set to a string that is not empty;
    otherwise it throws 'MONDAY_TOKEN environment variable is required'.  The
    other variables play no part. *)
Theorem startup_requires_a_token (env : ProcessEnv) :
  (validateConfig (config env) = Returns tt
   <-> exists token, MONDAY_TOKEN env = Some token /\ token <> EmptyString)
  /\ (validateConfig (config env) <> Returns tt ->
      validateConfig (config env)
      = Throws (mkError "MONDAY_TOKEN environment variable is required")).
Proof.
  unfold validateConfig, config. cbn [mondayToken]. unfold env_or.
  destruct (MONDAY_TOKEN env) as [token |].
  - destruct (String.eqb token EmptyString) eqn:He.
    + cbn. split; [| reflexivity]. split; [discriminate |].
      intros (t & Ht & Hne). injection Ht as <-.
      apply String.eqb_eq in He. contradiction.
    + rewrite He. split; [| intros H; now contradiction H].
      split; [| reflexivity]. intros _. exists token.
      split; [reflexivity |]. now apply String.eqb_neq.
  - cbn. split; [| reflexivity].
    split; [discriminate | intros (t & Ht & _); discriminate Ht].
Qed.

(* ------------------------------------------------------------------ *)
(** *** The HTTP entry point *)

Lemma timingSafeEqual_true a b : timingSafeEqual a b = Returns true <-> a = b.
Proof.
  unfold timingSafeEqual. split.
  - destruct (Nat.eqb (String.length a) (String.length b)); [| discriminate].
    intros H. injection H as H. now apply String.eqb_eq.
  - intros ->. rewrite Nat.eqb_refl, String.eqb_refl. reflexivity.
Qed.

Lemma timingSafeEqual_throws a b e :
  timingSafeEqual a b = Throws e
  <-> String.length a <> String.length b
      /\ e = mkError "Input buffers must have the same byte length".
Proof.
  unfold timingSafeEqual.
  destruct (Nat.eqb (String.length a) (String.length b)) eqn:Hl.
  - apply Nat.eqb_eq in Hl. split; [discriminate | intros [H _]; contradiction].
  - apply Nat.eqb_neq in Hl. split.
    + intros H. injection H as <-. split; [exact Hl | reflexivity].
    + intros [_ ->]. reflexivity.
Qed.

(** X15. Without a signing secret [verifySignature] accepts every request.
    With one, it accepts exactly the requests whose signature header is one
    string equal to the digest of the raw body under the secret; and it
    throws, instead of answering, exactly when the header is one string, not
    empty, whose length is not that of the digest. *)
Theorem verifySignature_accepts_exactly_the_digest
        (hmac_sha256_base64 : string -> string -> string) (req : HttpRequest) :
  let computed :=
    hmac_sha256_base64 (webhookSigningSecret cfg)
                       match rawBody req with
                       | Some raw => raw
                       | None => EmptyString
                       end in
  (webhookSigningSecret cfg = EmptyString ->
   verifySignature cfg hmac_sha256_base64 req = Returns true)
  /\ (webhookSigningSecret cfg <> EmptyString ->
      (verifySignature cfg hmac_sha256_base64 req = Returns true
       <-> x_monday_signature req = Some (HeaderString computed)
           /\ computed <> EmptyString)
      /\ (forall e,
             verifySignature cfg hmac_sha256_base64 req = Throws e
             <-> exists signature,
                 x_monday_signature req = Some (HeaderString signature)
                 /\ signature <> EmptyString
                 /\ String.length signature <> String.length computed
                 /\ e = mkError "Input buffers must have the same byte length")).
Proof.
  intros computed. unfold verifySignature. split.
  - intros ->. reflexivity.
  - intros Hsecret. apply String.eqb_neq in Hsecret. rewrite Hsecret.
    fold computed.
    destruct (x_monday_signature req) as [[signature | l] |].
    2, 3: split; [split; [discriminate | intros [H _]; discriminate H] |];
          intros e; split; [discriminate | intros (s & H & _); discriminate H].
    destruct (String.eqb signature EmptyString) eqn:He.
    + apply String.eqb_eq in He. subst signature. split.
      * split; [discriminate |]. intros [H Hne]. injection H as H. congruence.
      * intros e. split; [discriminate |].
        intros (s & H & Hne & _). injection H as <-. now contradiction Hne.
    + apply String.eqb_neq in He. split.
      * rewrite timingSafeEqual_true. split.
        -- intros <-. split; [reflexivity | exact He].
        -- intros [H _]. now injection H.
      * intros e. rewrite timingSafeEqual_throws. split.
        -- intros [Hl ->]. exists signature. repeat split; assumption.
        -- intros (s & H & _ & Hl & ->). injection H as <-. split; [exact Hl | reflexivity].
Qed.

(** X16. The route [POST /webhook], for any handler.  A request whose
    signature is refused is answered 401 'Invalid signature' and the handler
    is not run: nothing is sent to the platform.  A request whose signature
    is accepted is always answered: 200 when the handler returns, with the
    challenge alone when the result carries one that is not empty and the
    result as it is otherwise, and 500 with the request id when the handler
    throws.  When [verifySignature] throws, the route throws and no answer is
    made. *)
Theorem post_webhook_responses
        (hmac_sha256_base64 : string -> string -> string)
        (handler : Payload -> string -> M Outcome)
        (requestId : string) (req : HttpRequest) (w : World) :
  let w0 := snd (log info "Incoming webhook request" (Some requestId) w) in
  (verifySignature cfg hmac_sha256_base64 req = Returns false ->
   exists w',
     post_webhook cfg hmac_sha256_base64 handler requestId req w
     = (Returns {| statusCode := 401; sent := InvalidSignature |}, w')
     /\ quiet w w')
  /\ (verifySignature cfg hmac_sha256_base64 req = Returns true ->
      exists resp w',
        post_webhook cfg hmac_sha256_base64 handler requestId req w
        = (Returns resp, w')
        /\ quiet (snd (handler (body req) requestId w0)) w'
        /\ (forall e, fst (handler (body req) requestId w0) = Throws e ->
                      resp = {| statusCode := 500;
                                sent := InternalServerError requestId |})
        /\ (forall result, fst (handler (body req) requestId w0) = Returns result ->
                           statusCode resp = 200
                           /\ (forall token,
                                  challenge result = Some token ->
                                  token <> EmptyString ->
                                  sent resp = ChallengeEcho token)
                           /\ ((challenge result = None
                                \/ challenge result = Some EmptyString) ->
                               sent resp = HandlerResult result)))
  /\ (forall e,
         verifySignature cfg hmac_sha256_base64 req = Throws e ->
         post_webhook cfg hmac_sha256_base64 handler requestId req w
         = (Throws e, w0)).
Proof.
  intros w0. subst w0. unfold post_webhook, try_catch, bind, ret, throw.
  cbn [log fst snd].
  split; [| split].
  - intros ->. eexists. split; [reflexivity | split; reflexivity].
  - intros ->.
    destruct (handler (body req) requestId _) as [[result | e] w1];
      cbn [fst snd].
    + destruct (challenge result) as [token |] eqn:Hc;
        [destruct (String.eqb token EmptyString) eqn:He |].
      * apply String.eqb_eq in He. subst token.
        do 2 eexists. split; [reflexivity |]. split; [apply quiet_refl |].
        split; [intros e H; discriminate H |].
        intros result' H. injection H as <-. split; [reflexivity |]. split.
        -- intros token Ht Hne. rewrite Hc in Ht. injection Ht as <-.
           now contradiction Hne.
        -- intros _. reflexivity.
      * apply String.eqb_neq in He.
        do 2 eexists. split; [reflexivity |]. split; [apply quiet_refl |].
        split; [intros e H; discriminate H |].
        intros result' H. injection H as <-. split; [reflexivity |]. split.
        -- intros token' Ht _. rewrite Hc in Ht. injection Ht as <-. reflexivity.
        -- intros [H | H]; rewrite Hc in H; [discriminate H |].
           injection H as ->. now contradiction He.
      * do 2 eexists. split; [reflexivity |]. split; [apply quiet_refl |].
        split; [intros e H; discriminate H |].
        intros result' H. injection H as <-. split; [reflexivity |]. split.
        -- intros token Ht _. rewrite Hc in Ht. discriminate Ht.
        -- intros _. reflexivity.
    + do 2 eexists. split; [reflexivity |]. split; [split; reflexivity |].
      split; [intros _ _; reflexivity | intros result H; discriminate H].
  - intros e ->. reflexivity.
Qed.




(* ------------------------------------------------------------------ *)
(** *** What the attempts of a call were *)

Lemma mondayQuery_loop_trace query rid remaining :
  forall attempt lastError w r w',
    mondayQuery_loop cfg remaining attempt lastError query rid w = (r, w') ->
    exists k es,
      calls w' = (calls w ++ repeat (mondayQuery_request cfg query) k)%list
      /\ (forall d, r = Returns d ->
                    attempts cfg query k (net w)
                    = (map Throws es ++ [Returns d])%list)
      /\ (forall e, r = Throws e ->
                    k = remaining
                    /\ attempts cfg query k (net w) = map Throws es
                    /\ e = last es (match lastError with
                                    | Some e0 => e0
                                    | None => mkError "Unknown error during API call"
                                    end)).
Proof.
  induction remaining as [| remaining IH]; intros attempt lastError w r w' Hrun.
  - cbn in Hrun. injection Hrun as <- <-. exists 0%nat, [].
    split; [cbn; now rewrite app_nil_r |].
    split; [intros d Hd; discriminate Hd |].
    intros e He. injection He as <-. repeat split.
  - destruct (attempt_on cfg query (net w)) as [[d | e] n'] eqn:Hfirst.
    + destruct (mondayQuery_loop_succeeded cfg remaining attempt lastError query rid
                  w d n' Hfirst) as (w1 & Heq & Hnet & Hcalls).
      rewrite Heq in Hrun. injection Hrun as <- <-. exists 1%nat, [].
      split; [exact Hcalls |].
      split; [| intros e He; discriminate He].
      intros d0 Hd. injection Hd as <-. cbn [attempts]. rewrite Hfirst. reflexivity.
    + destruct (mondayQuery_loop_failed cfg remaining attempt lastError query rid
                  w e n' Hfirst) as (w1 & Heq & Hnet & Hcalls).
      rewrite Heq in Hrun.
      destruct (IH _ _ _ _ _ Hrun) as (k & es & Hcalls' & Hret & Hthrow).
      exists (S k), (e :: es).
      split; [rewrite Hcalls', Hcalls, <- app_assoc; reflexivity |].
      split.
      * intros d Hd. cbn [attempts]. rewrite Hfirst, <- Hnet, (Hret d Hd).
        reflexivity.
      * intros e0 He0. destruct (Hthrow e0 He0) as (-> & Hall & ->).
        split; [reflexivity |]. split.
        -- cbn [attempts]. rewrite Hfirst, <- Hnet, Hall. reflexivity.
        -- now rewrite last_cons.
Qed.

(** X18. What a call through [mondayQuery] did, read off its result.  When it
    returns, every attempt before the last one failed and the last one
    returned the data that the call returns: it stops at the first attempt
    that succeeds.  When it throws, it has made all [maxAttempts] attempts,
    every one of them failed, and the error is that of the last one (the
    error 'Unknown error during API call' when [maxAttempts] is 0). *)
Theorem mondayQuery_stops_at_first_success
        (query : GraphQL) (rid : option string) (w : World)
        (r : Result Data) (w' : World) :
  mondayQuery cfg query rid w = (r, w') ->
  exists k es,
    calls w' = (calls w ++ repeat (mondayQuery_request cfg query) k)%list
    /\ (forall d, r = Returns d ->
                  k = S (List.length es)
                  /\ attempts cfg query k (net w)
                     = (map Throws es ++ [Returns d])%list)
    /\ (forall e, r = Throws e ->
                  k = maxAttempts (retry cfg)
                  /\ attempts cfg query k (net w) = map Throws es
                  /\ e = last es (mkError "Unknown error during API call")).
Proof.
  intros Hrun.
  destruct (mondayQuery_loop_trace query rid _ _ _ _ _ _ Hrun)
    as (k & es & Hcalls & Hret & Hthrow).
  exists k, es. split; [exact Hcalls |]. split; [| exact Hthrow].
  intros d Hd. split; [| exact (Hret d Hd)].
  pose proof (f_equal (@List.length _) (Hret d Hd)) as Hlen.
  rewrite length_app, length_map in Hlen. cbn [List.length] in Hlen.
  assert (Hk : forall n k0, List.length (attempts cfg query k0 n) = k0).
  { intros n k0. revert n. induction k0 as [| k0 IHk]; intros n; [reflexivity |].
    cbn [attempts]. destruct (attempt_on cfg query n) as [r0 n0].
    cbn [List.length]. now rewrite IHk. }
  rewrite Hk in Hlen. lia.
Qed.

End FurtherProperties.

(* ------------------------------------------------------------------ *)
(** *** On the sample platforms *)

Import Deliveries.


Lemma mondayQuery_sleeps_between_attempts_witness :
  exists k,
    (k <= 3)%nat
    /\ (1 <= 3 -> 1 <= k)%nat
    /\ calls (snd (mondayQuery live (links_query 70) (Some "req_1")
                               (replaying [refused; unavailable; answer (ItemsData [])])))
       = (calls (replaying [refused; unavailable; answer (ItemsData [])])
          ++ repeat (mondayQuery_request live (links_query 70)) k)%list
    /\ sleeps (snd (mondayQuery live (links_query 70) (Some "req_1")
                                (replaying [refused; unavailable;
                                            answer (ItemsData [])])))
       = (sleeps (replaying [refused; unavailable; answer (ItemsData [])])
          ++ backoff_schedule (platform := scripted) live 1 0 (k - 1))%list
    /\ randoms (snd (mondayQuery live (links_query 70) (Some "req_1")
                                 (replaying [refused; unavailable;
                                             answer (ItemsData [])])))
       = (0 + (k - 1))%nat
    /\ Forall (fun delay => (delay <= inject_Z 10000)%Q)
              (backoff_schedule (platform := scripted) live 1 0 (k - 1)).
Proof.
  apply (mondayQuery_sleeps_between_attempts
           (platform := scripted) live (links_query 70) (Some "req_1")
           (replaying [refused; unavailable; answer (ItemsData [])])
           (Returns (ItemsData []))).
  apply run_eq. vm_compute. reflexivity.
Defined.

Lemma dry_run_never_writes_witness :
  writes (snd (handleWebhookEvent dry (WebhookEvent (subitem_change [70; 71]))
                                  "req_1" (serving office)))
  = writes (serving office)
  /\ writes (snd (handleWebhookEvent_direct dry (WebhookEvent (subitem_change [70; 71]))
                                            "req_1" (serving office)))
     = writes (serving office).
Proof.
  apply (dry_run_never_writes (platform := board) dry).
  reflexivity.
Defined.

Lemma reported_counts_are_bounded_witness :
  ({| challenge := None; success := Some true;
      message := Some "Updated 1 main items, skipped 1";
      outcome_dryRun := Some false |} = nothing_to_do
   /\ event_linkedMainItemIds (subitem_change [70; 71; 72]) = [])
  \/ (exists counts,
         {| challenge := None; success := Some true;
            message := Some "Updated 1 main items, skipped 1";
            outcome_dryRun := Some false |} = processed live counts
         /\ (updatedCount counts + skippedCount counts
             <= List.length (event_linkedMainItemIds
                               (subitem_change [70; 71; 72]%Z)))%nat).
Proof.
  apply (reported_counts_are_bounded
           (platform := board) live (subitem_change [70; 71; 72]) "req_1"
           (serving office) _
           (snd (handleWebhookEvent live (WebhookEvent (subitem_change [70; 71; 72]))
                                    "req_1" (serving office)))).
  - left. apply run_eq. vm_compute. reflexivity.
  - reflexivity.
Defined.

Lemma no_write_without_success_witness :
  writes (snd (handleWebhookEvent live (WebhookEvent (subitem_change [70])) "req_1"
                 (replaying [answer (ItemsData [subitem_item 9001 (Some (501, 42))])])))
  = writes (replaying [answer (ItemsData [subitem_item 9001 (Some (501, 42))])]).
Proof.
  apply (no_write_without_success
           (platform := scripted) live (WebhookEvent (subitem_change [70])) "req_1"
           (replaying [answer (ItemsData [subitem_item 9001 (Some (501, 42))])])
           (Returns (rejected "Parent item not from expected Feature board"))).
  - left. apply run_eq. vm_compute. reflexivity.
  - intros out Hout Hs. injection Hout as <-. discriminate Hs.
Defined.

Lemma subitem_lookup_failures_witness :
  (exists w',
      handleWebhookEvent live (WebhookEvent (subitem_change [70])) "req_1"
                         (replaying [answer (ItemsData [])])
      = (Returns (rejected "Failed to fetch subitem"), w')
      /\ List.length (calls w') = 1%nat)
  /\ fst (handleWebhookEvent live (WebhookEvent (subitem_change [70])) "req_1"
                             (replaying [refused; unavailable; refused]))
     = Throws (mkError "connect ECONNREFUSED").
Proof.
  assert (Hscope : in_scope live (subitem_change [70])).
  { split; [right; reflexivity |]. split; [reflexivity | discriminate]. }
  split.
  - destruct (proj1 (subitem_lookup_failures
                       (platform := scripted) live (subitem_change [70]) "req_1"
                       (replaying [answer (ItemsData [])]) Hscope)
                    (snd (mondayQuery live
                            (GetSubitemWithParent "board_relation_mkw4vrjt" ["9001"])
                            (Some "req_1")
                            (entered "req_1" (replaying [answer (ItemsData [])])))))
      as (w' & Hrun & Hcalls & _);
      [apply run_eq; vm_compute; reflexivity |].
    exists w'. split; [exact Hrun |]. rewrite Hcalls. vm_compute. reflexivity.
  - rewrite (proj2 (subitem_lookup_failures
                      (platform := scripted) live (subitem_change [70]) "req_1"
                      (replaying [refused; unavailable; refused]) Hscope)
                   (mkError "connect ECONNREFUSED")
                   (snd (mondayQuery live
                           (GetSubitemWithParent "board_relation_mkw4vrjt" ["9001"])
                           (Some "req_1")
                           (entered "req_1"
                                    (replaying [refused; unavailable; refused])))));
      [reflexivity | apply run_eq; vm_compute; reflexivity].
Defined.

Lemma parent_is_always_resolved_witness :
  fst (handleWebhookEvent live
         (WebhookEvent (with_nested None None (subitem_change [70]))) "req_1"
         (replaying [answer (ItemsData [subitem_item 9001 None])]))
  <> Returns (rejected "Subitem has no parent item").
Proof.
  apply (parent_is_always_resolved
           (platform := scripted) live
           (with_nested None None (subitem_change [70])) "req_1"
           (replaying [answer (ItemsData [subitem_item 9001 None])]));
    intros H; discriminate H.
Defined.

Lemma revisions_agree_on_direct_events_witness :
  handleWebhookEvent live (WebhookEvent (direct_change [70; 71])) "req_1"
                     (serving office)
  = handleWebhookEvent_direct live (WebhookEvent (direct_change [70; 71])) "req_1"
                              (serving office)
  \/ exists fetched w1,
      getSubitemWithParent live (pulseId (direct_change [70; 71])) (Some "req_1")
                           (entered "req_1" (serving office))
      = (Returns (Some fetched), w1)
      /\ parent_item fetched = None.
Proof.
  apply (revisions_agree_on_direct_events
           (platform := board) live (direct_change [70; 71]) "req_1" (serving office));
    reflexivity.
Defined.

Lemma merge_appends_the_parent_witness :
  exists r w2 k,
    handleWebhookEvent_item live (Int 501) "req_1" no_counts 70 (serving office)
    = (r, w2)
    /\ calls w2
       = (calls (snd (getMainItemLinkedIds live 70 (Some "req_1") (serving office)))
          ++ repeat (write_request live 70
                       ([Number (Int 1); Number (Int 2)] ++ [Number (Int 501)])) k)%list
    /\ (forall c, r = Returns c -> (1 <= k)%nat).
Proof.
  apply (merge_appends_the_parent
           (platform := board) live (Int 501) "req_1" no_counts 70 (serving office)
           (snd (getMainItemLinkedIds live 70 (Some "req_1") (serving office)))
           [Number (Int 1); Number (Int 2)]).
  - reflexivity.
  - apply run_eq. vm_compute. reflexivity.
  - repeat constructor; cbn; intuition discriminate.
  - reflexivity.
Defined.

Lemma wire_form_decodes_to_its_ids_witness :
  parseLinkedItemIds (platform := scripted) (Some (render_links [1; 22]))
  = map Number [Int 1; Int 22].
Proof.
  apply (wire_form_decodes_to_its_ids (platform := scripted)).
  - vm_compute. intros H. discriminate H.
  - vm_compute. reflexivity.
Defined.

Lemma read_agrees_with_parseLinkedItemIds_witness :
  fst (getMainItemLinkedIds live 70 (Some "req_1")
         (replaying [answer (ItemsData [main_item "board_relation_mkw8vvdh" 70
                                                  (Some (render_links [1; 2]))])]))
  = Returns
      match hd_error [main_item "board_relation_mkw8vvdh" 70
                                (Some (render_links [1; 2]))] with
      | None => []
      | Some mainItem =>
          match find (fun col => String.eqb (cv_id col) (mainToFeature (columns live)))
                     (column_values mainItem) with
          | None => []
          | Some relationColumn =>
              parseLinkedItemIds (platform := scripted) (cv_value relationColumn)
          end
      end.
Proof.
  apply (read_agrees_with_parseLinkedItemIds
           (platform := scripted) live 70 (Some "req_1")
           (replaying [answer (ItemsData [main_item "board_relation_mkw8vvdh" 70
                                                    (Some (render_links [1; 2]))])])
           (snd (mondayQuery live (links_query 70) (Some "req_1")
                   (replaying [answer (ItemsData
                                         [main_item "board_relation_mkw8vvdh" 70
                                                    (Some (render_links [1; 2]))])])))).
  apply run_eq. vm_compute. reflexivity.
Defined.

Lemma startup_requires_a_token_witness :
  validateConfig (config {| MONDAY_TOKEN := Some "token";
                            WEBHOOK_SIGNING_SECRET := None;
                            PORT := Some "8080"; DRY_RUN := None |})
  = Returns tt
  /\ validateConfig (config {| MONDAY_TOKEN := Some EmptyString;
                               WEBHOOK_SIGNING_SECRET := Some "s3cret";
                               PORT := None; DRY_RUN := Some "true" |})
     = Throws (mkError "MONDAY_TOKEN environment variable is required").
Proof.
  split.
  - apply (proj1 (startup_requires_a_token _)).
    exists "token". split; [reflexivity | intros H; discriminate H].
  - apply (proj2 (startup_requires_a_token _)).
    intros H. discriminate H.
Defined.

Lemma verifySignature_accepts_exactly_the_digest_witness :
  verifySignature live keyed (delivery None (WebhookChallenge "abc123")) = Returns true
  /\ verifySignature guarded keyed
       (delivery (Some (HeaderString (keyed "s3cret" "{}"))) (WebhookChallenge "abc123"))
     = Returns true
  /\ verifySignature guarded keyed
       (delivery (Some (HeaderString "forged")) (WebhookChallenge "abc123"))
     = Throws (mkError "Input buffers must have the same byte length").
Proof.
  split; [| split].
  - apply (proj1 (verifySignature_accepts_exactly_the_digest
                    live keyed (delivery None (WebhookChallenge "abc123")))).
    reflexivity.
  - apply (proj1 (proj2 (verifySignature_accepts_exactly_the_digest
                           guarded keyed
                           (delivery (Some (HeaderString (keyed "s3cret" "{}")))
                                     (WebhookChallenge "abc123")))
                        ltac:(intros H; discriminate H))).
    split; [reflexivity | intros H; discriminate H].
  - apply (proj2 (proj2 (verifySignature_accepts_exactly_the_digest
                           guarded keyed
                           (delivery (Some (HeaderString "forged"))
                                     (WebhookChallenge "abc123")))
                        ltac:(intros H; discriminate H))).
    exists "forged". split; [reflexivity |]. split; [intros H; discriminate H |].
    split; [intros H; discriminate H | reflexivity].
Defined.

Lemma post_webhook_responses_witness :
  (exists w',
      post_webhook guarded keyed (handleWebhookEvent guarded) "req_1"
                   (delivery None (WebhookEvent (subitem_change [70])))
                   (serving office)
      = (Returns {| statusCode := 401; sent := InvalidSignature |}, w')
      /\ quiet (serving office) w')
  /\ (exists resp w',
         post_webhook guarded keyed (handleWebhookEvent guarded) "req_1"
                      (delivery (Some (HeaderString (keyed "s3cret" "{}")))
                                (WebhookChallenge "abc123"))
                      (serving office)
         = (Returns resp, w')
         /\ statusCode resp = 200
         /\ sent resp = ChallengeEcho "abc123").
Proof.
  split.
  - apply (proj1 (post_webhook_responses
                    (platform := board) guarded keyed (handleWebhookEvent guarded)
                    "req_1" (delivery None (WebhookEvent (subitem_change [70])))
                    (serving office))).
    reflexivity.
  - destruct (proj1 (proj2 (post_webhook_responses
                              (platform := board) guarded keyed
                              (handleWebhookEvent guarded) "req_1"
                              (delivery (Some (HeaderString (keyed "s3cret" "{}")))
                                        (WebhookChallenge "abc123"))
                              (serving office)))
                    eq_refl) as (resp & w' & Hrun & _ & _ & Hret).
    destruct (Hret {| challenge := Some "abc123"; success := None; message := None;
                      outcome_dryRun := None |})
      as (Hstatus & Hecho & _); [vm_compute; reflexivity |].
    exists resp, w'. split; [exact Hrun |]. split; [exact Hstatus |].
    apply Hecho; [reflexivity | intros H; discriminate H].
Defined.


Lemma mondayQuery_stops_at_first_success_witness :
  exists k es,
    calls (snd (mondayQuery live (links_query 70) (Some "req_1")
                            (replaying [refused; unavailable; answer (ItemsData [])])))
    = (calls (replaying [refused; unavailable; answer (ItemsData [])])
       ++ repeat (mondayQuery_request live (links_query 70)) k)%list
    /\ k = S (List.length es)
    /\ attempts (platform := scripted) live (links_query 70) k
                [refused; unavailable; answer (ItemsData [])]
       = (map Throws es ++ [Returns (ItemsData [])])%list.
Proof.
  destruct (mondayQuery_stops_at_first_success
              (platform := scripted) live (links_query 70) (Some "req_1")
              (replaying [refused; unavailable; answer (ItemsData [])])
              (Returns (ItemsData []))
              (snd (mondayQuery live (links_query 70) (Some "req_1")
                      (replaying [refused; unavailable; answer (ItemsData [])]))))
    as (k & es & Hcalls & Hret & _);
    [apply run_eq; vm_compute; reflexivity |].
  exists k, es. split; [exact Hcalls |]. exact (Hret (ItemsData []) eq_refl).
Defined.
